(** * The support-email dashboard script (static/script.js)

    A shallow embedding of the browser script: the values it receives from
    the backend as JSON, the globals and the page elements it reads and
    writes, its functions and event listeners, and the properties of the
    specification that are about them. *)

From Stdlib Require Import String Ascii Bool Arith NArith ZArith QArith Lia List.
Import ListNotations.

#[local] Set Warnings "-register-all".
Local Open Scope nat_scope.

(** ** Strings

    A JavaScript string is a sequence of 16-bit UTF-16 code units. *)

Definition jsstring := list N.

(** A literal of the script whose characters are all ASCII. *)
Definition js (s : string) : jsstring :=
  map N_of_ascii (list_ascii_of_string s).

Fixpoint str_eqb (a b : jsstring) : bool :=
  match a, b with
  | [], [] => true
  | x :: a', y :: b' => N.eqb x y && str_eqb a' b'
  | _, _ => false
  end.

(** WhiteSpace and LineTerminator code points of ECMAScript, the ones
    String.prototype.trim strips: TAB, LF, VT, FF, CR, SP, NBSP, the Zs
    category, LS, PS and the byte order mark. All lie in the basic plane,
    so each is one code unit. *)
Definition isWhiteSpace (c : N) : bool :=
  (((9 <=? c) && (c <=? 13)) || (c =? 32) || (c =? 160) || (c =? 5760)
   || ((8192 <=? c) && (c <=? 8202)) || (c =? 8232) || (c =? 8233)
   || (c =? 8239) || (c =? 8287) || (c =? 12288) || (c =? 65279))%N.

Fixpoint trimStart (s : jsstring) : jsstring :=
  match s with
  | [] => []
  | c :: s' => if isWhiteSpace c then trimStart s' else s
  end.

Definition trimEnd (s : jsstring) : jsstring := rev (trimStart (rev s)).

(** String.prototype.trim *)
Definition trim (s : jsstring) : jsstring := trimEnd (trimStart s).

(** ** Values

    What JSON.parse can produce, and [undefined] for an absent property.
    A number is the rational its double denotes. An object is the list of
    its own properties, duplicate keys already resolved by the parser;
    none of them is a function. *)

Inductive value : Type :=
| VUndefined
| VNull
| VBool (b : bool)
| VNum (q : Q)
| VStr (s : jsstring)
| VArr (elems : list value)
| VObj (props : list (jsstring * value)).

(** What the script can throw or see rejected. *)
Inductive error : Type :=
| TypeError                   (* property of null/undefined, call of a non-function,
                                 conversion of an object that has no usable toString *)
| HttpError (status : N)      (* new Error(`HTTP error! status: ${response.status}`) *)
| AppError (message : value)  (* new Error(data.message), the message convertible *)
| FetchRejected               (* fetch() rejected: the network failed *)
| AuthRejected                (* signInAnonymously() rejected *)
| JsonRejected.               (* response.json() rejected: the body is not JSON *)

Inductive result (A : Type) : Type :=
| Ok (a : A)
| Throw (e : error).

Arguments Ok {A} a.
Arguments Throw {A} e.

Definition rbind {A B} (r : result A) (k : A -> result B) : result B :=
  match r with
  | Ok a => k a
  | Throw e => Throw e
  end.

Declare Scope result_scope.
Delimit Scope result_scope with result.
Notation "x <- r ;; k" := (rbind r (fun x => k))
  (at level 61, r at next level, right associativity) : result_scope.

(** The built-ins of the host that the script calls and whose tables are
    not the script's: Unicode lower-casing, the string a value that is
    not a string converts to when the conversion returns, and the
    locale's rendering of the date made of a value. Whether a conversion
    returns or throws is not the host's choice: see [convertible]. *)
Class Host : Type := {
  toLowerCase : jsstring -> jsstring;
  ToString : value -> jsstring;
  dateToLocaleString : value -> jsstring
}.

Definition nullish (v : value) : bool :=
  match v with
  | VUndefined | VNull => true
  | _ => false
  end.

(** ToBoolean *)
Definition truthy (v : value) : bool :=
  match v with
  | VUndefined | VNull => false
  | VBool b => b
  | VNum q => negb (Qeq_bool q 0)
  | VStr s => negb (str_eqb s [])
  | VArr _ | VObj _ => true
  end.

(** [a || b] *)
Definition orElse (a b : value) : value := if truthy a then a else b.

Fixpoint lookup (key : jsstring) (props : list (jsstring * value)) : value :=
  match props with
  | [] => VUndefined
  | (k, v) :: rest => if str_eqb k key then v else lookup key rest
  end.

Definition numOfNat (n : nat) : value := VNum (inject_Z (Z.of_nat n)).

(** The object has an own property of this name. *)
Definition hasOwnProperty (key : jsstring) (props : list (jsstring * value)) : bool :=
  existsb (fun kv => str_eqb (fst kv) key) props.

(** ToString and ToPrimitive return on this value. They throw a TypeError
    on an object that has an own property [toString]: a parsed body holds
    no function, so the property hides Object.prototype.toString, and
    neither it nor [valueOf] (the object's own, or the inherited one,
    which returns the object) yields a primitive. An array is converted
    by [join], which converts every element that is not [null] or
    [undefined]. *)
Fixpoint convertible (v : value) : bool :=
  match v with
  | VObj props => negb (hasOwnProperty (js "toString") props)
  | VArr elems => forallb convertible elems
  | _ => true
  end.

(** [v.key] for the keys the script uses (none of them is inherited from
    a prototype, apart from [length] on arrays and strings). *)
Definition getProp (v : value) (key : jsstring) : result value :=
  match v with
  | VUndefined | VNull => Throw TypeError
  | VObj props => Ok (lookup key props)
  | VArr elems =>
      if str_eqb key (js "length") then Ok (numOfNat (length elems)) else Ok VUndefined
  | VStr s =>
      if str_eqb key (js "length") then Ok (numOfNat (length s)) else Ok VUndefined
  | VBool _ | VNum _ => Ok VUndefined
  end.

(** [v?.key] *)
Definition getPropOpt (v : value) (key : jsstring) : result value :=
  if nullish v then Ok VUndefined else getProp v key.

(** [v === 'literal'] *)
Definition strictEqStr (v : value) (lit : jsstring) : bool :=
  match v with
  | VStr s => str_eqb s lit
  | _ => false
  end.

(** [v === 0] *)
Definition strictEqZero (v : value) : bool :=
  match v with
  | VNum q => Qeq_bool q 0
  | _ => false
  end.

(** Array.prototype.filter over the elements, with a callback that may throw. *)
Fixpoint filterR (p : value -> result bool) (l : list value) : result (list value) :=
  match l with
  | [] => Ok []
  | e :: rest =>
      (b <- p e ;;
       kept <- filterR p rest ;;
       Ok (if b then e :: kept else kept))%result
  end.

(** [v.filter(p)]: only an array has the method. *)
Definition arrayFilter (v : value) (p : value -> result bool) : result (list value) :=
  match v with
  | VArr elems => filterR p elems
  | _ => Throw TypeError
  end.

(** [v.filter(p).length] *)
Definition countWhere (v : value) (p : value -> result bool) : result nat :=
  (kept <- arrayFilter v p ;; Ok (length kept))%result.

(** [e => e.status === 'resolved'] and [e => e.status !== 'resolved'] *)
Definition isResolved (e : value) : result bool :=
  (s <- getProp e (js "status") ;; Ok (strictEqStr s (js "resolved")))%result.

Definition isNotResolved (e : value) : result bool :=
  (s <- getProp e (js "status") ;; Ok (negb (strictEqStr s (js "resolved"))))%result.

(** The object literals [sentimentCounts] and [priorityCounts]. *)
Record sentimentCounts : Type := {
  sc_positive : nat;
  sc_neutral : nat;
  sc_negative : nat
}.

Record priorityCounts : Type := {
  pc_urgent : nat;
  pc_notUrgent : nat
}.

(** The arguments of the call [updateAnalytics(...)] at the end of
    loadEmails. *)
Record analyticsArgs : Type := {
  arg_total : nat;
  arg_resolved : nat;
  arg_pending : nat;
  arg_sentiment : sentimentCounts;
  arg_priority : priorityCounts
}.

(** [emailsData.length] once [emailsData.filter] has run: by then the value
    is an array. *)
Definition arrayLength (v : value) : result nat :=
  match v with
  | VArr elems => Ok (length elems)
  | _ => Throw TypeError
  end.

Section Counting.
Context {host : Host}.

(** [v?.toLowerCase()] *)
Definition toLowerCaseOpt (v : value) : result value :=
  match v with
  | VUndefined | VNull => Ok VUndefined
  | VStr s => Ok (VStr (toLowerCase s))
  | _ => Throw TypeError
  end.

(** [e.extractedInfo?.field?.toLowerCase()] *)
Definition lowerInfo (field : jsstring) (e : value) : result value :=
  (info <- getProp e (js "extractedInfo") ;;
   f <- getPropOpt info field ;;
   toLowerCaseOpt f)%result.

(** [e => e.extractedInfo?.sentiment?.toLowerCase() === lit] *)
Definition sentimentIs (lit : jsstring) (e : value) : result bool :=
  (s <- lowerInfo (js "sentiment") e ;; Ok (strictEqStr s lit))%result.

(** [e => e.extractedInfo?.priority?.toLowerCase() === 'urgent'] and its
    [!==] twin *)
Definition isUrgent (e : value) : result bool :=
  (p <- lowerInfo (js "priority") e ;; Ok (strictEqStr p (js "urgent")))%result.

Definition isNotUrgent (e : value) : result bool :=
  (p <- lowerInfo (js "priority") e ;; Ok (negb (strictEqStr p (js "urgent"))))%result.

(** Lines 76 to 87 of loadEmails: the counts, in the order the script
    evaluates them. *)
Definition computeAnalytics (data : value) : result analyticsArgs :=
  (resolvedCount <- countWhere data isResolved ;;
   pendingCount <- countWhere data isNotResolved ;;
   pos <- countWhere data (sentimentIs (js "positive")) ;;
   neu <- countWhere data (sentimentIs (js "neutral")) ;;
   neg <- countWhere data (sentimentIs (js "negative")) ;;
   urg <- countWhere data isUrgent ;;
   nurg <- countWhere data isNotUrgent ;;
   total <- arrayLength data ;;
   Ok {| arg_total := total;
         arg_resolved := resolvedCount;
         arg_pending := pendingCount;
         arg_sentiment := {| sc_positive := pos; sc_neutral := neu; sc_negative := neg |};
         arg_priority := {| pc_urgent := urg; pc_notUrgent := nurg |} |})%result.

End Counting.

(** ** The page

    The elements the script addresses; the markup itself (index.html) is
    not among the sources. The constants of lines 19 to 26 and the
    analytics elements are dereferenced without a test, so the script only
    runs on a page that has them; the elements it tests before use
    ([if (el)], [if (!toastContainer)]) are optional here. *)

(** showToast's [type] parameter. *)
Inductive toastType : Type :=
| Success
| Error
| Warning.

(** The [div] appended to the toast container: its colour class, the icon
    and the message of its markup. *)
Record toast : Type := {
  toast_bgColor : jsstring;
  toast_icon : jsstring;
  toast_message : jsstring
}.

(** The text of one card, [cardHtml]: the template of renderEmailList
    with these strings in its holes, in the order of the template. The
    script puts them there as they are, without escaping. *)
Record card : Type := {
  card_border : jsstring;
  card_emailId : jsstring;
  card_statusClass : jsstring;
  card_status : jsstring;
  card_sentimentClass : jsstring;
  card_sentiment : jsstring;
  card_priorityClass : jsstring;
  card_priority : jsstring;
  card_customerName : jsstring;
  card_requestSummary : jsstring;
  card_sender : jsstring;
  card_timestamp : jsstring
}.

(** [innerHTML] of the list view as the pieces of markup text the script
    has put there, in order: what it assigned, and what it appended with
    [+=]. The elements the browser's parser makes of that text are not
    part of the model. *)
Inductive fragment : Type :=
| PageMarkup                        (* what the page was delivered with *)
| SpinnerMarkup
| EmptyStateMarkup
| ErrorMarkup (message : jsstring)
| CardMarkup (c : card).

Record listView : Type := {
  list_hidden : bool;               (* classList.contains('hidden') *)
  list_innerHTML : list fragment
}.

(** The response editor, a text area. [editor_value] is what its [value]
    attribute gives when read: the text with its line breaks normalised. *)
Record editor : Type := {
  editor_value : jsstring;
  editor_disabled : bool
}.

(** The detail view, the elements showEmailDetail fills, by id with their
    [textContent] (an element the page lacks is not in the list), and the
    response editor, [None] when the page lacks it. *)
Record detailView : Type := {
  detail_hidden : bool;
  detail_text : list (string * jsstring);
  ai_response_editor : option editor
}.

Record button : Type := {
  btn_disabled : bool;
  btn_textContent : jsstring;
  btn_emailId : option jsstring     (* dataset.emailId *)
}.

(** A number the script computes from counts with [/] and [*]: the exact
    quotient, which the double the script holds approximates to within
    its rounding, or what IEEE division by zero gives. *)
Inductive jsnum : Type :=
| Finite (q : Q)
| Infinite
| NotANumber.

(** The analytics elements: the three text fields and the [style.width]
    percentage of each bar. *)
Record analyticsPanel : Type := {
  total_emails : nat;
  resolved_count : nat;
  pending_count : nat;
  resolved_bar : jsnum;
  sentiment_positive_bar : jsnum;
  sentiment_neutral_bar : jsnum;
  sentiment_negative_bar : jsnum;
  priority_urgent_bar : jsnum;
  priority_not_urgent_bar : jsnum
}.

Inductive logEntry : Type :=
| ConsoleLog (message : jsstring) (arg : option value)
| ConsoleError (message : jsstring) (err : option error).

Record request : Type := {
  req_method : jsstring;
  req_url : jsstring;
  req_body : option value           (* the value given to JSON.stringify *)
}.

(** What an awaited fetch settles to: a rejection, or a response with its
    status and, when its body parses, the parsed JSON. *)
Record response : Type := {
  resp_status : N;
  resp_json : option value
}.

Inductive outcome : Type :=
| Rejected
| Resolved (r : response).

(** [response.ok] *)
Definition resp_ok (r : response) : bool :=
  ((200 <=? resp_status r) && (resp_status r <=? 299))%N.

(** An async function suspended at its [await], with what it captured. *)
Inductive continuation : Type :=
| KSignIn                 (* the auth callback at signInAnonymously(auth) *)
| KLoadEmails             (* loadEmails at fetch(.../fetch_emails) *)
| KDraft (email : value)  (* showEmailDetail(email) at getAIResponse(email.body) *)
| KSend                   (* the send listener at fetch(.../update_email_status) *)
| KSeed.                  (* the seed listener at fetch(.../seed_emails) *)

Inductive timerCallback : Type :=
| PollingCallback.        (* the arrow function of startPolling *)

(** A timer registered with setInterval; nothing in the script clears one. *)
Record interval : Type := {
  period_ms : N;
  callback : timerCallback
}.

(** The script's globals, the page, and the host's side: console, the
    requests issued, the suspended async functions and the timers. *)
Record state : Type := {
  currentUserId : option jsstring;
  emailsData : value;
  isAuthReady : bool;
  userIdDisplay : jsstring;
  emailListView : listView;
  emailDetailView : detailView;
  sendResponseBtn : button;
  seedDbBtn : button;
  analytics : analyticsPanel;
  toastContainer : option (list toast);
  console : list logEntry;
  requests : list request;
  pending : list continuation;
  intervals : list interval
}.

Definition set_currentUserId (x : option jsstring) (st : state) : state :=
  {| currentUserId := x; emailsData := emailsData st; isAuthReady := isAuthReady st;
     userIdDisplay := userIdDisplay st; emailListView := emailListView st;
     emailDetailView := emailDetailView st; sendResponseBtn := sendResponseBtn st;
     seedDbBtn := seedDbBtn st; analytics := analytics st;
     toastContainer := toastContainer st; console := console st;
     requests := requests st; pending := pending st; intervals := intervals st |}.

Definition set_emailsData (x : value) (st : state) : state :=
  {| currentUserId := currentUserId st; emailsData := x; isAuthReady := isAuthReady st;
     userIdDisplay := userIdDisplay st; emailListView := emailListView st;
     emailDetailView := emailDetailView st; sendResponseBtn := sendResponseBtn st;
     seedDbBtn := seedDbBtn st; analytics := analytics st;
     toastContainer := toastContainer st; console := console st;
     requests := requests st; pending := pending st; intervals := intervals st |}.

Definition set_isAuthReady (x : bool) (st : state) : state :=
  {| currentUserId := currentUserId st; emailsData := emailsData st; isAuthReady := x;
     userIdDisplay := userIdDisplay st; emailListView := emailListView st;
     emailDetailView := emailDetailView st; sendResponseBtn := sendResponseBtn st;
     seedDbBtn := seedDbBtn st; analytics := analytics st;
     toastContainer := toastContainer st; console := console st;
     requests := requests st; pending := pending st; intervals := intervals st |}.

Definition set_userIdDisplay (x : jsstring) (st : state) : state :=
  {| currentUserId := currentUserId st; emailsData := emailsData st;
     isAuthReady := isAuthReady st;
     userIdDisplay := x; emailListView := emailListView st;
     emailDetailView := emailDetailView st; sendResponseBtn := sendResponseBtn st;
     seedDbBtn := seedDbBtn st; analytics := analytics st;
     toastContainer := toastContainer st; console := console st;
     requests := requests st; pending := pending st; intervals := intervals st |}.

Definition set_emailListView (x : listView) (st : state) : state :=
  {| currentUserId := currentUserId st; emailsData := emailsData st;
     isAuthReady := isAuthReady st;
     userIdDisplay := userIdDisplay st; emailListView := x;
     emailDetailView := emailDetailView st; sendResponseBtn := sendResponseBtn st;
     seedDbBtn := seedDbBtn st; analytics := analytics st;
     toastContainer := toastContainer st; console := console st;
     requests := requests st; pending := pending st; intervals := intervals st |}.

Definition set_emailDetailView (x : detailView) (st : state) : state :=
  {| currentUserId := currentUserId st; emailsData := emailsData st;
     isAuthReady := isAuthReady st;
     userIdDisplay := userIdDisplay st; emailListView := emailListView st;
     emailDetailView := x; sendResponseBtn := sendResponseBtn st;
     seedDbBtn := seedDbBtn st; analytics := analytics st;
     toastContainer := toastContainer st; console := console st;
     requests := requests st; pending := pending st; intervals := intervals st |}.

Definition set_sendResponseBtn (x : button) (st : state) : state :=
  {| currentUserId := currentUserId st; emailsData := emailsData st;
     isAuthReady := isAuthReady st;
     userIdDisplay := userIdDisplay st; emailListView := emailListView st;
     emailDetailView := emailDetailView st; sendResponseBtn := x;
     seedDbBtn := seedDbBtn st; analytics := analytics st;
     toastContainer := toastContainer st; console := console st;
     requests := requests st; pending := pending st; intervals := intervals st |}.

Definition set_seedDbBtn (x : button) (st : state) : state :=
  {| currentUserId := currentUserId st; emailsData := emailsData st;
     isAuthReady := isAuthReady st;
     userIdDisplay := userIdDisplay st; emailListView := emailListView st;
     emailDetailView := emailDetailView st; sendResponseBtn := sendResponseBtn st;
     seedDbBtn := x; analytics := analytics st;
     toastContainer := toastContainer st; console := console st;
     requests := requests st; pending := pending st; intervals := intervals st |}.

Definition set_analytics (x : analyticsPanel) (st : state) : state :=
  {| currentUserId := currentUserId st; emailsData := emailsData st;
     isAuthReady := isAuthReady st;
     userIdDisplay := userIdDisplay st; emailListView := emailListView st;
     emailDetailView := emailDetailView st; sendResponseBtn := sendResponseBtn st;
     seedDbBtn := seedDbBtn st; analytics := x;
     toastContainer := toastContainer st; console := console st;
     requests := requests st; pending := pending st; intervals := intervals st |}.

Definition set_toastContainer (x : option (list toast)) (st : state) : state :=
  {| currentUserId := currentUserId st; emailsData := emailsData st;
     isAuthReady := isAuthReady st;
     userIdDisplay := userIdDisplay st; emailListView := emailListView st;
     emailDetailView := emailDetailView st; sendResponseBtn := sendResponseBtn st;
     seedDbBtn := seedDbBtn st; analytics := analytics st;
     toastContainer := x; console := console st;
     requests := requests st; pending := pending st; intervals := intervals st |}.

Definition set_console (x : list logEntry) (st : state) : state :=
  {| currentUserId := currentUserId st; emailsData := emailsData st;
     isAuthReady := isAuthReady st;
     userIdDisplay := userIdDisplay st; emailListView := emailListView st;
     emailDetailView := emailDetailView st; sendResponseBtn := sendResponseBtn st;
     seedDbBtn := seedDbBtn st; analytics := analytics st;
     toastContainer := toastContainer st; console := x;
     requests := requests st; pending := pending st; intervals := intervals st |}.

Definition set_requests (x : list request) (st : state) : state :=
  {| currentUserId := currentUserId st; emailsData := emailsData st;
     isAuthReady := isAuthReady st;
     userIdDisplay := userIdDisplay st; emailListView := emailListView st;
     emailDetailView := emailDetailView st; sendResponseBtn := sendResponseBtn st;
     seedDbBtn := seedDbBtn st; analytics := analytics st;
     toastContainer := toastContainer st; console := console st;
     requests := x; pending := pending st; intervals := intervals st |}.

Definition set_pending (x : list continuation) (st : state) : state :=
  {| currentUserId := currentUserId st; emailsData := emailsData st;
     isAuthReady := isAuthReady st;
     userIdDisplay := userIdDisplay st; emailListView := emailListView st;
     emailDetailView := emailDetailView st; sendResponseBtn := sendResponseBtn st;
     seedDbBtn := seedDbBtn st; analytics := analytics st;
     toastContainer := toastContainer st; console := console st;
     requests := requests st; pending := x; intervals := intervals st |}.

Definition set_intervals (x : list interval) (st : state) : state :=
  {| currentUserId := currentUserId st; emailsData := emailsData st;
     isAuthReady := isAuthReady st;
     userIdDisplay := userIdDisplay st; emailListView := emailListView st;
     emailDetailView := emailDetailView st; sendResponseBtn := sendResponseBtn st;
     seedDbBtn := seedDbBtn st; analytics := analytics st;
     toastContainer := toastContainer st; console := console st;
     requests := requests st; pending := pending st; intervals := x |}.

(** ** Statements that change the state and may throw

    A computation takes the state and gives the state it leaves, with a
    value or the exception thrown: what was written before a [throw] stays
    written. *)

Definition M (A : Type) : Type := state -> result A * state.

Definition ret {A} (a : A) : M A := fun st => (Ok a, st).

Definition throw {A} (e : error) : M A := fun st => (Throw e, st).

Definition bind {A B} (c : M A) (k : A -> M B) : M B :=
  fun st =>
    match c st with
    | (Ok a, st') => k a st'
    | (Throw e, st') => (Throw e, st')
    end.

(** An expression that reads no state. *)
Definition lift {A} (r : result A) : M A := fun st => (r, st).

(** Statements that cannot throw. *)
Definition modify (f : state -> state) : M unit := fun st => (Ok tt, f st).

(** [try { body } catch (error) { handler }] *)
Definition tryCatch {A} (body : M A) (handler : error -> M A) : M A :=
  fun st =>
    match body st with
    | (Ok a, st') => (Ok a, st')
    | (Throw e, st') => handler e st'
    end.

(** [try { ... } finally { fin }], for a [finally] block that cannot throw. *)
Definition tryFinally {A} (body : M A) (fin : state -> state) : M A :=
  fun st => let (r, st') := body st in (r, fin st').

(** The state an event listener or an async function leaves behind: an
    exception it does not catch ends it and goes no further. *)
Definition exec {A} (c : M A) (st : state) : state := snd (c st).

Declare Scope script_scope.
Delimit Scope script_scope with script.
Notation "x <- c ;; k" := (bind c (fun x => k))
  (at level 61, c at next level, right associativity) : script_scope.
Notation "c ;; k" := (bind c (fun _ => k))
  (at level 61, right associativity) : script_scope.

Definition gets {A} (f : state -> A) : M A := fun st => (Ok (f st), st).

(** A call of an async function that is not awaited: what it throws
    rejects its promise and does not reach the caller. *)
Definition callAsync (c : M unit) : M unit := fun st => (Ok tt, exec c st).

(** ** The script *)

Definition consoleLog (message : jsstring) (arg : option value) (st : state) : state :=
  set_console (console st ++ [ConsoleLog message arg]) st.

Definition consoleError (message : jsstring) (err : option error) (st : state) : state :=
  set_console (console st ++ [ConsoleError message err]) st.

(** The three emoji of the script's messages, in UTF-16. *)
Definition checkMark : jsstring := [9989%N].
Definition noEntry : jsstring := [55357%N; 57003%N].
Definition warningSign : jsstring := [9888%N; 65039%N].

(** [fetch(url, init)] followed by [await]: the request goes out and the
    caller is suspended as [k]. *)
Definition fetchAwait (method url : string) (body : option value) (k : continuation)
    (st : state) : state :=
  set_pending (pending st ++ [k])
    (set_requests
       (requests st ++ [{| req_method := js method; req_url := js url; req_body := body |}])
       st).

(** The value of [await p] when [p] has settled. *)
Definition awaited (o : outcome) : M response :=
  match o with
  | Rejected => throw FetchRejected
  | Resolved r => ret r
  end.

(** [await response.json()] *)
Definition jsonOf (r : response) : M value :=
  match resp_json r with
  | Some v => ret v
  | None => throw JsonRejected
  end.

(** [if (!response.ok) throw new Error(...)] *)
Definition checkOk (r : response) : M unit :=
  if resp_ok r then ret tt else throw (HttpError (resp_status r)).

(** showToast, lines 129 to 166. The timers that animate and remove the
    toast are presentation and are left out. *)
Definition mkToast (message : jsstring) (type : toastType) : toast :=
  match type with
  | Error =>
      {| toast_bgColor := js "bg-red-500"; toast_icon := noEntry; toast_message := message |}
  | Warning =>
      {| toast_bgColor := js "bg-yellow-500"; toast_icon := warningSign;
         toast_message := message |}
  | Success =>
      {| toast_bgColor := js "bg-green-500"; toast_icon := checkMark;
         toast_message := message |}
  end.

Definition showToast (message : jsstring) (type : toastType) (st : state) : state :=
  match toastContainer st with
  | None => consoleError (js "Toast container not found.") None st
  | Some toasts => set_toastContainer (Some (toasts ++ [mkToast message type])) st
  end.

Definition setListMarkup (m : list fragment) (st : state) : state :=
  set_emailListView
    {| list_hidden := list_hidden (emailListView st); list_innerHTML := m |} st.

Definition setListHidden (h : bool) (st : state) : state :=
  set_emailListView
    {| list_hidden := h; list_innerHTML := list_innerHTML (emailListView st) |} st.

Definition setDetailHidden (h : bool) (st : state) : state :=
  set_emailDetailView
    {| detail_hidden := h;
       detail_text := detail_text (emailDetailView st);
       ai_response_editor := ai_response_editor (emailDetailView st) |} st.

Definition showEmptyState (st : state) : state := setListMarkup [EmptyStateMarkup] st.

Definition showErrorMessage (message : jsstring) (st : state) : state :=
  setListMarkup [ErrorMarkup message] st.

(** [a / b] on two counts: the exact quotient, and what the division
    gives when [b] is 0. [(a / b) * 100] is [percentage]. *)
Definition divCounts (a b : nat) : jsnum :=
  match b with
  | O => match a with O => NotANumber | S _ => Infinite end
  | S _ => Finite (Z.of_nat a # Pos.of_nat b)
  end.

Definition times100 (x : jsnum) : jsnum :=
  match x with
  | Finite q => Finite (q * 100)
  | other => other
  end.

Definition percentage (count total : nat) : jsnum := times100 (divCounts count total).

(** updateAnalytics, lines 222 to 250. *)
Definition updateAnalytics (total resolved pending : nat)
    (sentiment : sentimentCounts) (priority : priorityCounts) (st : state) : state :=
  let a := analytics st in
  let resolvedPercentage := if 0 <? total then percentage resolved total else Finite 0 in
  let totalSentiment := sc_positive sentiment + sc_neutral sentiment + sc_negative sentiment in
  let totalPriority := pc_urgent priority + pc_notUrgent priority in
  set_analytics
    {| total_emails := total;
       resolved_count := resolved;
       pending_count := pending;
       resolved_bar := resolvedPercentage;
       sentiment_positive_bar :=
         if 0 <? totalSentiment then percentage (sc_positive sentiment) totalSentiment
         else sentiment_positive_bar a;
       sentiment_neutral_bar :=
         if 0 <? totalSentiment then percentage (sc_neutral sentiment) totalSentiment
         else sentiment_neutral_bar a;
       sentiment_negative_bar :=
         if 0 <? totalSentiment then percentage (sc_negative sentiment) totalSentiment
         else sentiment_negative_bar a;
       priority_urgent_bar :=
         if 0 <? totalPriority then percentage (pc_urgent priority) totalPriority
         else priority_urgent_bar a;
       priority_not_urgent_bar :=
         if 0 <? totalPriority then percentage (pc_notUrgent priority) totalPriority
         else priority_not_urgent_bar a |} st.

(** Array.prototype.forEach with a callback that may throw. *)
Fixpoint forEachM (l : list value) (f : value -> M unit) : M unit :=
  match l with
  | [] => ret tt
  | e :: rest => (f e ;; forEachM rest f)%script
  end.

(** Array.prototype.find: the first element the callback accepts, or
    [undefined]. *)
Fixpoint findR (p : value -> result bool) (l : list value) : result value :=
  match l with
  | [] => Ok VUndefined
  | e :: rest => (b <- p e ;; if b then Ok e else findR p rest)%result
  end.

Definition arrayFind (v : value) (p : value -> result bool) : result value :=
  match v with
  | VArr elems => findR p elems
  | _ => Throw TypeError
  end.

(** [!currentUserId] *)
Definition noUser (uid : option jsstring) : bool :=
  match uid with
  | None => true
  | Some s => str_eqb s []
  end.

(** loadEmails up to its first [await], lines 55 to 64. *)
Definition loadEmails_start (st : state) : state :=
  if noUser (currentUserId st)
  then consoleLog (js "Waiting for user authentication...") None st
  else fetchAwait "GET" "./fetch_emails" None KLoadEmails (setListMarkup [SpinnerMarkup] st).

(** The timer of startPolling: every 30 seconds. *)
Definition pollingInterval : interval :=
  {| period_ms := 30000; callback := PollingCallback |}.

(** startPolling, lines 120 to 126, and the arrow function it registers. *)
Definition startPolling (st : state) : state :=
  set_intervals (intervals st ++ [pollingInterval]) st.

Definition pollingCallback (st : state) : state :=
  if Bool.eqb (list_hidden (emailListView st)) false then loadEmails_start st else st.

(** The click listener of the back button, lines 311 to 315. *)
Definition goBack_click (st : state) : state :=
  loadEmails_start (setListHidden false (setDetailHidden true st)).

(** [el.textContent = v] on the element with this id, the first of the
    document. *)
Fixpoint setText (id : string) (v : jsstring) (els : list (string * jsstring))
    : list (string * jsstring) :=
  match els with
  | [] => []
  | (k, old) :: rest =>
      if String.eqb k id then (k, v) :: rest else (k, old) :: setText id v rest
  end.

(** [document.getElementById(id)] is not null. *)
Definition hasElement (id : string) (els : list (string * jsstring)) : bool :=
  existsb (fun kv => String.eqb (fst kv) id) els.

Definition setDetailText (id : string) (v : jsstring) (st : state) : state :=
  set_emailDetailView
    {| detail_hidden := detail_hidden (emailDetailView st);
       detail_text := setText id v (detail_text (emailDetailView st));
       ai_response_editor := ai_response_editor (emailDetailView st) |} st.

(** What a text area gives back for the text assigned to its [value]:
    every CR LF pair and every other CR has become one LF. *)
Fixpoint normalizeNewlines (s : jsstring) : jsstring :=
  match s with
  | [] => []
  | c :: rest =>
      if (c =? 13)%N
      then 10%N :: match rest with
                   | d :: rest' =>
                       if (d =? 10)%N then normalizeNewlines rest' else normalizeNewlines rest
                   | [] => []
                   end
      else c :: normalizeNewlines rest
  end.

(** [if (aiResponseEditor) { aiResponseEditor.value = v; aiResponseEditor.disabled = d; }]
    for a string [v]. *)
Definition setEditor (v : jsstring) (d : bool) (st : state) : state :=
  match ai_response_editor (emailDetailView st) with
  | None => st
  | Some _ =>
      set_emailDetailView
        {| detail_hidden := detail_hidden (emailDetailView st);
           detail_text := detail_text (emailDetailView st);
           ai_response_editor :=
             Some {| editor_value := normalizeNewlines v; editor_disabled := d |} |} st
  end.

Definition setSendButton (disabled : bool) (text : jsstring) (st : state) : state :=
  set_sendResponseBtn
    {| btn_disabled := disabled; btn_textContent := text;
       btn_emailId := btn_emailId (sendResponseBtn st) |} st.

Definition setSeedButton (disabled : bool) (text : jsstring) (st : state) : state :=
  set_seedDbBtn
    {| btn_disabled := disabled; btn_textContent := text;
       btn_emailId := btn_emailId (seedDbBtn st) |} st.

Definition fallbackResponse : jsstring :=
  js "Failed to generate AI response. Please try again.".

(** What [throw new Error(message)] throws: the constructor converts a
    message that is not [undefined] to a string, and when that conversion
    throws, its TypeError is what leaves the statement. *)
Definition newError (message : value) : error :=
  if convertible message then AppError message else TypeError.

(** getAIResponse after its [await fetch(...)], lines 103 to 116. *)
Definition getAIResponse_try (o : outcome) : M value :=
  (response <- awaited o ;;
   checkOk response ;;
   data <- jsonOf response ;;
   status <- lift (getProp data (js "status")) ;;
   if strictEqStr status (js "success")
   then lift (getProp data (js "ai_response"))
   else (message <- lift (getProp data (js "message")) ;; throw (newError message)))%script.

Definition getAIResponse_catch (e : error) : M value :=
  (modify (consoleError (js "Error generating AI response:") (Some e)) ;;
   modify (showToast (js "Failed to generate AI response. " ++ noEntry) Error) ;;
   ret (VStr fallbackResponse))%script.

Definition getAIResponse_resume (o : outcome) : M value :=
  tryCatch (getAIResponse_try o) getAIResponse_catch.

(** The request body of the send listener: [dataset.emailId] is
    [undefined] until showEmailDetail has set it. *)
Definition datasetValue (d : option jsstring) : value :=
  match d with
  | Some s => VStr s
  | None => VUndefined
  end.

(** The click listener of the send button up to its [await], lines 317 to
    337. *)
Definition sendResponse_click : M unit :=
  (emailId <- gets (fun st => btn_emailId (sendResponseBtn st)) ;;
   el <- gets (fun st => ai_response_editor (emailDetailView st)) ;;
   match el with
   | None => throw TypeError
   | Some ed =>
       let finalResponse := editor_value ed in
       if str_eqb (trim finalResponse) []
       then modify (showToast (js "Please write a response before sending. " ++ warningSign)
                      Warning)
       else
         modify (setSendButton true (js "Sending...")) ;;
         modify (fetchAwait "POST" "./update_email_status"
                   (Some (VObj [(js "email_id", datasetValue emailId);
                                (js "final_response", VStr finalResponse)]))
                   KSend)
   end)%script.

(** The rest of the send listener, lines 339 to 353. *)
Definition sendResponse_try (o : outcome) : M unit :=
  (response <- awaited o ;;
   data <- jsonOf response ;;
   status <- lift (getProp data (js "status")) ;;
   if strictEqStr status (js "success")
   then
     modify (showToast (js "Response sent successfully! " ++ checkMark) Success) ;;
     modify goBack_click
   else (message <- lift (getProp data (js "message")) ;; throw (newError message)))%script.

Definition sendResponse_catch (e : error) : M unit :=
  (modify (showToast (js "Failed to send response. Please try again. " ++ noEntry) Error) ;;
   modify (consoleError (js "Error sending response:") (Some e)))%script.

Definition sendResponse_finally (st : state) : state :=
  setSendButton false (js "Send Response") st.

Definition sendResponse_resume (o : outcome) (st : state) : state :=
  exec (tryFinally (tryCatch (sendResponse_try o) sendResponse_catch) sendResponse_finally) st.

(** The click listener of the seed button, lines 356 to 379. *)
Definition seed_click (st : state) : state :=
  fetchAwait "POST" "./seed_emails" None KSeed
    (showToast (js "Seeding database with mock emails...") Warning
       (setSeedButton true (js "Seeding...") st)).

Definition seed_try (o : outcome) : M unit :=
  (response <- awaited o ;;
   data <- jsonOf response ;;
   status <- lift (getProp data (js "status")) ;;
   if strictEqStr status (js "success")
   then
     modify (showToast (js "Database seeded successfully! " ++ checkMark) Success) ;;
     modify loadEmails_start
   else (message <- lift (getProp data (js "message")) ;; throw (newError message)))%script.

Definition seed_catch (e : error) : M unit :=
  (modify (showToast (js "Failed to seed database. It may already be seeded. " ++ noEntry)
             Error) ;;
   modify (consoleError (js "Error seeding database:") (Some e)))%script.

Definition seed_resume (o : outcome) (st : state) : state :=
  exec (tryFinally (tryCatch (seed_try o) seed_catch)
          (setSeedButton false (js "Seed Database"))) st.

(** The auth callback, lines 33 to 51: with a user, and without one up to
    [await signInAnonymously(auth)]. *)
Definition onAuthStateChanged (user : option jsstring) (st : state) : state :=
  match user with
  | Some uid =>
      startPolling
        (loadEmails_start
           (consoleLog (js "User signed in with UID:") (Some (VStr uid))
              (set_isAuthReady true
                 (set_userIdDisplay uid
                    (set_currentUserId (Some uid) st)))))
  | None =>
      set_pending (pending st ++ [KSignIn])
        (consoleLog (js "No user signed in. Signing in anonymously.") None st)
  end.

(** Its [catch] block when the sign-in is rejected; when the sign-in
    succeeds the provider calls the callback again, with the user. *)
Definition signIn_resume (o : outcome) (st : state) : state :=
  match o with
  | Resolved _ => st
  | Rejected =>
      showToast
        (js "Authentication failed. Please check your Firebase setup. " ++ noEntry) Error
        (set_isAuthReady true
           (consoleError (js "Authentication failed:") (Some AuthRejected) st))
  end.

Section Script.
Context {host : Host}.

(** The string a value is converted to, where the conversion returns: in
    a template literal, in an assignment to [textContent] or to a
    [dataset] entry, and in an assignment to the [value] of a text area
    (where [null] gives the empty string). *)
Definition domString (v : value) : jsstring :=
  match v with
  | VStr s => s
  | other => ToString other
  end.

Definition textAreaString (v : value) : jsstring :=
  match v with
  | VNull => []
  | other => domString other
  end.

(** The conversion of [v], that gives [s] when it returns. *)
Definition converted (v : value) (s : jsstring) : result jsstring :=
  if convertible v then Ok s else Throw TypeError.

(** The conversion in [`${v}`] and in [el.dataset.key = v], and in
    [el.textContent = v] for a [v] that is not [null] or [undefined]
    (the script assigns no other to a [textContent]). *)
Definition toStr (v : value) : result jsstring := converted v (domString v).

(** [new Date(v).toLocaleString()]: the constructor converts an object to
    a primitive first. *)
Definition localeStringOf (v : value) : result jsstring :=
  converted v (dateToLocaleString v).

(** [const el = document.getElementById(id); if (el) el.textContent = v;]
    where [v] is evaluated, and converted to the string the element
    holds, only when the element is there. *)
Definition fillIfPresent (id : string) (v : result value) : M unit :=
  (els <- gets (fun st => detail_text (emailDetailView st)) ;;
   if hasElement id els
   then (x <- lift v ;; s <- lift (toStr x) ;; modify (setDetailText id s))
   else ret tt)%script.

(** The holes of the card template, lines 203 to 217, filled in the
    order of the template from the constants of lines 198 to 201: each
    value is converted to a string as it is reached. *)
Definition fillTemplate (email status0 : value)
    (sentimentClass priorityClass : jsstring)
    (customerName requestSummary : value) (timestamp : jsstring) : result card :=
  let status := orElse status0 (VStr (js "N/A")) in
  (id <- getProp email (js "id") ;;
   idText <- toStr id ;;
   statusText <- toStr status ;;
   info <- getProp email (js "extractedInfo") ;;
   sentiment <- getPropOpt info (js "sentiment") ;;
   sentimentText <- toStr (orElse sentiment (VStr (js "N/A"))) ;;
   info' <- getProp email (js "extractedInfo") ;;
   priority <- getPropOpt info' (js "priority") ;;
   priorityText <- toStr (orElse priority (VStr (js "N/A"))) ;;
   customerText <- toStr customerName ;;
   summaryText <- toStr requestSummary ;;
   sender <- getProp email (js "sender") ;;
   senderText <- toStr sender ;;
   Ok {| card_border :=
           if strictEqStr status (js "pending") then js "border-indigo-500"
           else js "border-green-500";
         card_emailId := idText;
         card_statusClass :=
           if strictEqStr status0 (js "resolved") then js "bg-green-500/20 text-green-700"
           else js "bg-blue-500/20 text-blue-700";
         card_status := statusText;
         card_sentimentClass := sentimentClass;
         card_sentiment := sentimentText;
         card_priorityClass := priorityClass;
         card_priority := priorityText;
         card_customerName := customerText;
         card_requestSummary := summaryText;
         card_sender := senderText;
         card_timestamp := timestamp |})%result.

(** The body of the forEach callback of renderEmailList, lines 193 to 217,
    up to the card it appends. *)
Definition renderCard (email : value) : result card :=
  (s1 <- lowerInfo (js "sentiment") email ;;
   sentimentClass <-
     (if strictEqStr s1 (js "positive") then Ok (js "bg-green-500/10 text-green-500")
      else
        s2 <- lowerInfo (js "sentiment") email ;;
        Ok (if strictEqStr s2 (js "negative") then js "bg-red-500/10 text-red-500"
            else js "bg-yellow-500/10 text-yellow-500")) ;;
   status0 <- getProp email (js "status") ;;
   p <- lowerInfo (js "priority") email ;;
   info <- getProp email (js "extractedInfo") ;;
   customerName <- getPropOpt info (js "customer_name") ;;
   info' <- getProp email (js "extractedInfo") ;;
   requestSummary <- getPropOpt info' (js "request_summary") ;;
   ts <- getProp email (js "timestamp") ;;
   timestamp <- (if truthy ts then localeStringOf ts else Ok (js "N/A")) ;;
   fillTemplate email status0 sentimentClass
     (if strictEqStr p (js "urgent") then js "bg-red-500 text-white font-bold"
      else js "bg-gray-400 text-gray-800")
     (orElse customerName (VStr (js "Unknown User")))
     (orElse requestSummary (VStr (js "No summary available.")))
     timestamp)%result.

(** [emailListView.innerHTML += cardHtml] *)
Definition appendCard (c : card) (st : state) : state :=
  setListMarkup (list_innerHTML (emailListView st) ++ [CardMarkup c]) st.

(** renderEmailList, lines 190 to 220. *)
Definition renderEmailList (emails : value) : M unit :=
  (modify (setListMarkup []) ;;
   match emails with
   | VArr elems =>
       forEachM elems (fun email => c <- lift (renderCard email) ;; modify (appendCard c))
   | _ => throw TypeError
   end)%script.

(** loadEmails after its [await fetch(...)]: the rest of the [try] block,
    lines 65 to 87, and the [catch] block. *)
Definition loadEmails_try (o : outcome) : M unit :=
  (response <- awaited o ;;
   checkOk response ;;
   data <- jsonOf response ;;
   modify (set_emailsData data) ;;
   len <- lift (getProp data (js "length")) ;;
   (if strictEqZero len then modify showEmptyState else renderEmailList data) ;;
   a <- lift (computeAnalytics data) ;;
   modify (updateAnalytics (arg_total a) (arg_resolved a) (arg_pending a)
             (arg_sentiment a) (arg_priority a)))%script.

Definition loadEmails_catch (e : error) : M unit :=
  (modify (consoleError (js "Error fetching emails:") (Some e)) ;;
   modify (showToast (js "Failed to load emails. Please try again later. " ++ warningSign)
             Error) ;;
   modify (showErrorMessage (js "Failed to load emails. Please check your network.")))%script.

Definition loadEmails_resume (o : outcome) (st : state) : state :=
  exec (tryCatch (loadEmails_try o) loadEmails_catch) st.

(** The nine elements showEmailDetail fills, lines 268 to 293, in the
    order of the script, each with the expression assigned to its
    [textContent]. *)
Definition detailFields (email : value) : list (string * result value) :=
  let field := fun key => getProp email key in
  let info := fun key =>
    (i <- getProp email (js "extractedInfo") ;; getPropOpt i key)%result in
  let or := fun (r : result value) (d : jsstring) =>
    (v <- r ;; Ok (orElse v (VStr d)))%result in
  [ ("email-subject", or (field (js "subject")) (js "No Subject"));
    ("email-sender", or (field (js "sender")) (js "Unknown"));
    ("email-date",
     (ts <- field (js "timestamp") ;; s <- localeStringOf ts ;; Ok (VStr s))%result);
    ("email-body", or (field (js "body")) (js "No content available."));
    ("extracted-customer-name", or (info (js "customer_name")) (js "N/A"));
    ("extracted-request-summary", or (info (js "request_summary")) (js "N/A"));
    ("extracted-sentiment", or (info (js "sentiment")) (js "N/A"));
    ("extracted-priority", or (info (js "priority")) (js "N/A"));
    ("extracted-contact-details", or (info (js "contact_details")) (js "N/A")) ]%string.

(** The statements for these elements, one after the other. *)
Fixpoint fillAll (fields : list (string * result value)) : M unit :=
  match fields with
  | [] => ret tt
  | (id, v) :: rest => (fillIfPresent id v ;; fillAll rest)%script
  end.

(** showEmailDetail up to its [await], lines 263 to 301: the views, the
    fields, the editor, and the call of getAIResponse up to its fetch. *)
Definition showEmailDetail_start (email : value) : M unit :=
  (modify (setListHidden true) ;;
   modify (setDetailHidden false) ;;
   fillAll (detailFields email) ;;
   modify (setEditor (js "AI is drafting a response...") true) ;;
   body <- lift (getProp email (js "body")) ;;
   modify (fetchAwait "POST" "./generate_response"
             (Some (VObj [(js "email_body", body)])) (KDraft email)))%script.

(** [sendResponseBtnEl.dataset.emailId = s] *)
Definition setSendEmailId (s : jsstring) (st : state) : state :=
  set_sendResponseBtn
    {| btn_disabled := btn_disabled (sendResponseBtn st);
       btn_textContent := btn_textContent (sendResponseBtn st);
       btn_emailId := Some s |} st.

(** showEmailDetail once getAIResponse has its response, lines 301 to 308.
    The draft is converted to a string only if the page has the editor. *)
Definition showEmailDetail_resume (email : value) (o : outcome) : M unit :=
  (aiResponse <- getAIResponse_resume o ;;
   el <- gets (fun st => ai_response_editor (emailDetailView st)) ;;
   match el with
   | Some _ =>
       text <- lift (converted aiResponse (textAreaString aiResponse)) ;;
       modify (setEditor text false)
   | None => ret tt
   end ;;
   id <- lift (getProp email (js "id")) ;;
   idText <- lift (toStr id) ;;
   modify (setSendEmailId idText))%script.

(** The click listener of the list view, lines 252 to 261. [card] is the
    [data-email-id] of the card the click fell in, if it fell in one. *)
Definition emailListView_click (card : option jsstring) : M unit :=
  match card with
  | None => ret tt
  | Some emailId =>
      (data <- gets emailsData ;;
       email <- lift (arrayFind data
                        (fun e => (id <- getProp e (js "id") ;;
                                   Ok (strictEqStr id emailId))%result)) ;;
       if truthy email then callAsync (showEmailDetail_start email) else ret tt)%script
  end.

(** ** The event loop

    The script runs one task at a time: a callback of the page or of the
    host, or an async function taken up again where it awaited. A fetch
    and the [response.json()] awaited after it settle in one step, since
    the script writes nothing between the two. A click is taken whatever
    the state of the button it falls on. *)

Inductive event : Type :=
| AuthStateChanged (user : option jsstring)
| Settle (n : nat) (o : outcome)        (* the n-th suspended function goes on *)
| Tick (n : nat)                        (* the n-th interval fires *)
| ClickList (card : option jsstring)
| ClickGoBack
| ClickSend
| ClickSeed.

Definition resume (k : continuation) (o : outcome) (st : state) : state :=
  match k with
  | KSignIn => signIn_resume o st
  | KLoadEmails => loadEmails_resume o st
  | KDraft email => exec (showEmailDetail_resume email o) st
  | KSend => sendResponse_resume o st
  | KSeed => seed_resume o st
  end.

Definition runTimer (t : interval) (st : state) : state :=
  match callback t with
  | PollingCallback => pollingCallback st
  end.

Fixpoint removeNth {A} (n : nat) (l : list A) : list A :=
  match n, l with
  | _, [] => []
  | O, _ :: rest => rest
  | S n', x :: rest => x :: removeNth n' rest
  end.

Definition handle (ev : event) (st : state) : state :=
  match ev with
  | AuthStateChanged user => onAuthStateChanged user st
  | Settle n o =>
      match nth_error (pending st) n with
      | Some k => resume k o (set_pending (removeNth n (pending st)) st)
      | None => st
      end
  | Tick n =>
      match nth_error (intervals st) n with
      | Some t => runTimer t st
      | None => st
      end
  | ClickList card => exec (emailListView_click card) st
  | ClickGoBack => goBack_click st
  | ClickSend => exec sendResponse_click st
  | ClickSeed => seed_click st
  end.

Definition run (evs : list event) (st : state) : state :=
  fold_left (fun s ev => handle ev s) evs st.

(** Modelled from the spec: the page markup (index.html) is not among the
    sources. The view controller starts in the List state (spec, 4.4), so
    the page is delivered with the list view shown and the detail view
    hidden. *)
Definition pageShowsList (st : state) : Prop :=
  list_hidden (emailListView st) = false /\
  detail_hidden (emailDetailView st) = true.

(** The state when the script has been loaded: its globals as lines 28 to
    30 initialise them, the page as delivered, and nothing requested,
    awaited or scheduled yet. *)
Definition initial (st : state) : Prop :=
  currentUserId st = None /\ emailsData st = VArr [] /\ isAuthReady st = false /\
  pageShowsList st /\
  requests st = [] /\ pending st = [] /\ intervals st = [].

Definition reachable (st : state) : Prop :=
  exists st0 evs, initial st0 /\ st = run evs st0.

End Script.

(** ** What the specification says of a record

    The spec's reading of a record, written from its words: a field of a
    record or of its extracted info is what the object holds under that
    name and is unset otherwise; a record is resolved when its status is
    the string "resolved"; it belongs to a sentiment category, or is
    urgent, when the field is a string that lower-cases to the name. *)

Definition fieldOf (key : jsstring) (e : value) : value :=
  match e with
  | VObj props => lookup key props
  | _ => VUndefined
  end.

Definition infoOf (key : jsstring) (e : value) : value :=
  fieldOf key (fieldOf (js "extractedInfo") e).

Definition stringOf (v : value) : option jsstring :=
  match v with
  | VStr s => Some s
  | _ => None
  end.

Definition resolvedRecord (e : value) : bool :=
  match stringOf (fieldOf (js "status") e) with
  | Some s => str_eqb s (js "resolved")
  | None => false
  end.

Section Categories.
Context {host : Host}.

Definition inCategory (key name : jsstring) (e : value) : bool :=
  match stringOf (infoOf key e) with
  | Some s => str_eqb (toLowerCase s) name
  | None => false
  end.

Definition sentimentRecord (name : jsstring) (e : value) : bool :=
  inCategory (js "sentiment") name e.

Definition urgentRecord (e : value) : bool :=
  inCategory (js "priority") (js "urgent") e.

(** What [e.extractedInfo?.key?.toLowerCase()] gives on a record whose
    field is a string or unset. *)
Definition lowered (v : value) : value :=
  match v with
  | VStr s => VStr (toLowerCase s)
  | _ => VUndefined
  end.

End Categories.

(** A record the filters can classify: it is not [null], and the field is
    a string or unset. On any other element the callback throws. *)
Definition textOrUnset (v : value) : bool :=
  match v with
  | VStr _ | VUndefined | VNull => true
  | _ => false
  end.

Definition classifiable (e : value) : bool :=
  negb (nullish e)
  && textOrUnset (infoOf (js "sentiment") e)
  && textOrUnset (infoOf (js "priority") e).

(** A record whose priority is a string or unset, whatever its sentiment. *)
Definition priorityReadable (e : value) : bool :=
  negb (nullish e) && textOrUnset (infoOf (js "priority") e).

(** A record whose card can be printed: the values the template converts
    to strings, and the timestamp handed to [new Date], are convertible.
    (The sentiment and the priority of a classifiable record are.) *)
Definition printable (e : value) : bool :=
  convertible (fieldOf (js "timestamp") e)
  && convertible (fieldOf (js "id") e)
  && convertible (fieldOf (js "status") e)
  && convertible (infoOf (js "customer_name") e)
  && convertible (infoOf (js "request_summary") e)
  && convertible (fieldOf (js "sender") e).

(** A record renderEmailList gets through. *)
Definition renderable (e : value) : bool := classifiable e && printable e.

(** The values showEmailDetail assigns to the elements of the detail
    view, in the order of the script, before the defaults of [||]. *)
Definition shownValues (e : value) : list value :=
  [ fieldOf (js "subject") e; fieldOf (js "sender") e; fieldOf (js "timestamp") e;
    fieldOf (js "body") e; infoOf (js "customer_name") e;
    infoOf (js "request_summary") e; infoOf (js "sentiment") e;
    infoOf (js "priority") e; infoOf (js "contact_details") e ].

(** A record whose detail can be shown whatever elements the page has. *)
Definition showable (e : value) : bool := forallb convertible (shownValues e).

(** A field showEmailDetail can fill: its expression returns a value
    that converts to a string. *)
Definition fills (f : string * result value) : bool :=
  match snd f with
  | Ok x => convertible x
  | Throw _ => false
  end.

(** The page has the nine elements of the detail view. *)
Definition detailIds : list string :=
  [ "email-subject"; "email-sender"; "email-date"; "email-body";
    "extracted-customer-name"; "extracted-request-summary"; "extracted-sentiment";
    "extracted-priority"; "extracted-contact-details" ]%string.

Definition hasDetailElements (st : state) : bool :=
  forallb (fun id => hasElement id (detail_text (emailDetailView st))) detailIds.

Section CardOfARecord.
Context {host : Host}.

(** The card of a record renderEmailList gets through. *)
Definition cardOf (e : value) : card :=
  let status := orElse (fieldOf (js "status") e) (VStr (js "N/A")) in
  let ts := fieldOf (js "timestamp") e in
  {| card_border :=
       if strictEqStr status (js "pending") then js "border-indigo-500"
       else js "border-green-500";
     card_emailId := domString (fieldOf (js "id") e);
     card_statusClass :=
       if resolvedRecord e then js "bg-green-500/20 text-green-700"
       else js "bg-blue-500/20 text-blue-700";
     card_status := domString status;
     card_sentimentClass :=
       if sentimentRecord (js "positive") e then js "bg-green-500/10 text-green-500"
       else if sentimentRecord (js "negative") e then js "bg-red-500/10 text-red-500"
            else js "bg-yellow-500/10 text-yellow-500";
     card_sentiment := domString (orElse (infoOf (js "sentiment") e) (VStr (js "N/A")));
     card_priorityClass :=
       if urgentRecord e then js "bg-red-500 text-white font-bold"
       else js "bg-gray-400 text-gray-800";
     card_priority := domString (orElse (infoOf (js "priority") e) (VStr (js "N/A")));
     card_customerName :=
       domString (orElse (infoOf (js "customer_name") e) (VStr (js "Unknown User")));
     card_requestSummary :=
       domString (orElse (infoOf (js "request_summary") e)
                    (VStr (js "No summary available.")));
     card_sender := domString (fieldOf (js "sender") e);
     card_timestamp := if truthy ts then dateToLocaleString ts else js "N/A" |}.

End CardOfARecord.

(** *** The send listener and the draft, in the spec's words *)

Definition blankWarning : jsstring :=
  js "Please write a response before sending. " ++ warningSign.

(** The request the send listener issues for this state. *)
Definition statusUpdate (st : state) (finalResponse : jsstring) : request :=
  {| req_method := js "POST";
     req_url := js "./update_email_status";
     req_body :=
       Some (VObj [(js "email_id", datasetValue (btn_emailId (sendResponseBtn st)));
                   (js "final_response", VStr finalResponse)]) |}.


(** What the spec calls success of the draft request: a success status,
    a body that parses, and the success indicator in it. *)
Definition draftOf (o : outcome) : option value :=
  match o with
  | Rejected => None
  | Resolved r =>
      if resp_ok r then
        match resp_json r with
        | Some data =>
            if strictEqStr (fieldOf (js "status") data) (js "success")
            then Some (fieldOf (js "ai_response") data)
            else None
        | None => None
        end
      else None
  end.


(** *** The bars, in the spec's words *)

(** In the spec's words: every bar holds
    [count / total * 100], and 0 when its category total is 0. *)
Definition barAsSpecified (count total : nat) : jsnum :=
  if 0 <? total then percentage count total else Finite 0.

Definition barsAsSpecified (total resolved : nat)
    (sentiment : sentimentCounts) (priority : priorityCounts) (a : analyticsPanel) : Prop :=
  let totalSentiment := sc_positive sentiment + sc_neutral sentiment + sc_negative sentiment in
  let totalPriority := pc_urgent priority + pc_notUrgent priority in
  resolved_bar a = barAsSpecified resolved total /\
  sentiment_positive_bar a = barAsSpecified (sc_positive sentiment) totalSentiment /\
  sentiment_neutral_bar a = barAsSpecified (sc_neutral sentiment) totalSentiment /\
  sentiment_negative_bar a = barAsSpecified (sc_negative sentiment) totalSentiment /\
  priority_urgent_bar a = barAsSpecified (pc_urgent priority) totalPriority /\
  priority_not_urgent_bar a = barAsSpecified (pc_notUrgent priority) totalPriority.

(** *** The list listener, in the spec's words *)

(** No record of the collection has this identifier. *)
Definition absentFrom (emailId : jsstring) (data : value) : Prop :=
  match data with
  | VArr elems => forall e, In e elems -> fieldOf (js "id") e <> VStr emailId
  | _ => True
  end.

Section Unguarded.
Context {host : Host}.

(** The listener as the spec describes it ("currently unguarded in
    source"), with no test between the lookup and showEmailDetail. *)
Definition emailListView_click_unguarded (card : option jsstring) : M unit :=
  match card with
  | None => ret tt
  | Some emailId =>
      (data <- gets emailsData ;;
       email <- lift (arrayFind data
                        (fun e => (id <- getProp e (js "id") ;;
                                   Ok (strictEqStr id emailId))%result)) ;;
       callAsync (showEmailDetail_start email))%script
  end.

End Unguarded.

(** *** Invariants *)

(** The part of the state the invariants speak of: the session, the two
    [hidden] flags and the timers. *)
Definition observed (st : state)
    : option jsstring * bool * bool * bool * list interval :=
  (currentUserId st, isAuthReady st, list_hidden (emailListView st),
   detail_hidden (emailDetailView st), intervals st).

(** A statement keeps an invariant [P], and a computation keeps it whether
    it returns or throws. *)
Definition stable (P : state -> Prop) (f : state -> state) : Prop :=
  forall st, P st -> P (f st).

Definition preserves (P : state -> Prop) {A} (c : M A) : Prop :=
  forall st, P st -> P (snd (c st)).

(** Until the session is marked ready there is no user. *)
Definition sessionInv (st : state) : Prop :=
  isAuthReady st = false -> currentUserId st = None.

(** Exactly one of the two views is shown. *)
Definition viewInv (st : state) : Prop :=
  list_hidden (emailListView st) = negb (detail_hidden (emailDetailView st)).



(** *** Outcomes of the requests, as the script tells them apart *)

(** What makes loadEmails fail before it has a collection: a rejected
    fetch, a status outside 200 to 299, a body that is not JSON. *)
Definition fetchFailure (o : outcome) : option error :=
  match o with
  | Rejected => Some FetchRejected
  | Resolved r =>
      if resp_ok r then
        match resp_json r with
        | Some _ => None
        | None => Some JsonRejected
        end
      else Some (HttpError (resp_status r))
  end.

(** What makes the send and the seed listeners fail. They do not look at
    the HTTP status: the payload alone decides. *)
Definition payloadFailure (o : outcome) : option error :=
  match o with
  | Rejected => Some FetchRejected
  | Resolved r =>
      match resp_json r with
      | None => Some JsonRejected
      | Some data =>
          if nullish data then Some TypeError
          else if strictEqStr (fieldOf (js "status") data) (js "success") then None
          else Some (newError (fieldOf (js "message") data))
      end
  end.

(** The text getAIResponse hands to showEmailDetail. *)
Definition draftText (o : outcome) : value :=
  match draftOf o with
  | Some text => text
  | None => VStr fallbackResponse
  end.

Definition isArray (v : value) : bool :=
  match v with
  | VArr _ => true
  | _ => false
  end.

(** The record has this string as its identifier. *)
Definition hasId (emailId : jsstring) (e : value) : bool :=
  strictEqStr (fieldOf (js "id") e) emailId.

(** The requests of the script. *)
Definition fetchEmailsRequest : request :=
  {| req_method := js "GET"; req_url := js "./fetch_emails"; req_body := None |}.

Definition seedRequest : request :=
  {| req_method := js "POST"; req_url := js "./seed_emails"; req_body := None |}.

Definition draftRequest (email : value) : request :=
  {| req_method := js "POST";
     req_url := js "./generate_response";
     req_body := Some (VObj [(js "email_body", fieldOf (js "body") email)]) |}.

(** What loadEmails requests from this state: one reload, or nothing
    while there is no user. *)
Definition reloadOf (st : state) : list request :=
  if noUser (currentUserId st) then [] else [fetchEmailsRequest].

(** The messages of the script. *)
Definition loadFailure : jsstring :=
  js "Failed to load emails. Please try again later. " ++ warningSign.

Definition networkMessage : jsstring :=
  js "Failed to load emails. Please check your network.".

Definition draftingText : jsstring := js "AI is drafting a response...".

(** The state with other texts in the elements of the detail view. *)
Definition withDetailText (t : list (string * jsstring)) (st : state) : state :=
  set_emailDetailView
    {| detail_hidden := detail_hidden (emailDetailView st);
       detail_text := t;
       ai_response_editor := ai_response_editor (emailDetailView st) |} st.

(** The sign-in callbacks of a run: the auth callback called with a user. *)
Fixpoint signIns (evs : list event) : nat :=
  match evs with
  | [] => 0
  | AuthStateChanged (Some _) :: rest => S (signIns rest)
  | _ :: rest => signIns rest
  end.

(** The state showEmailDetail leaves at its [await], from the state with
    the views swapped: the detail texts [t], the editor holding the
    placeholder, the draft requested. *)
Definition opened (email : value) (t : list (string * jsstring)) (st : state) : state :=
  fetchAwait "POST" "./generate_response" (req_body (draftRequest email)) (KDraft email)
    (setEditor draftingText true (withDetailText t st)).

(** The request of the send listener for this identifier and this text. *)
Definition replyRequest (emailId : value) (finalResponse : jsstring) : request :=
  {| req_method := js "POST";
     req_url := js "./update_email_status";
     req_body :=
       Some (VObj [(js "email_id", emailId); (js "final_response", VStr finalResponse)]) |}.

Section AfterTheAssignment.
Context {host : Host}.

(** loadEmails from line 70 on, once [emailsData] holds the parsed body. *)
Definition loadEmails_rest (data : value) : M unit :=
  (len <- lift (getProp data (js "length")) ;;
   (if strictEqZero len then modify showEmptyState else renderEmailList data) ;;
   a <- lift (computeAnalytics data) ;;
   modify (updateAnalytics (arg_total a) (arg_resolved a) (arg_pending a)
             (arg_sentiment a) (arg_priority a)))%script.

End AfterTheAssignment.

(** ** A host for the worked examples

    Lower-casing of the ASCII letters, which is what toLowerCase does on
    ASCII text; the string conversion of the values that need no number
    formatting; a fixed text for every date. *)

Definition asciiLower (s : jsstring) : jsstring :=
  map (fun c => if ((65 <=? c) && (c <=? 90))%N then (c + 32)%N else c) s.

Definition sampleHost : Host :=
  {| toLowerCase := asciiLower;
     ToString := fun v =>
       match v with
       | VStr s => s
       | VUndefined => js "undefined"
       | VNull => js "null"
       | VBool true => js "true"
       | VBool false => js "false"
       | _ => js "[object Object]"
       end;
     dateToLocaleString := fun _ => js "1/1/2025, 12:00:00 AM" |}.

Definition sampleRecord (id status : string) (sentiment priority : value) : value :=
  VObj [(js "id", VStr (js id));
        (js "status", VStr (js status));
        (js "sender", VStr (js "customer@example.com"));
        (js "body", VStr (js "My order has not arrived."));
        (js "extractedInfo",
         VObj [(js "sentiment", sentiment); (js "priority", priority)])].

(** Three records: one resolved, positive and URGENT in capitals; one
    pending with no sentiment and a priority the script does not know; one
    with no status and no extracted info at all. *)
Definition sampleEmails : list value :=
  [ sampleRecord "e1" "resolved" (VStr (js "Positive")) (VStr (js "URGENT"));
    sampleRecord "e2" "pending" VUndefined (VStr (js "whenever"));
    VObj [(js "id", VStr (js "e3"))] ].

Definition samplePanel : analyticsPanel :=
  {| total_emails := 0; resolved_count := 0; pending_count := 0;
     resolved_bar := Finite 0;
     sentiment_positive_bar := Finite 0; sentiment_neutral_bar := Finite 0;
     sentiment_negative_bar := Finite 0;
     priority_urgent_bar := Finite 0; priority_not_urgent_bar := Finite 0 |}.

#[local] Existing Instance sampleHost.

(** The page as the script finds it when it is loaded. *)
Definition samplePage : state :=
  {| currentUserId := None;
     emailsData := VArr [];
     isAuthReady := false;
     userIdDisplay := js "Loading...";
     emailListView := {| list_hidden := false; list_innerHTML := [PageMarkup] |};
     emailDetailView :=
       {| detail_hidden := true;
          detail_text :=
            [("email-subject", []); ("email-sender", []);
             ("email-date", []); ("email-body", []);
             ("extracted-customer-name", []);
             ("extracted-request-summary", []);
             ("extracted-sentiment", []); ("extracted-priority", []);
             ("extracted-contact-details", [])]%string;
          ai_response_editor := Some {| editor_value := []; editor_disabled := false |} |};
     sendResponseBtn :=
       {| btn_disabled := false; btn_textContent := js "Send Response";
          btn_emailId := None |};
     seedDbBtn :=
       {| btn_disabled := false; btn_textContent := js "Seed Database";
          btn_emailId := None |};
     analytics := samplePanel;
     toastContainer := Some [];
     console := [];
     requests := [];
     pending := [];
     intervals := [] |}.

(** A successful answer of the backend carrying this JSON. *)
Definition okResponse (v : value) : outcome :=
  Resolved {| resp_status := 200; resp_json := Some v |}.

(** The session once the user is signed in and the first fetch has
    brought the three records. *)
Definition sampleSession : state :=
  @run sampleHost
    [AuthStateChanged (Some (js "uid-1")); Settle 0 (okResponse (VArr sampleEmails))]
    samplePage.

(** The detail view with three spaces in the editor. *)
Definition blankDraft : state :=
  set_emailDetailView
    {| detail_hidden := false;
       detail_text := [];
       ai_response_editor :=
         Some {| editor_value := js "   "; editor_disabled := false |} |}
    sampleSession.

Definition noSentiment : sentimentCounts :=
  {| sc_positive := 0; sc_neutral := 0; sc_negative := 0 |}.

(** A second fetch of the sample session that brings one record with no
    extracted info. *)
Definition sampleReload : state :=
  run [ClickGoBack; Settle 0 (okResponse (VArr [VObj [(js "id", VStr (js "e3"))]]))]
    sampleSession.

(** The sample session with the second record opened, and a tick of the
    polling timer meanwhile. *)
Definition sampleDetail : state :=
  run [ClickList (Some (js "e2"))] sampleSession.

(** The draft for the opened record has arrived and stands in the editor. *)
Definition sampleDrafted : state :=
  run [Settle 0 (okResponse (VObj [(js "status", VStr (js "success"));
                                   (js "ai_response",
                                    VStr (js "Thank you for writing to us."))]))]
    sampleDetail.

(** A status 200 whose body is an error object instead of the array. *)
Definition errorPayload : response :=
  {| resp_status := 200;
     resp_json := Some (VObj [(js "status", VStr (js "error"))]) |}.

(** A collection whose second record has a number where the sentiment
    should be. *)
Definition sampleUnreadable : list value :=
  [ sampleRecord "e1" "resolved" (VStr (js "Positive")) (VStr (js "URGENT"));
    sampleRecord "e4" "pending" (VNum 1) VUndefined ].

(** A collection whose second record has an object with a key [toString]
    as its sender. *)
Definition sampleUnprintable : list value :=
  [ sampleRecord "e1" "resolved" (VStr (js "Positive")) (VStr (js "URGENT"));
    VObj [(js "id", VStr (js "e6"));
          (js "sender", VObj [(js "toString", VStr (js "x"))])] ].

(** The second sample record, the one opened in [sampleDetail]. *)
Definition sampleOpened : value :=
  sampleRecord "e2" "pending" VUndefined (VStr (js "whenever")).

(** A record whose subject is an object with a key [toString], and the
    sample session after a reload that brought it. *)
Definition oddSubject : value :=
  VObj [(js "id", VStr (js "e5"));
        (js "subject", VObj [(js "toString", VNum 1)]);
        (js "body", VStr (js "Where is my invoice?"))].

Definition sampleOddSubject : state :=
  run [ClickGoBack; Settle 0 (okResponse (VArr [oddSubject]))] sampleSession.

(** A draft with a CR LF and a lone CR in it: "Hi", CR, LF, "there", CR. *)
Definition brokenLines : outcome :=
  okResponse (VObj [(js "status", VStr (js "success"));
                    (js "ai_response",
                     VStr [72; 105; 13; 10; 116; 104; 101; 114; 101; 13]%N)]).

(** The backend's answer to a draft request, and a payload that reports
    success under a status 500. *)
Definition draftResponse : outcome :=
  okResponse (VObj [(js "status", VStr (js "success"));
                    (js "ai_response", VStr (js "Thank you for writing to us."))]).

Definition successUnder500 : outcome :=
  Resolved {| resp_status := 500;
              resp_json := Some (VObj [(js "status", VStr (js "success"))]) |}.

(** ** Strings and property access *)

Lemma str_eqb_refl (s : jsstring) : str_eqb s s = true.
Proof.
  induction s as [|c s IH]; simpl; [reflexivity|].
  now rewrite N.eqb_refl, IH.
Qed.

Lemma str_eqb_eq (a b : jsstring) : str_eqb a b = true <-> a = b.
Proof.
  split.
  - revert b; induction a as [|x a IH]; intros [|y b] H; simpl in H;
      try discriminate; [reflexivity|].
    apply andb_true_iff in H as [Hx Hr].
    apply N.eqb_eq in Hx. apply IH in Hr. now subst.
  - intros ->. apply str_eqb_refl.
Qed.

Lemma getProp_fieldOf (key : jsstring) (v : value) :
  str_eqb key (js "length") = false ->
  nullish v = false ->
  getProp v key = Ok (fieldOf key v).
Proof.
  intros Hk Hv. destruct v; simpl in *; try discriminate; try reflexivity;
    now rewrite Hk.
Qed.

Lemma getPropOpt_fieldOf (key : jsstring) (v : value) :
  str_eqb key (js "length") = false ->
  getPropOpt v key = Ok (fieldOf key v).
Proof.
  intros Hk. unfold getPropOpt.
  destruct (nullish v) eqn:Hv.
  - destruct v; try discriminate; reflexivity.
  - now apply getProp_fieldOf.
Qed.

Lemma getProp_nullish (key : jsstring) (v : value) :
  nullish v = true -> getProp v key = Throw TypeError.
Proof. destruct v; simpl; intros H; try discriminate; reflexivity. Qed.

(** ** Filtering with a callback that may throw *)

Lemma filterR_total (p : value -> result bool) (f : value -> bool) (l : list value) :
  (forall e, In e l -> p e = Ok (f e)) ->
  filterR p l = Ok (filter f l).
Proof.
  induction l as [|e l IH]; intros H; simpl; [reflexivity|].
  rewrite (H e (or_introl eq_refl)). simpl.
  rewrite IH by (intros x Hx; apply H; now right). simpl.
  now destruct (f e).
Qed.

Lemma forallb_In {A} (f : A -> bool) (l : list A) (x : A) :
  forallb f l = true -> In x l -> f x = true.
Proof. intros H Hin. rewrite forallb_forall in H. now apply H. Qed.

(** The two status callbacks on one record. *)
Lemma isResolved_record (e : value) :
  nullish e = false ->
  isResolved e = Ok (resolvedRecord e) /\
  isNotResolved e = Ok (negb (resolvedRecord e)).
Proof.
  intros He. unfold isResolved, isNotResolved, resolvedRecord.
  rewrite (getProp_fieldOf (js "status") e eq_refl He). simpl.
  destruct (fieldOf (js "status") e); simpl; auto.
Qed.

Lemma isResolved_null (e : value) :
  nullish e = true ->
  isResolved e = Throw TypeError /\ isNotResolved e = Throw TypeError.
Proof.
  intros He. unfold isResolved, isNotResolved.
  now rewrite (getProp_nullish _ e He).
Qed.

Section RecordLemmas.
Context {host : Host}.

Lemma lowerInfo_readable (key : jsstring) (e : value) :
  str_eqb key (js "length") = false ->
  nullish e = false ->
  textOrUnset (infoOf key e) = true ->
  lowerInfo key e = Ok (lowered (infoOf key e)).
Proof.
  intros Hk He Ht. unfold lowerInfo.
  rewrite (getProp_fieldOf (js "extractedInfo") e eq_refl He). simpl.
  rewrite (getPropOpt_fieldOf key _ Hk). simpl.
  fold (infoOf key e).
  destruct (infoOf key e); simpl in *; try discriminate; reflexivity.
Qed.

Lemma lowerInfo_unreadable (key : jsstring) (e : value) :
  str_eqb key (js "length") = false ->
  nullish e = true \/ textOrUnset (infoOf key e) = false ->
  lowerInfo key e = Throw TypeError.
Proof.
  intros Hk H. unfold lowerInfo.
  destruct (nullish e) eqn:He.
  - now rewrite (getProp_nullish _ e He).
  - destruct H as [H|H]; [discriminate|].
    rewrite (getProp_fieldOf (js "extractedInfo") e eq_refl He). simpl.
    rewrite (getPropOpt_fieldOf key _ Hk). simpl.
    fold (infoOf key e).
    destruct (infoOf key e); simpl in *; try discriminate; reflexivity.
Qed.

Lemma strictEqStr_lowered (key name : jsstring) (e : value) :
  strictEqStr (lowered (infoOf key e)) name = inCategory key name e.
Proof.
  unfold inCategory. destruct (infoOf key e); reflexivity.
Qed.

Lemma sentimentIs_record (name : jsstring) (e : value) :
  classifiable e = true ->
  sentimentIs name e = Ok (sentimentRecord name e).
Proof.
  unfold classifiable. intros H.
  apply andb_true_iff in H as [H _]. apply andb_true_iff in H as [He Hs].
  apply negb_true_iff in He.
  unfold sentimentIs, sentimentRecord.
  rewrite (lowerInfo_readable (js "sentiment") e eq_refl He Hs). simpl.
  now rewrite strictEqStr_lowered.
Qed.

Lemma isUrgent_record (e : value) :
  priorityReadable e = true ->
  isUrgent e = Ok (urgentRecord e) /\ isNotUrgent e = Ok (negb (urgentRecord e)).
Proof.
  unfold priorityReadable. intros H.
  apply andb_true_iff in H as [He Hp]. apply negb_true_iff in He.
  unfold isUrgent, isNotUrgent, urgentRecord.
  rewrite (lowerInfo_readable (js "priority") e eq_refl He Hp). simpl.
  now rewrite strictEqStr_lowered.
Qed.

Lemma classifiable_priorityReadable (e : value) :
  classifiable e = true -> priorityReadable e = true.
Proof.
  unfold classifiable, priorityReadable. intros H.
  apply andb_true_iff in H as [H Hp]. apply andb_true_iff in H as [He _].
  now rewrite He, Hp.
Qed.

End RecordLemmas.

(** ** Conversions to a string *)

Lemma convertible_falsy (v : value) : truthy v = false -> convertible v = true.
Proof. destruct v; simpl; try reflexivity; discriminate. Qed.

Lemma convertible_orElse (v : value) (d : jsstring) :
  convertible (orElse v (VStr d)) = convertible v.
Proof.
  unfold orElse. destruct (truthy v) eqn:E; [reflexivity|].
  now rewrite (convertible_falsy v E).
Qed.

Lemma convertible_textOrUnset (v : value) : textOrUnset v = true -> convertible v = true.
Proof. destruct v; simpl; try reflexivity; discriminate. Qed.

(** ** The analytics of a fetched collection *)

Lemma filterR_each (p : value -> result bool) (l kept : list value) (e : value) :
  filterR p l = Ok kept -> In e l -> exists b, p e = Ok b.
Proof.
  revert kept. induction l as [|x l IH]; intros kept H Hin; [contradiction|].
  simpl in H. destruct (p x) as [b|err] eqn:Hx; simpl in H; [|discriminate].
  destruct (filterR p l) as [rest|err]; simpl in H; [|discriminate].
  destruct Hin as [<-|Hin]; [now exists b | now apply (IH rest)].
Qed.

Lemma forallb_found {A} (f : A -> bool) (l : list A) :
  forallb f l = false -> exists x, In x l /\ f x = false.
Proof.
  induction l as [|x l IH]; simpl; intros H; [discriminate|].
  apply andb_false_iff in H as [H|H].
  - exists x. split; [now left | exact H].
  - destruct (IH H) as [y [Hin Hy]]. exists y. split; [now right | exact Hy].
Qed.

Section LoadEmails.
Context {host : Host}.

Lemma classifiable_parts (e : value) :
  classifiable e = true ->
  nullish e = false /\
  textOrUnset (infoOf (js "sentiment") e) = true /\
  textOrUnset (infoOf (js "priority") e) = true.
Proof.
  unfold classifiable. intros H.
  apply andb_true_iff in H as [H Hp]. apply andb_true_iff in H as [He Hs].
  apply negb_true_iff in He. auto.
Qed.

(** On records it can classify, the aggregation of loadEmails is the
    spec's pure function of the collection. *)
Lemma computeAnalytics_classifiable (elems : list value) :
  forallb classifiable elems = true ->
  computeAnalytics (VArr elems)
  = Ok {| arg_total := length elems;
          arg_resolved := length (filter resolvedRecord elems);
          arg_pending := length (filter (fun e => negb (resolvedRecord e)) elems);
          arg_sentiment :=
            {| sc_positive := length (filter (sentimentRecord (js "positive")) elems);
               sc_neutral := length (filter (sentimentRecord (js "neutral")) elems);
               sc_negative := length (filter (sentimentRecord (js "negative")) elems) |};
          arg_priority :=
            {| pc_urgent := length (filter urgentRecord elems);
               pc_notUrgent := length (filter (fun e => negb (urgentRecord e)) elems) |} |}.
Proof.
  intros Hall.
  assert (Hc : forall e, In e elems -> classifiable e = true)
    by (intros e Hin; now apply (forallb_In _ elems)).
  assert (Hn : forall e, In e elems -> nullish e = false).
  { intros e Hin. now destruct (classifiable_parts e (Hc e Hin)). }
  unfold computeAnalytics, countWhere, arrayFilter.
  rewrite (filterR_total isResolved resolvedRecord)
    by (intros e Hin; now apply isResolved_record, Hn).
  rewrite (filterR_total isNotResolved (fun e => negb (resolvedRecord e)))
    by (intros e Hin; now apply isResolved_record, Hn).
  rewrite !(fun name => filterR_total (sentimentIs name) (sentimentRecord name))
    by (intros e Hin; now apply sentimentIs_record, Hc).
  rewrite (filterR_total isUrgent urgentRecord)
    by (intros e Hin; now apply isUrgent_record, classifiable_priorityReadable, Hc).
  rewrite (filterR_total isNotUrgent (fun e => negb (urgentRecord e)))
    by (intros e Hin; now apply isUrgent_record, classifiable_priorityReadable, Hc).
  reflexivity.
Qed.

(** A record on which the three kinds of callback return is one the
    script can classify. *)
Lemma callbacks_classify (e : value) :
  (exists b, isResolved e = Ok b) ->
  (exists b, sentimentIs (js "positive") e = Ok b) ->
  (exists b, isUrgent e = Ok b) ->
  classifiable e = true.
Proof.
  intros [b1 H1] [b2 H2] [b3 H3]. unfold classifiable.
  destruct (nullish e) eqn:He.
  { destruct (isResolved_null e He) as [H _]. congruence. }
  destruct (textOrUnset (infoOf (js "sentiment") e)) eqn:Hs.
  2:{ unfold sentimentIs in H2.
      rewrite (lowerInfo_unreadable (js "sentiment") e eq_refl (or_intror Hs)) in H2.
      discriminate H2. }
  destruct (textOrUnset (infoOf (js "priority") e)) eqn:Hp; [reflexivity|].
  unfold isUrgent in H3.
  rewrite (lowerInfo_unreadable (js "priority") e eq_refl (or_intror Hp)) in H3.
  discriminate H3.
Qed.

(** The aggregation returns exactly on the collections whose records the
    script can classify. *)
Lemma computeAnalytics_returns (elems : list value) :
  (exists a, computeAnalytics (VArr elems) = Ok a) <-> forallb classifiable elems = true.
Proof.
  split.
  - intros [a Ha].
    destruct (forallb classifiable elems) eqn:Hall; [reflexivity|].
    destruct (forallb_found _ _ Hall) as (e & Hin & He).
    unfold computeAnalytics, countWhere, arrayFilter in Ha.
    destruct (filterR isResolved elems) as [k1|] eqn:F1; simpl in Ha; [|discriminate].
    destruct (filterR isNotResolved elems) as [k2|]; simpl in Ha; [|discriminate].
    destruct (filterR (sentimentIs (js "positive")) elems) as [k3|] eqn:F3; simpl in Ha;
      [|discriminate].
    destruct (filterR (sentimentIs (js "neutral")) elems) as [k4|]; simpl in Ha;
      [|discriminate].
    destruct (filterR (sentimentIs (js "negative")) elems) as [k5|]; simpl in Ha;
      [|discriminate].
    destruct (filterR isUrgent elems) as [k6|] eqn:F6; simpl in Ha; [|discriminate].
    rewrite <- He. apply callbacks_classify.
    + exact (filterR_each _ _ _ e F1 Hin).
    + exact (filterR_each _ _ _ e F3 Hin).
    + exact (filterR_each _ _ _ e F6 Hin).
  - intros Hall. eexists. now apply computeAnalytics_classifiable.
Qed.

(** What the callback of renderEmailList gives: the card of a record it
    can classify and print, and a TypeError on any other record. *)
Lemma renderCard_unclassifiable (e : value) :
  classifiable e = false -> renderCard e = Throw TypeError.
Proof.
  intros H. unfold renderCard.
  destruct (nullish e) eqn:He.
  { now rewrite (lowerInfo_unreadable (js "sentiment") e eq_refl (or_introl He)). }
  destruct (textOrUnset (infoOf (js "sentiment") e)) eqn:Hs.
  2:{ now rewrite (lowerInfo_unreadable (js "sentiment") e eq_refl (or_intror Hs)). }
  destruct (textOrUnset (infoOf (js "priority") e)) eqn:Hp.
  { unfold classifiable in H. rewrite He, Hs, Hp in H. discriminate H. }
  rewrite (lowerInfo_readable (js "sentiment") e eq_refl He Hs).
  rewrite (lowerInfo_unreadable (js "priority") e eq_refl (or_intror Hp)).
  rewrite !(fun key H => getProp_fieldOf key e H He) by reflexivity.
  cbn [rbind].
  destruct (strictEqStr (lowered (infoOf (js "sentiment") e)) (js "positive"));
    reflexivity.
Qed.

Lemma resolvedRecord_status (e : value) :
  strictEqStr (fieldOf (js "status") e) (js "resolved") = resolvedRecord e.
Proof. unfold resolvedRecord. destruct (fieldOf (js "status") e); reflexivity. Qed.

Lemma renderCard_spec (e : value) :
  renderCard e = if renderable e then Ok (cardOf e) else Throw TypeError.
Proof.
  unfold renderable.
  destruct (classifiable e) eqn:Hc; [|now apply renderCard_unclassifiable].
  destruct (classifiable_parts e Hc) as (He & Hs & Hp).
  cbn [andb]. unfold renderCard, fillTemplate.
  rewrite (lowerInfo_readable (js "sentiment") e eq_refl He Hs).
  rewrite (lowerInfo_readable (js "priority") e eq_refl He Hp).
  rewrite !(fun key H => getProp_fieldOf key e H He) by reflexivity.
  cbn [rbind].
  rewrite !(fun key H => getPropOpt_fieldOf key (fieldOf (js "extractedInfo") e) H)
    by reflexivity.
  fold (infoOf (js "customer_name") e) (infoOf (js "request_summary") e)
    (infoOf (js "sentiment") e) (infoOf (js "priority") e).
  assert (Hclass :
            (if strictEqStr (lowered (infoOf (js "sentiment") e)) (js "positive")
             then Ok (js "bg-green-500/10 text-green-500")
             else
               Ok (if strictEqStr (lowered (infoOf (js "sentiment") e)) (js "negative")
                   then js "bg-red-500/10 text-red-500"
                   else js "bg-yellow-500/10 text-yellow-500"))
            = Ok (card_sentimentClass (cardOf e))).
  { unfold cardOf, sentimentRecord. cbn [card_sentimentClass].
    rewrite <- !strictEqStr_lowered.
    now destruct (strictEqStr (lowered (infoOf (js "sentiment") e)) (js "positive")). }
  rewrite Hclass. cbn [rbind].
  unfold printable, localeStringOf, toStr, converted.
  rewrite !convertible_orElse.
  rewrite (convertible_textOrUnset _ Hs), (convertible_textOrUnset _ Hp).
  destruct (convertible (fieldOf (js "timestamp") e)) eqn:Hts; cbn [andb].
  2:{ destruct (truthy (fieldOf (js "timestamp") e)) eqn:Ht; [reflexivity|].
      rewrite (convertible_falsy _ Ht) in Hts. discriminate Hts. }
  assert (Hdate :
            (if truthy (fieldOf (js "timestamp") e)
             then Ok (dateToLocaleString (fieldOf (js "timestamp") e))
             else Ok (js "N/A"))
            = Ok (card_timestamp (cardOf e))).
  { unfold cardOf. cbn [card_timestamp].
    now destruct (truthy (fieldOf (js "timestamp") e)). }
  rewrite Hdate. cbn [rbind].
  destruct (convertible (fieldOf (js "id") e)); cbn [andb rbind]; [|reflexivity].
  destruct (convertible (fieldOf (js "status") e)); cbn [andb rbind]; [|reflexivity].
  destruct (convertible (infoOf (js "customer_name") e)); cbn [andb rbind]; [|reflexivity].
  destruct (convertible (infoOf (js "request_summary") e)); cbn [andb rbind];
    [|reflexivity].
  destruct (convertible (fieldOf (js "sender") e)); cbn [andb rbind]; [|reflexivity].
  unfold cardOf, urgentRecord.
  rewrite <- strictEqStr_lowered, <- resolvedRecord_status.
  reflexivity.
Qed.

(** The callback returns exactly on the records that are classifiable and
    printable. *)
Lemma renderCard_returns (e : value) :
  (exists c, renderCard e = Ok c) <-> renderable e = true.
Proof.
  rewrite renderCard_spec. destruct (renderable e); split; intros H.
  - reflexivity.
  - now exists (cardOf e).
  - destruct H as [c H]. discriminate H.
  - discriminate H.
Qed.

Lemma renderable_classifiable (elems : list value) :
  forallb renderable elems = true -> forallb classifiable elems = true.
Proof.
  induction elems as [|e l IH]; simpl; [reflexivity|].
  intros H. apply andb_true_iff in H as [He Hl].
  unfold renderable in He. apply andb_true_iff in He as [He _].
  now rewrite He, (IH Hl).
Qed.

(** The loop of renderEmailList appends the cards of the records as long
    as it gets through them, and stops at the first it does not. *)
Lemma forEach_renders (elems : list value) (st : state) :
  forallb renderable elems = true ->
  forEachM elems (fun email => c <- lift (renderCard email) ;; modify (appendCard c))%script
    st
  = (Ok tt,
     setListMarkup
       (list_innerHTML (emailListView st) ++ map (fun e => CardMarkup (cardOf e)) elems) st).
Proof.
  revert st. induction elems as [|e l IH]; intros st Hall.
  - simpl. rewrite app_nil_r.
    destruct st as [? ? ? ? [? ?] ? ? ? ? ? ? ? ? ?]. reflexivity.
  - simpl in Hall. apply andb_true_iff in Hall as [He Hl].
    simpl. unfold bind at 1. unfold bind at 1. unfold lift at 1.
    rewrite renderCard_spec, He.
    unfold modify at 1. rewrite (IH _ Hl). simpl. rewrite <- app_assoc. reflexivity.
Qed.

Lemma forEach_stops (elems : list value) (st : state) :
  forallb renderable elems = false ->
  exists st',
    forEachM elems (fun email => c <- lift (renderCard email) ;; modify (appendCard c))%script
      st
    = (Throw TypeError, st') /\
    analytics st' = analytics st /\
    emailsData st' = emailsData st /\
    toastContainer st' = toastContainer st /\
    console st' = console st.
Proof.
  revert st. induction elems as [|e l IH]; intros st Hall; [discriminate|].
  simpl in Hall. simpl. unfold bind at 1. unfold bind at 1. unfold lift at 1.
  rewrite renderCard_spec.
  destruct (renderable e).
  - unfold modify at 1. simpl in Hall.
    destruct (IH (appendCard (cardOf e) st) Hall) as (st' & -> & H).
    exists st'. split; [reflexivity | exact H].
  - exists st. repeat split.
Qed.

(** What loadEmails does once the body has parsed to [v]. *)
Lemma loadEmails_after_json (r : response) (v : value) (st : state) :
  resp_ok r = true ->
  resp_json r = Some v ->
  loadEmails_resume (Resolved r) st
  = exec (tryCatch (loadEmails_rest v) loadEmails_catch) (set_emailsData v st).
Proof.
  intros Hok Hjson.
  unfold loadEmails_resume, exec, tryCatch, loadEmails_try.
  unfold bind at 1. unfold awaited, ret.
  unfold bind at 1. unfold checkOk. rewrite Hok. unfold ret.
  unfold bind at 1. unfold jsonOf. rewrite Hjson. unfold ret.
  unfold bind at 1. unfold modify at 1.
  reflexivity.
Qed.

(** The list view once loadEmails is through an array: the placeholder
    of an empty collection, or the cards. *)
Lemma list_view_of_an_array (elems : list value) (st : state) :
  forallb renderable elems = true ->
  (if strictEqZero (numOfNat (length elems)) then modify showEmptyState
   else renderEmailList (VArr elems)) st
  = (Ok tt,
     setListMarkup
       (match elems with
        | [] => [EmptyStateMarkup]
        | _ => map (fun e => CardMarkup (cardOf e)) elems
        end) st).
Proof.
  intros Hall.
  destruct elems as [|e l]; [reflexivity|].
  assert (Hnz : strictEqZero (numOfNat (length (e :: l))) = false) by reflexivity.
  rewrite Hnz. unfold renderEmailList. unfold bind at 1. unfold modify at 1.
  rewrite (forEach_renders (e :: l) _ Hall).
  destruct st as [? ? ? ? [? ?] ? ? ? ? ? ? ? ? ?]. reflexivity.
Qed.

Lemma getProp_length (elems : list value) :
  getProp (VArr elems) (js "length") = Ok (numOfNat (length elems)).
Proof. reflexivity. Qed.

(** After a successful fetch of an array whose records renderEmailList
    gets through, loadEmails ends in the call of updateAnalytics with the
    counts of lines 76 to 87; the analytics were not written before. *)
Lemma loadEmails_counts (r : response) (elems : list value) (st : state) :
  resp_ok r = true ->
  resp_json r = Some (VArr elems) ->
  forallb renderable elems = true ->
  exists a st1,
    computeAnalytics (VArr elems) = Ok a /\
    loadEmails_resume (Resolved r) st
    = updateAnalytics (arg_total a) (arg_resolved a) (arg_pending a)
        (arg_sentiment a) (arg_priority a) st1 /\
    analytics st1 = analytics st /\
    emailsData st1 = VArr elems.
Proof.
  intros Hok Hjson Hall.
  pose proof (computeAnalytics_classifiable elems (renderable_classifiable elems Hall))
    as Ha.
  eexists. eexists. split; [exact Ha|].
  rewrite (loadEmails_after_json r (VArr elems) st Hok Hjson).
  unfold exec, tryCatch, loadEmails_rest.
  unfold bind at 1. unfold lift at 1. rewrite getProp_length.
  unfold bind at 1. rewrite (list_view_of_an_array elems _ Hall).
  unfold bind at 1. unfold lift at 1. rewrite Ha.
  unfold modify. cbn [fst snd arg_total arg_resolved arg_pending arg_sentiment arg_priority].
  repeat split.
Qed.

(** When renderEmailList does not get through, loadEmails ends in its
    [catch] block and never counts. *)
Lemma loadEmails_stops (r : response) (elems : list value) (st : state) :
  resp_ok r = true ->
  resp_json r = Some (VArr elems) ->
  forallb renderable elems = false ->
  exists st1,
    loadEmails_resume (Resolved r) st
    = showErrorMessage networkMessage
        (showToast loadFailure Error
           (consoleError (js "Error fetching emails:") (Some TypeError) st1)) /\
    analytics st1 = analytics st /\
    emailsData st1 = VArr elems /\
    toastContainer st1 = toastContainer st /\
    console st1 = console st.
Proof.
  intros Hok Hjson Hall.
  rewrite (loadEmails_after_json r (VArr elems) st Hok Hjson).
  destruct (forEach_stops elems (setListMarkup [] (set_emailsData (VArr elems) st)) Hall)
    as (s1 & Hthrow & Hpanel & Hdata & Htoasts & Hconsole).
  exists s1. split; [|repeat split; assumption].
  unfold exec, tryCatch, loadEmails_rest.
  unfold bind at 1. unfold lift at 1. rewrite getProp_length.
  assert (Hnz : strictEqZero (numOfNat (length elems)) = false)
    by (destruct elems; [discriminate Hall | reflexivity]).
  rewrite Hnz.
  unfold bind at 1. unfold renderEmailList. unfold bind at 1. unfold modify at 1.
  rewrite Hthrow. reflexivity.
Qed.

End LoadEmails.

(** ** What loadEmails counts: resolved and pending (C1) *)

Section CountingProperties.
Context {host : Host}.

(** Whenever the aggregation returns, its counts are these. *)
Lemma computeAnalytics_value (elems : list value) (a : analyticsArgs) :
  computeAnalytics (VArr elems) = Ok a ->
  forallb classifiable elems = true /\
  a = {| arg_total := length elems;
         arg_resolved := length (filter resolvedRecord elems);
         arg_pending := length (filter (fun e => negb (resolvedRecord e)) elems);
         arg_sentiment :=
           {| sc_positive := length (filter (sentimentRecord (js "positive")) elems);
              sc_neutral := length (filter (sentimentRecord (js "neutral")) elems);
              sc_negative := length (filter (sentimentRecord (js "negative")) elems) |};
         arg_priority :=
           {| pc_urgent := length (filter urgentRecord elems);
              pc_notUrgent := length (filter (fun e => negb (urgentRecord e)) elems) |} |}.
Proof.
  intros Ha.
  assert (Hall : forallb classifiable elems = true)
    by (apply computeAnalytics_returns; now exists a).
  split; [exact Hall|].
  rewrite (computeAnalytics_classifiable elems Hall) in Ha. now injection Ha.
Qed.

(** C1. The counts of loadEmails (lines 76 to 87) exist exactly for the
    collections whose records the script can classify, and whenever they
    exist, the resolved count (status equal to "resolved") plus the
    pending count (any other status, also none) is the total handed to
    updateAnalytics, which is the number of records. After a successful
    fetch of the collection, loadEmails shows these very counts in the
    analytics panel when renderEmailList got through every record (its
    callback returns on each); when it did not, loadEmails has ended in
    its [catch] block before counting, and the panel shows what it showed
    before. *)
Theorem resolved_plus_pending_is_total (elems : list value) :
  (forall a,
     computeAnalytics (VArr elems) = Ok a ->
     arg_resolved a + arg_pending a = arg_total a /\
     arg_total a = length elems /\
     arg_resolved a = length (filter resolvedRecord elems) /\
     arg_pending a = length (filter (fun e => negb (resolvedRecord e)) elems)) /\
  ((exists a, computeAnalytics (VArr elems) = Ok a) <-> forallb classifiable elems = true) /\
  (forall r st,
     resp_ok r = true ->
     resp_json r = Some (VArr elems) ->
     let shown := analytics (loadEmails_resume (Resolved r) st) in
     if forallb renderable elems
     then
       total_emails shown = length elems /\
       resolved_count shown = length (filter resolvedRecord elems) /\
       pending_count shown = length (filter (fun e => negb (resolvedRecord e)) elems) /\
       resolved_count shown + pending_count shown = total_emails shown
     else shown = analytics st) /\
  (forall e, renderable e = true <-> exists c, renderCard e = Ok c).
Proof.
  split; [|split; [apply computeAnalytics_returns|split]].
  - intros a Ha. destruct (computeAnalytics_value elems a Ha) as [_ ->].
    cbn [arg_resolved arg_pending arg_total].
    split; [apply filter_length | repeat split].
  - intros r st Hok Hjson shown. unfold shown.
    destruct (forallb renderable elems) eqn:Hall.
    + destruct (loadEmails_counts r elems st Hok Hjson Hall) as (a & st1 & Ha & -> & _).
      destruct (computeAnalytics_value elems a Ha) as [_ ->].
      cbn. repeat split. apply filter_length.
    + destruct (loadEmails_stops r elems st Hok Hjson Hall) as (st1 & -> & Hpanel & _).
      unfold showToast.
      destruct (toastContainer _); exact Hpanel.
  - intros e. symmetry. apply renderCard_returns.
Qed.

(** ** Urgent and not urgent (C2) *)

(** C2. Whenever the counts of loadEmails exist, the urgent count plus
    the not-urgent count is the total, the number of records: the
    not-urgent records are all those that are not urgent, so a record
    whose priority is unset, or a string that does not lower-case to
    "urgent", is counted not urgent. After a successful fetch whose
    records renderEmailList gets through, these are the counts loadEmails
    hands to updateAnalytics, so that the total of the two priority bars
    is the number of records. *)
Theorem urgent_plus_not_urgent_is_total (elems : list value) :
  (forall a,
     computeAnalytics (VArr elems) = Ok a ->
     pc_urgent (arg_priority a) + pc_notUrgent (arg_priority a) = arg_total a /\
     arg_total a = length elems /\
     pc_urgent (arg_priority a) = length (filter urgentRecord elems) /\
     pc_notUrgent (arg_priority a)
     = length (filter (fun e => negb (urgentRecord e)) elems) /\
     forall e,
       In e elems ->
       match infoOf (js "priority") e with
       | VStr s => toLowerCase s <> js "urgent"
       | _ => True
       end ->
       isUrgent e = Ok false /\ isNotUrgent e = Ok true /\ urgentRecord e = false) /\
  ((exists a, computeAnalytics (VArr elems) = Ok a) <-> forallb classifiable elems = true) /\
  (forall r st,
     resp_ok r = true ->
     resp_json r = Some (VArr elems) ->
     forallb renderable elems = true ->
     exists a st1,
       computeAnalytics (VArr elems) = Ok a /\
       loadEmails_resume (Resolved r) st
       = updateAnalytics (arg_total a) (arg_resolved a) (arg_pending a)
           (arg_sentiment a) (arg_priority a) st1 /\
       pc_urgent (arg_priority a) + pc_notUrgent (arg_priority a) = length elems).
Proof.
  split; [|split; [apply computeAnalytics_returns|]].
  - intros a Ha. destruct (computeAnalytics_value elems a Ha) as [Hall ->].
    cbn [arg_priority pc_urgent pc_notUrgent arg_total].
    split; [apply filter_length | repeat split].
    + destruct (isUrgent_record e) as [-> _].
      { now apply classifiable_priorityReadable, (forallb_In _ elems). }
      unfold urgentRecord, inCategory.
      destruct (infoOf (js "priority") e); try reflexivity. simpl.
      destruct (str_eqb (toLowerCase s) (js "urgent")) eqn:E; [|reflexivity].
      apply str_eqb_eq in E. contradiction.
    + destruct (isUrgent_record e) as [_ ->].
      { now apply classifiable_priorityReadable, (forallb_In _ elems). }
      unfold urgentRecord, inCategory.
      destruct (infoOf (js "priority") e); try reflexivity. simpl.
      destruct (str_eqb (toLowerCase s) (js "urgent")) eqn:E; [|reflexivity].
      apply str_eqb_eq in E. contradiction.
    + unfold urgentRecord, inCategory.
      destruct (infoOf (js "priority") e); try reflexivity. simpl.
      destruct (str_eqb (toLowerCase s) (js "urgent")) eqn:E; [|reflexivity].
      apply str_eqb_eq in E. contradiction.
  - intros r st Hok Hjson Hall.
    destruct (loadEmails_counts r elems st Hok Hjson Hall) as (a & st1 & Ha & E & _).
    exists a, st1. split; [exact Ha|]. split; [exact E|].
    destruct (computeAnalytics_value elems a Ha) as [_ ->].
    apply filter_length.
Qed.

(** ** Classification by lower-cased text (C9) *)

(** C9. Whenever the counts of loadEmails exist, each sentiment count is
    the number of records whose sentiment is a string that lower-cases to
    the category's name, the urgent count the number of those whose
    priority lower-cases to "urgent", and the not-urgent count the number
    of all others: the filters keep exactly these records, so the case
    of the letters does not matter, a sentiment that lower-cases to none
    of the three names is counted in no category, and a priority that
    lower-cases to something else than "urgent" is counted as not urgent.
    After a successful fetch whose records renderEmailList gets through,
    these are the counts loadEmails hands to updateAnalytics. *)
Theorem classification_ignores_case (elems : list value) (a : analyticsArgs) :
  computeAnalytics (VArr elems) = Ok a ->
  (forall name,
     arrayFilter (VArr elems) (sentimentIs name)
     = Ok (filter (sentimentRecord name) elems)) /\
  arrayFilter (VArr elems) isUrgent = Ok (filter urgentRecord elems) /\
  arrayFilter (VArr elems) isNotUrgent
  = Ok (filter (fun e => negb (urgentRecord e)) elems) /\
  sc_positive (arg_sentiment a) = length (filter (sentimentRecord (js "positive")) elems) /\
  sc_neutral (arg_sentiment a) = length (filter (sentimentRecord (js "neutral")) elems) /\
  sc_negative (arg_sentiment a) = length (filter (sentimentRecord (js "negative")) elems) /\
  pc_urgent (arg_priority a) = length (filter urgentRecord elems) /\
  pc_notUrgent (arg_priority a) = length (filter (fun e => negb (urgentRecord e)) elems) /\
  (forall e s name,
     In e elems -> infoOf (js "sentiment") e = VStr s ->
     sentimentIs name e = Ok (str_eqb (toLowerCase s) name)) /\
  (forall e s,
     In e elems -> infoOf (js "priority") e = VStr s ->
     isUrgent e = Ok (str_eqb (toLowerCase s) (js "urgent")) /\
     isNotUrgent e = Ok (negb (str_eqb (toLowerCase s) (js "urgent")))) /\
  (forall e s,
     In e elems -> infoOf (js "sentiment") e = VStr s ->
     toLowerCase s <> js "positive" -> toLowerCase s <> js "neutral" ->
     toLowerCase s <> js "negative" ->
     sentimentIs (js "positive") e = Ok false /\
     sentimentIs (js "neutral") e = Ok false /\
     sentimentIs (js "negative") e = Ok false) /\
  (forall e s,
     In e elems -> infoOf (js "priority") e = VStr s ->
     toLowerCase s <> js "urgent" ->
     isUrgent e = Ok false /\ isNotUrgent e = Ok true) /\
  (forall r st,
     resp_ok r = true ->
     resp_json r = Some (VArr elems) ->
     forallb renderable elems = true ->
     exists st1,
       loadEmails_resume (Resolved r) st
       = updateAnalytics (arg_total a) (arg_resolved a) (arg_pending a)
           (arg_sentiment a) (arg_priority a) st1).
Proof.
  intros Ha. destruct (computeAnalytics_value elems a Ha) as [Hall Hval].
  assert (Hc : forall e, In e elems -> classifiable e = true)
    by (intros e Hin; now apply (forallb_In _ elems)).
  assert (Hneq : forall x y, x <> y -> str_eqb x y = false).
  { intros x y Hxy. destruct (str_eqb x y) eqn:E; [|reflexivity].
    apply str_eqb_eq in E. contradiction. }
  assert (Hsent : forall e s name,
             In e elems -> infoOf (js "sentiment") e = VStr s ->
             sentimentIs name e = Ok (str_eqb (toLowerCase s) name)).
  { intros e s name Hin Hs. rewrite (sentimentIs_record _ e (Hc e Hin)).
    unfold sentimentRecord, inCategory. now rewrite Hs. }
  assert (Hprio : forall e s,
             In e elems -> infoOf (js "priority") e = VStr s ->
             isUrgent e = Ok (str_eqb (toLowerCase s) (js "urgent")) /\
             isNotUrgent e = Ok (negb (str_eqb (toLowerCase s) (js "urgent")))).
  { intros e s Hin Hs.
    destruct (isUrgent_record e (classifiable_priorityReadable e (Hc e Hin))) as [-> ->].
    unfold urgentRecord, inCategory. now rewrite Hs. }
  split.
  { intros name. simpl. apply filterR_total.
    intros e Hin. now apply sentimentIs_record, Hc. }
  split.
  { simpl. apply filterR_total.
    intros e Hin. now apply isUrgent_record, classifiable_priorityReadable, Hc. }
  split.
  { simpl. apply filterR_total.
    intros e Hin. now apply isUrgent_record, classifiable_priorityReadable, Hc. }
  split; [now rewrite Hval|]. split; [now rewrite Hval|]. split; [now rewrite Hval|].
  split; [now rewrite Hval|]. split; [now rewrite Hval|].
  split; [exact Hsent|]. split; [exact Hprio|].
  split.
  { intros e s Hin Hs H1 H2 H3.
    rewrite !(Hsent e s _ Hin Hs), (Hneq _ _ H1), (Hneq _ _ H2), (Hneq _ _ H3).
    repeat split. }
  split.
  { intros e s Hin Hs H1. destruct (Hprio e s Hin Hs) as [-> ->].
    rewrite (Hneq _ _ H1). split; reflexivity. }
  intros r st Hok Hjson Hr.
  destruct (loadEmails_counts r elems st Hok Hjson Hr) as (a' & st1 & Ha' & E & _).
  exists st1. rewrite E. congruence.
Qed.

End CountingProperties.

(** On the three sample records: the capitals of "Positive" and "URGENT"
    do not matter, "whenever" is no known priority. *)
Lemma classification_ignores_case_witness :
  computeAnalytics (VArr sampleEmails)
  = Ok {| arg_total := 3; arg_resolved := 1; arg_pending := 2;
          arg_sentiment := {| sc_positive := 1; sc_neutral := 0; sc_negative := 0 |};
          arg_priority := {| pc_urgent := 1; pc_notUrgent := 2 |} |} /\
  @arrayFilter (VArr sampleEmails) (@sentimentIs sampleHost (js "positive"))
  = Ok [sampleRecord "e1" "resolved" (VStr (js "Positive")) (VStr (js "URGENT"))] /\
  1 = length (filter (sentimentRecord (js "positive")) sampleEmails) /\
  2 = length (filter (fun e => negb (urgentRecord e)) sampleEmails).
Proof.
  split; [reflexivity|].
  destruct (@classification_ignores_case sampleHost sampleEmails _ eq_refl)
    as (Hs & _ & _ & Hpos & _ & _ & _ & Hnot & _).
  split; [exact (Hs (js "positive"))|].
  split; [exact Hpos | exact Hnot].
Defined.

(** ** Blank responses (C3) *)

Lemma trimStart_blank (s : jsstring) :
  trimStart s = [] <-> forallb isWhiteSpace s = true.
Proof.
  induction s as [|c s IH]; simpl; [tauto|].
  destruct (isWhiteSpace c); simpl; [exact IH|].
  split; discriminate.
Qed.

(** The trimmed text is empty exactly when every code unit is white space. *)
Lemma trim_blank (s : jsstring) :
  trim s = [] <-> forallb isWhiteSpace s = true.
Proof.
  unfold trim, trimEnd. split.
  - intros H. apply trimStart_blank.
    apply (f_equal (@rev N)) in H. rewrite rev_involutive in H. simpl in H.
    apply trimStart_blank in H.
    destruct (trimStart s) as [|c r] eqn:E; [reflexivity|].
    assert (Hc : isWhiteSpace c = true).
    { rewrite forallb_forall in H. apply H. apply -> in_rev. now left. }
    clear -E Hc. exfalso. induction s as [|x s IH]; simpl in E; [discriminate|].
    destruct (isWhiteSpace x) eqn:Hx; [auto|].
    injection E as -> _. congruence.
  - intros H. apply trimStart_blank in H. now rewrite H.
Qed.

Section SendListener.
Context {host : Host}.

(** C3. When the editor's text trims to the empty string, a click on the
    send button does nothing but call showToast with the warning: no
    request goes out, no async function is left waiting, the rest of the
    state is as it was, and on a page with a toast container the warning
    toast is appended to it. A request goes out only when the trimmed text
    is not empty. *)
Theorem blank_response_is_rejected_locally :
  (forall st ed,
     ai_response_editor (emailDetailView st) = Some ed ->
     trim (editor_value ed) = [] ->
     handle ClickSend st = showToast blankWarning Warning st /\
     requests (handle ClickSend st) = requests st /\
     pending (handle ClickSend st) = pending st /\
     forall toasts,
       toastContainer st = Some toasts ->
       handle ClickSend st
       = set_toastContainer (Some (toasts ++ [mkToast blankWarning Warning])) st) /\
  (forall st,
     requests (handle ClickSend st) <> requests st ->
     exists ed,
       ai_response_editor (emailDetailView st) = Some ed /\
       trim (editor_value ed) <> [] /\
       requests (handle ClickSend st) = requests st ++ [statusUpdate st (editor_value ed)]).
Proof.
  split.
  - intros st ed Hed Hblank.
    assert (E : handle ClickSend st = showToast blankWarning Warning st).
    { unfold handle, exec, sendResponse_click, bind, gets. simpl.
      rewrite Hed, Hblank. reflexivity. }
    rewrite E. unfold showToast.
    destruct (toastContainer st) as [ts|] eqn:Hts.
    + repeat split; try reflexivity. intros toasts [= <-]. reflexivity.
    + repeat split; try reflexivity. intros toasts [=].
  - intros st Hreq.
    unfold handle, exec, sendResponse_click, bind, gets in *. simpl in *.
    destruct (ai_response_editor (emailDetailView st)) as [ed|] eqn:Hed; simpl in *.
    + exists ed. split; [reflexivity|].
      destruct (str_eqb (trim (editor_value ed)) []) eqn:Hb; simpl in *.
      * exfalso. apply Hreq. unfold modify, showToast. simpl.
        destruct (toastContainer st); reflexivity.
      * split; [|reflexivity].
        intros Hnil. rewrite Hnil in Hb. discriminate.
    + exfalso. now apply Hreq.
Qed.

End SendListener.

Lemma blank_response_is_rejected_locally_witness :
  trim (js "   ") = [] /\
  requests (handle ClickSend blankDraft) = requests blankDraft /\
  toastContainer (handle ClickSend blankDraft)
  = Some [mkToast blankWarning Warning].
Proof.
  split; [reflexivity|].
  destruct blank_response_is_rejected_locally as [H _].
  destruct (H blankDraft {| editor_value := js "   "; editor_disabled := false |}
              eq_refl eq_refl) as (_ & Hreq & _ & Htoast).
  split; [exact Hreq|].
  now rewrite (Htoast [] eq_refl).
Defined.

(** ** Drafts (C4) *)


(** ** Percentages of the bars (C5) *)

(** After the reload no record has a sentiment, and the positive bar still
    shows the 100 percent of the first fetch: updateAnalytics does not
    write the sentiment bars when their total is 0. *)
Lemma sentiment_bars_keep_their_width :
  computeAnalytics (emailsData sampleReload)
  = Ok {| arg_total := 1; arg_resolved := 0; arg_pending := 1;
          arg_sentiment := noSentiment;
          arg_priority := {| pc_urgent := 0; pc_notUrgent := 1 |} |} /\
  sentiment_positive_bar (analytics sampleReload) = Finite 100 /\
  ~ barsAsSpecified 1 0 noSentiment {| pc_urgent := 0; pc_notUrgent := 1 |}
      (analytics sampleReload).
Proof.
  split; [reflexivity|]. split; [reflexivity|].
  intros (_ & H & _). vm_compute in H. discriminate H.
Qed.

(** Every quotient updateAnalytics forms is finite. *)
Lemma percentage_finite (count total : nat) :
  0 < total ->
  percentage count total = Finite ((Z.of_nat count # Pos.of_nat total) * 100).
Proof.
  intros H. unfold percentage, divCounts.
  destruct total; [lia | reflexivity].
Qed.

(** C5, as the script has it. The resolved bar is [resolved / total * 100],
    and 0 when the total is 0. A sentiment or priority bar is
    [count / category total * 100] when its category total is positive;
    when that total is 0 the bar is not written and keeps its width. The
    script divides by a total only under the test that it is positive, so
    every width it writes is a finite number. *)
Theorem bars_follow_the_counts (total resolved pending : nat)
    (sentiment : sentimentCounts) (priority : priorityCounts) (st : state) :
  let before := analytics st in
  let after := analytics (updateAnalytics total resolved pending sentiment priority st) in
  let totalSentiment := sc_positive sentiment + sc_neutral sentiment + sc_negative sentiment in
  let totalPriority := pc_urgent priority + pc_notUrgent priority in
  resolved_bar after
  = (if 0 <? total then Finite ((Z.of_nat resolved # Pos.of_nat total) * 100)
     else Finite 0) /\
  (if 0 <? totalSentiment
   then
     sentiment_positive_bar after
     = Finite ((Z.of_nat (sc_positive sentiment) # Pos.of_nat totalSentiment) * 100) /\
     sentiment_neutral_bar after
     = Finite ((Z.of_nat (sc_neutral sentiment) # Pos.of_nat totalSentiment) * 100) /\
     sentiment_negative_bar after
     = Finite ((Z.of_nat (sc_negative sentiment) # Pos.of_nat totalSentiment) * 100)
   else
     sentiment_positive_bar after = sentiment_positive_bar before /\
     sentiment_neutral_bar after = sentiment_neutral_bar before /\
     sentiment_negative_bar after = sentiment_negative_bar before) /\
  (if 0 <? totalPriority
   then
     priority_urgent_bar after
     = Finite ((Z.of_nat (pc_urgent priority) # Pos.of_nat totalPriority) * 100) /\
     priority_not_urgent_bar after
     = Finite ((Z.of_nat (pc_notUrgent priority) # Pos.of_nat totalPriority) * 100)
   else
     priority_urgent_bar after = priority_urgent_bar before /\
     priority_not_urgent_bar after = priority_not_urgent_bar before).
Proof.
  cbv zeta. unfold updateAnalytics. simpl.
  repeat split.
  - destruct (0 <? total) eqn:E; [|reflexivity].
    apply Nat.ltb_lt in E. now apply percentage_finite.
  - destruct (0 <? _) eqn:E; [|repeat split].
    apply Nat.ltb_lt in E. repeat split; now apply percentage_finite.
  - destruct (0 <? _) eqn:E; [|repeat split].
    apply Nat.ltb_lt in E. repeat split; now apply percentage_finite.
Qed.

(** ** The send button after an attempt (C10) *)

Section SendAttempt.
Context {host : Host}.

(** C10. When the request of the send listener settles, in whatever way
    (success, a payload without the success indicator, a body that does
    not parse, a rejected fetch), the listener's [finally] block leaves
    the send button enabled with the label "Send Response". So an attempt
    that passed the blank check, which disabled the button and labelled it
    "Sending...", ends with the button enabled and its label restored. *)
Theorem send_button_is_restored :
  (forall o st,
     btn_disabled (sendResponseBtn (sendResponse_resume o st)) = false /\
     btn_textContent (sendResponseBtn (sendResponse_resume o st)) = js "Send Response") /\
  (forall st ed o,
     ai_response_editor (emailDetailView st) = Some ed ->
     trim (editor_value ed) <> [] ->
     let sending := handle ClickSend st in
     let settled := handle (Settle (length (pending st)) o) sending in
     btn_disabled (sendResponseBtn sending) = true /\
     btn_textContent (sendResponseBtn sending) = js "Sending..." /\
     pending sending = pending st ++ [KSend] /\
     btn_disabled (sendResponseBtn settled) = false /\
     btn_textContent (sendResponseBtn settled) = js "Send Response").
Proof.
  assert (Hfinally : forall o st,
             btn_disabled (sendResponseBtn (sendResponse_resume o st)) = false /\
             btn_textContent (sendResponseBtn (sendResponse_resume o st))
             = js "Send Response").
  { intros o st. unfold sendResponse_resume, exec, tryFinally.
    destruct (tryCatch (sendResponse_try o) sendResponse_catch st) as [r st'].
    split; reflexivity. }
  split; [exact Hfinally|].
  intros st ed o Hed Hnonblank sending settled.
  assert (Hb : str_eqb (trim (editor_value ed)) [] = false).
  { destruct (str_eqb _ _) eqn:E; [|reflexivity].
    apply str_eqb_eq in E. contradiction. }
  assert (Hsending : sending
                     = fetchAwait "POST" "./update_email_status"
                         (req_body (statusUpdate st (editor_value ed))) KSend
                         (setSendButton true (js "Sending...") st)).
  { unfold sending, handle, exec, sendResponse_click, bind, gets. simpl.
    rewrite Hed, Hb. reflexivity. }
  assert (Hpending : pending sending = pending st ++ [KSend])
    by (rewrite Hsending; reflexivity).
  repeat split; try (rewrite Hsending; reflexivity).
  - unfold settled, handle. rewrite Hpending.
    rewrite nth_error_app2, Nat.sub_diag by lia. simpl nth_error. cbv iota.
    apply Hfinally.
  - unfold settled, handle. rewrite Hpending.
    rewrite nth_error_app2, Nat.sub_diag by lia. simpl nth_error. cbv iota.
    apply Hfinally.
Qed.

End SendAttempt.

(** The reply is sent and the backend says it failed. *)
Lemma send_button_is_restored_witness :
  trim (js "Thank you for writing to us.") <> [] /\
  btn_disabled (sendResponseBtn (handle ClickSend sampleDrafted)) = true /\
  btn_disabled
    (sendResponseBtn
       (handle (Settle 0 (okResponse (VObj [(js "status", VStr (js "error"))])))
          (handle ClickSend sampleDrafted))) = false.
Proof.
  assert (Hnonblank : trim (js "Thank you for writing to us.") <> [])
    by (vm_compute; discriminate).
  split; [exact Hnonblank|].
  destruct send_button_is_restored as [_ H].
  destruct (H sampleDrafted
              {| editor_value := js "Thank you for writing to us.";
                 editor_disabled := false |}
              (okResponse (VObj [(js "status", VStr (js "error"))]))
              eq_refl Hnonblank) as (Hd & _ & _ & He & _).
  split; [exact Hd | exact He].
Defined.

(** ** A card that is no longer in the collection (C6) *)

Section ListListener.
Context {host : Host}.

Lemma findR_absent (emailId : jsstring) (elems : list value) :
  (forall e, In e elems -> fieldOf (js "id") e <> VStr emailId) ->
  findR (fun e => (id <- getProp e (js "id") ;; Ok (strictEqStr id emailId))%result) elems
  = (if existsb nullish elems then Throw TypeError else Ok VUndefined).
Proof.
  induction elems as [|x l IH]; intros Habs; [reflexivity|].
  simpl. destruct (nullish x) eqn:Hx.
  - now rewrite (getProp_nullish _ x Hx).
  - rewrite (getProp_fieldOf (js "id") x eq_refl Hx). simpl.
    assert (Hne : strictEqStr (fieldOf (js "id") x) emailId = false).
    { specialize (Habs x (or_introl eq_refl)).
      destruct (fieldOf (js "id") x); simpl; try reflexivity.
      destruct (str_eqb s emailId) eqn:E; [|reflexivity].
      apply str_eqb_eq in E. subst. now contradiction Habs. }
    rewrite Hne. apply IH. intros e Hin. apply Habs. now right.
Qed.

(** C6, as the script has it. For a click on a card whose identifier no
    record of the collection has, the lookup yields [undefined] (or fails
    on a [null] element), and the listener's test [if (email)] keeps
    showEmailDetail from being called: the click changes nothing, the list
    view stays as it was and the detail view is neither opened nor
    filled. *)
Theorem click_on_missing_card_changes_nothing (emailId : jsstring) (st : state) :
  absentFrom emailId (emailsData st) ->
  handle (ClickList (Some emailId)) st = st /\
  forall elems,
    emailsData st = VArr elems -> existsb nullish elems = false ->
    arrayFind (emailsData st)
      (fun e => (id <- getProp e (js "id") ;; Ok (strictEqStr id emailId))%result)
    = Ok VUndefined.
Proof.
  intros Habs. unfold handle, exec, emailListView_click, bind, gets, lift. simpl.
  destruct (emailsData st) as [| | | | |elems|] eqn:Hdata; simpl in *;
    try (split; [reflexivity | intros elems0 [=]]).
  rewrite (findR_absent emailId elems Habs).
  destruct (existsb nullish elems) eqn:Hn; simpl.
  - split; [reflexivity|]. intros elems0 [= <-]. congruence.
  - split; [reflexivity|]. intros elems0 [= <-] _. reflexivity.
Qed.

End ListListener.

(** No sample record has the identifier "abc123". *)
Lemma abc123_is_absent : absentFrom (js "abc123") (emailsData sampleSession).
Proof.
  vm_compute. intros e [<-|[<-|[<-|[]]]]; discriminate.
Qed.

Lemma click_on_missing_card_changes_nothing_witness :
  absentFrom (js "abc123") (emailsData sampleSession) /\
  handle (ClickList (Some (js "abc123"))) sampleSession = sampleSession.
Proof.
  split; [exact abc123_is_absent|].
  exact (proj1 (click_on_missing_card_changes_nothing (js "abc123") sampleSession
                  abc123_is_absent)).
Defined.

(** The path is guarded: were the lookup's result handed to showEmailDetail
    untested, the click on "abc123" would hide the list view and open the
    detail view before failing on [undefined]; the script leaves both
    views as they are. *)
Lemma missing_card_path_is_guarded :
  absentFrom (js "abc123") (emailsData sampleSession) /\
  list_hidden (emailListView
                 (exec (emailListView_click_unguarded (Some (js "abc123"))) sampleSession))
  = true /\
  list_hidden (emailListView (exec (emailListView_click (Some (js "abc123"))) sampleSession))
  = false /\
  exec (emailListView_click (Some (js "abc123"))) sampleSession
  <> exec (emailListView_click_unguarded (Some (js "abc123"))) sampleSession.
Proof.
  split; [exact abc123_is_absent|].
  split; [reflexivity|]. split; [reflexivity|].
  intros H. apply (f_equal (fun s => list_hidden (emailListView s))) in H.
  vm_compute in H. discriminate H.
Qed.

(** ** What every task preserves

    The part of the state the invariants below speak of: the session, the
    two [hidden] flags and the timers. Most statements of the script leave
    it alone; the few that write it are the hypotheses of the section. *)

Create HintDb frame.

Section Preservation.
Context {host : Host}.
Variable P : state -> Prop.
Hypothesis P_observed : forall s s', observed s = observed s' -> P s -> P s'.
Hypothesis P_show : forall s, P s -> P (setDetailHidden false (setListHidden true s)).
Hypothesis P_back : forall s, P s -> P (setListHidden false (setDetailHidden true s)).
Hypothesis P_ready : forall s, P s -> P (set_isAuthReady true s).
Hypothesis P_user :
  forall uid s, P s -> P (startPolling (set_isAuthReady true (set_currentUserId (Some uid) s))).

Lemma keeps_stable (f : state -> state) :
  (forall st, observed (f st) = observed st) -> stable P f.
Proof. intros H st HP. apply (P_observed st); [symmetry; apply H | exact HP]. Qed.

Lemma preserves_ret {A} (a : A) : preserves P (ret a).
Proof. intros st HP. exact HP. Qed.

Lemma preserves_throw {A} (e : error) : preserves P (@throw A e).
Proof. intros st HP. exact HP. Qed.

Lemma preserves_lift {A} (r : result A) : preserves P (lift r).
Proof. intros st HP. exact HP. Qed.

Lemma preserves_gets {A} (f : state -> A) : preserves P (gets f).
Proof. intros st HP. exact HP. Qed.

Lemma preserves_modify (f : state -> state) : stable P f -> preserves P (modify f).
Proof. intros H st HP. now apply H. Qed.

Lemma preserves_bind {A B} (c : M A) (k : A -> M B) :
  preserves P c -> (forall a, preserves P (k a)) -> preserves P (bind c k).
Proof.
  intros Hc Hk st HP. unfold bind.
  specialize (Hc st HP). destruct (c st) as [[a|e] st']; simpl in *.
  - now apply Hk.
  - exact Hc.
Qed.

Lemma preserves_tryCatch {A} (body : M A) (handler : error -> M A) :
  preserves P body -> (forall e, preserves P (handler e)) -> preserves P (tryCatch body handler).
Proof.
  intros Hb Hh st HP. unfold tryCatch.
  specialize (Hb st HP). destruct (body st) as [[a|e] st']; simpl in *.
  - exact Hb.
  - now apply Hh.
Qed.

Lemma preserves_tryFinally {A} (body : M A) (fin : state -> state) :
  preserves P body -> stable P fin -> preserves P (tryFinally body fin).
Proof.
  intros Hb Hf st HP. unfold tryFinally.
  specialize (Hb st HP). destruct (body st) as [r st']; simpl in *.
  now apply Hf.
Qed.

Lemma preserves_callAsync (c : M unit) : preserves P c -> preserves P (callAsync c).
Proof. intros Hc st HP. now apply Hc. Qed.

Lemma preserves_forEachM (l : list value) (f : value -> M unit) :
  (forall e, preserves P (f e)) -> preserves P (forEachM l f).
Proof.
  intros Hf. induction l as [|e l IH]; simpl.
  - apply preserves_ret.
  - apply preserves_bind; [apply Hf | intros _; exact IH].
Qed.

Lemma stable_exec {A} (c : M A) : preserves P c -> stable P (exec c).
Proof. intros Hc st HP. now apply Hc. Qed.

(** The statements that do not write the observed part. *)

Ltac keeps :=
  apply keeps_stable; intros st;
  repeat match goal with
         | |- context [match ?x with _ => _ end] => destruct x
         end;
  reflexivity.

Lemma stable_showToast m t : stable P (showToast m t).
Proof. unfold showToast. keeps. Qed.

Lemma stable_consoleLog m a : stable P (consoleLog m a).
Proof. keeps. Qed.

Lemma stable_consoleError m e : stable P (consoleError m e).
Proof. keeps. Qed.

Lemma stable_fetchAwait m u b k : stable P (fetchAwait m u b k).
Proof. keeps. Qed.

Lemma stable_setListMarkup m : stable P (setListMarkup m).
Proof. keeps. Qed.

Lemma stable_appendCard c : stable P (appendCard c).
Proof. keeps. Qed.

Lemma stable_set_emailsData v : stable P (set_emailsData v).
Proof. keeps. Qed.

Lemma stable_set_pending l : stable P (set_pending l).
Proof. keeps. Qed.

Lemma stable_updateAnalytics t r p s q : stable P (updateAnalytics t r p s q).
Proof. keeps. Qed.

Lemma stable_setDetailText id v : stable P (setDetailText id v).
Proof. keeps. Qed.

Lemma stable_setEditor v d : stable P (setEditor v d).
Proof. unfold setEditor. keeps. Qed.

Lemma stable_setSendButton d t : stable P (setSendButton d t).
Proof. keeps. Qed.

Lemma stable_setSeedButton d t : stable P (setSeedButton d t).
Proof. keeps. Qed.

Lemma stable_loadEmails_start : stable P loadEmails_start.
Proof.
  intros st HP. unfold loadEmails_start. destruct (noUser (currentUserId st)).
  - now apply stable_consoleLog.
  - now apply stable_fetchAwait, stable_setListMarkup.
Qed.

Lemma stable_goBack_click : stable P goBack_click.
Proof. intros st HP. unfold goBack_click. now apply stable_loadEmails_start, P_back. Qed.

Lemma stable_pollingCallback : stable P pollingCallback.
Proof.
  intros st HP. unfold pollingCallback.
  destruct (Bool.eqb _ _); [now apply stable_loadEmails_start | exact HP].
Qed.

#[local] Hint Resolve stable_showToast stable_consoleLog stable_consoleError
  stable_fetchAwait stable_setListMarkup stable_appendCard stable_set_emailsData
  stable_set_pending stable_updateAnalytics stable_setDetailText stable_setEditor
  stable_setSendButton stable_setSeedButton stable_loadEmails_start
  stable_goBack_click stable_pollingCallback : frame.

(** Walks through a computation statement by statement. *)
Ltac frame :=
  repeat match goal with
         | |- forall _, _ => intro
         | |- preserves _ (bind _ _) => apply preserves_bind
         | |- preserves _ (tryCatch _ _) => apply preserves_tryCatch
         | |- preserves _ (tryFinally _ _) => apply preserves_tryFinally
         | |- preserves _ (forEachM _ _) => apply preserves_forEachM
         | |- preserves _ (modify _) => apply preserves_modify
         | |- preserves _ (ret _) => apply preserves_ret
         | |- preserves _ (throw _) => apply preserves_throw
         | |- preserves _ (lift _) => apply preserves_lift
         | |- preserves _ (gets _) => apply preserves_gets
         | |- preserves _ (callAsync _) => apply preserves_callAsync
         | |- preserves _ (if ?b then _ else _) => destruct b
         | |- preserves _ (match ?x with _ => _ end) => destruct x
         | |- stable _ _ => solve [auto with frame]
         end.

Lemma preserves_loadEmails_try o : preserves P (loadEmails_try o).
Proof.
  unfold loadEmails_try, awaited, checkOk, jsonOf, renderEmailList, showEmptyState.
  frame.
Qed.

Lemma preserves_loadEmails_catch e : preserves P (loadEmails_catch e).
Proof. unfold loadEmails_catch, showErrorMessage. frame. Qed.

Lemma stable_loadEmails_resume o : stable P (loadEmails_resume o).
Proof.
  apply stable_exec, preserves_tryCatch;
    [apply preserves_loadEmails_try | apply preserves_loadEmails_catch].
Qed.

Lemma preserves_getAIResponse_resume o : preserves P (getAIResponse_resume o).
Proof.
  unfold getAIResponse_resume, getAIResponse_try, getAIResponse_catch,
    awaited, checkOk, jsonOf.
  frame.
Qed.

Lemma preserves_showEmailDetail_resume email o :
  preserves P (showEmailDetail_resume email o).
Proof.
  unfold showEmailDetail_resume.
  apply preserves_bind; [apply preserves_getAIResponse_resume|].
  frame. apply keeps_stable. reflexivity.
Qed.

Lemma preserves_fillIfPresent id v : preserves P (fillIfPresent id v).
Proof. unfold fillIfPresent. frame. Qed.

(** showEmailDetail first swaps the two views, then fills the detail. *)
Lemma preserves_after_show (rest : M unit) :
  preserves P rest ->
  preserves P (modify (setListHidden true) ;; modify (setDetailHidden false) ;; rest)%script.
Proof. intros Hrest st HP. apply Hrest, P_show, HP. Qed.

Lemma preserves_fillAll fields : preserves P (fillAll fields).
Proof.
  induction fields as [|[id v] rest IH]; simpl.
  - apply preserves_ret.
  - apply preserves_bind; [apply preserves_fillIfPresent | intros _; exact IH].
Qed.

Lemma preserves_showEmailDetail_start email : preserves P (showEmailDetail_start email).
Proof.
  unfold showEmailDetail_start.
  apply preserves_after_show.
  apply preserves_bind; [apply preserves_fillAll | intros _].
  frame.
Qed.

Lemma preserves_emailListView_click card : preserves P (emailListView_click card).
Proof.
  unfold emailListView_click. frame. apply preserves_showEmailDetail_start.
Qed.

Lemma preserves_sendResponse_click : preserves P sendResponse_click.
Proof. unfold sendResponse_click. frame. Qed.

Lemma stable_sendResponse_resume o : stable P (sendResponse_resume o).
Proof.
  apply stable_exec. unfold sendResponse_try, sendResponse_catch, sendResponse_finally,
    awaited, jsonOf.
  frame.
Qed.

Lemma stable_seed_resume o : stable P (seed_resume o).
Proof.
  apply stable_exec. unfold seed_try, seed_catch, awaited, jsonOf.
  frame.
Qed.

Lemma stable_seed_click : stable P seed_click.
Proof.
  intros st HP. unfold seed_click.
  now apply stable_fetchAwait, stable_showToast, stable_setSeedButton.
Qed.

Lemma stable_signIn_resume o : stable P (signIn_resume o).
Proof.
  intros st HP. destruct o; simpl; [|exact HP].
  now apply stable_showToast, P_ready, stable_consoleError.
Qed.

Lemma stable_onAuthStateChanged user : stable P (onAuthStateChanged user).
Proof.
  intros st HP. destruct user as [uid|]; simpl.
  - apply (P_observed
             (startPolling (set_isAuthReady true (set_currentUserId (Some uid) st)))).
    + unfold loadEmails_start. destruct (noUser _); reflexivity.
    + now apply P_user.
  - now apply stable_set_pending, stable_consoleLog.
Qed.

Lemma stable_resume k o : stable P (resume k o).
Proof.
  destruct k; simpl.
  - apply stable_signIn_resume.
  - apply stable_loadEmails_resume.
  - apply stable_exec, preserves_showEmailDetail_resume.
  - apply stable_sendResponse_resume.
  - apply stable_seed_resume.
Qed.

(** Every task of the event loop keeps the invariant. *)
Lemma handle_preserves (ev : event) : stable P (handle ev).
Proof.
  intros st HP. destruct ev; simpl.
  - now apply stable_onAuthStateChanged.
  - destruct (nth_error (pending st) n); [|exact HP].
    now apply stable_resume, stable_set_pending.
  - destruct (nth_error (intervals st) n) as [t|]; [|exact HP].
    destruct t as [p []]. now apply stable_pollingCallback.
  - now apply stable_exec; [apply preserves_emailListView_click|].
  - now apply stable_goBack_click.
  - now apply stable_exec; [apply preserves_sendResponse_click|].
  - now apply stable_seed_click.
Qed.

Lemma run_preserves (evs : list event) : stable P (run evs).
Proof.
  unfold run. induction evs as [|ev evs IH]; intros st HP; simpl; [exact HP|].
  now apply IH, handle_preserves.
Qed.

End Preservation.

(** ** Three invariants of the event loop *)

Ltac observed_eq H :=
  unfold observed in H; injection H as ? ? ? ? ?.

Section Invariants.
Context {host : Host}.

Lemma handle_sessionInv (ev : event) (st : state) :
  sessionInv st -> sessionInv (handle ev st).
Proof.
  apply (handle_preserves sessionInv); unfold sessionInv.
  - intros s s' H HP Hready. observed_eq H.
    assert (Hs : isAuthReady s = false) by congruence.
    specialize (HP Hs). congruence.
  - intros s HP. exact HP.
  - intros s HP. exact HP.
  - intros s _ H. discriminate H.
  - intros uid s _ H. discriminate H.
Qed.

Lemma handle_viewInv (ev : event) (st : state) :
  viewInv st -> viewInv (handle ev st).
Proof.
  apply (handle_preserves viewInv); unfold viewInv.
  - intros s s' H HP. observed_eq H. congruence.
  - intros s _. reflexivity.
  - intros s _. reflexivity.
  - intros s HP. exact HP.
  - intros uid s HP. exact HP.
Qed.


Lemma reachable_invariant (P : state -> Prop) :
  (forall st, initial st -> P st) ->
  (forall ev st, P st -> P (handle ev st)) ->
  forall st, reachable st -> P st.
Proof.
  intros Hinit Hstep st (st0 & evs & H0 & ->).
  apply Hinit in H0. clear Hinit. revert st0 H0.
  unfold run. induction evs as [|ev evs IH]; intros st0 H0; simpl; [exact H0|].
  now apply IH, Hstep.
Qed.

Lemma reachable_run (evs : list event) (st : state) :
  reachable st -> reachable (run evs st).
Proof.
  intros (st0 & evs0 & H0 & ->). exists st0, (evs0 ++ evs).
  split; [exact H0|]. unfold run. now rewrite fold_left_app.
Qed.

Lemma reachable_sessionInv (st : state) : reachable st -> sessionInv st.
Proof.
  apply reachable_invariant.
  - intros s (Hu & _) _. exact Hu.
  - apply handle_sessionInv.
Qed.

Lemma reachable_viewInv (st : state) : reachable st -> viewInv st.
Proof.
  apply reachable_invariant.
  - intros s (_ & _ & _ & (Hl & Hd) & _). unfold viewInv. now rewrite Hl, Hd.
  - apply handle_viewInv.
Qed.

(** ** Polling (C7) *)


(** ** Fetching before the session is ready (C8) *)

(** C8. A call of loadEmails while the session is not ready, that is,
    while there is no user (which is the case as long as the session has
    not been marked ready), only logs that it is waiting: no request goes
    out, no async function is left waiting, and the collection, the
    analytics and the views are as they were. *)
Theorem loadEmails_waits_for_the_session (st : state) :
  noUser (currentUserId st) = true \/ (reachable st /\ isAuthReady st = false) ->
  loadEmails_start st = consoleLog (js "Waiting for user authentication...") None st /\
  requests (loadEmails_start st) = requests st /\
  pending (loadEmails_start st) = pending st /\
  emailsData (loadEmails_start st) = emailsData st /\
  analytics (loadEmails_start st) = analytics st /\
  emailListView (loadEmails_start st) = emailListView st /\
  emailDetailView (loadEmails_start st) = emailDetailView st.
Proof.
  intros H.
  assert (Hno : noUser (currentUserId st) = true).
  { destruct H as [H|[Hreach Hready]]; [exact H|].
    now rewrite (reachable_sessionInv st Hreach Hready). }
  unfold loadEmails_start. rewrite Hno. repeat split.
Qed.

End Invariants.

Lemma samplePage_is_initial : initial samplePage.
Proof. repeat split. Qed.

Lemma samplePage_is_reachable : reachable samplePage.
Proof. exists samplePage, []. split; [exact samplePage_is_initial | reflexivity]. Qed.

Lemma sampleSession_is_reachable : reachable sampleSession.
Proof. apply reachable_run, samplePage_is_reachable. Qed.

(** Before any user has signed in, on the page as delivered. *)
Lemma loadEmails_waits_for_the_session_witness :
  (reachable samplePage /\ isAuthReady samplePage = false) /\
  requests (loadEmails_start samplePage) = [] /\
  emailsData (loadEmails_start samplePage) = VArr [].
Proof.
  assert (H : reachable samplePage /\ isAuthReady samplePage = false).
  { split; [exact samplePage_is_reachable | reflexivity]. }
  split; [exact H|].
  destruct (loadEmails_waits_for_the_session samplePage (or_intror H))
    as (_ & Hreq & _ & Hdata & _).
  split; [exact Hreq | exact Hdata].
Defined.


(** * Further properties of the script *)

(** ** Walking a computation with an invariant of one's own *)

(** Statement by statement, [tac] proving each plain statement stable. *)
Ltac walk tac :=
  repeat match goal with
         | |- forall _, _ => intro
         | |- preserves _ (bind _ _) => apply preserves_bind
         | |- preserves _ (tryCatch _ _) => apply preserves_tryCatch
         | |- preserves _ (tryFinally _ _) => apply preserves_tryFinally
         | |- preserves _ (forEachM _ _) => apply preserves_forEachM
         | |- preserves _ (modify _) => apply preserves_modify
         | |- preserves _ (ret _) => apply preserves_ret
         | |- preserves _ (throw _) => apply preserves_throw
         | |- preserves _ (lift _) => apply preserves_lift
         | |- preserves _ (gets _) => apply preserves_gets
         | |- preserves _ (callAsync _) => apply preserves_callAsync
         | |- preserves _ (if ?b then _ else _) => destruct b
         | |- preserves _ (match ?x with _ => _ end) => destruct x
         | |- stable _ _ => tac
         end.

(** A statement that does not write what the invariant reads. *)
Ltac untouched :=
  let s := fresh "s" in
  let H := fresh "H" in
  intros s H;
  unfold showToast, setEditor, loadEmails_start, goBack_click, pollingCallback in *;
  repeat match goal with
         | |- context [match ?x with _ => _ end] => destruct x
         | |- context [if ?x then _ else _] => destruct x
         end;
  exact H.

(** ** loadEmails: what a fetch leaves behind *)

Section FetchOutcomes.
Context {host : Host}.

(** A failed fetch is reported and changes nothing else: the error is
    logged, the error toast is shown, the list view holds the error
    placeholder, and the collection and the analytics stay as they
    were. *)
Theorem failed_fetch_keeps_the_collection (o : outcome) (e : error) (st : state) :
  fetchFailure o = Some e ->
  loadEmails_resume o st
  = showErrorMessage networkMessage
      (showToast loadFailure Error
         (consoleError (js "Error fetching emails:") (Some e) st)) /\
  emailsData (loadEmails_resume o st) = emailsData st /\
  analytics (loadEmails_resume o st) = analytics st /\
  list_innerHTML (emailListView (loadEmails_resume o st)) = [ErrorMarkup networkMessage].
Proof.
  intros Hfail.
  assert (E : loadEmails_resume o st
              = showErrorMessage networkMessage
                  (showToast loadFailure Error
                     (consoleError (js "Error fetching emails:") (Some e) st))).
  { destruct o as [|r]; simpl in Hfail.
    - injection Hfail as <-. reflexivity.
    - unfold loadEmails_resume, exec, tryCatch, loadEmails_try.
      unfold bind at 1. unfold awaited, ret.
      unfold bind at 1. unfold checkOk.
      destruct (resp_ok r).
      + unfold ret. unfold bind at 1. unfold jsonOf.
        destruct (resp_json r); [discriminate|].
        injection Hfail as <-. reflexivity.
      + injection Hfail as <-. reflexivity. }
  rewrite E. unfold showToast.
  destruct (toastContainer _); repeat split.
Qed.

Lemma loadEmails_keeps_the_json (v : value) (st : state) :
  emailsData st = v ->
  emailsData (exec (tryCatch (loadEmails_rest v) loadEmails_catch) st) = v.
Proof.
  apply (stable_exec (fun s => emailsData s = v)).
  unfold loadEmails_rest, loadEmails_catch, renderEmailList, showEmptyState,
    showErrorMessage.
  walk untouched.
Qed.

(** Whatever JSON a successful fetch brings becomes the collection, also
    when it is no array or holds records the script cannot render: the
    assignment comes first and the [catch] block does not undo it. So of
    two reloads in flight, the one whose response arrives last decides
    the collection. *)
Theorem fetched_json_replaces_the_collection (r : response) (v : value) (st : state) :
  resp_ok r = true ->
  resp_json r = Some v ->
  emailsData (loadEmails_resume (Resolved r) st) = v.
Proof.
  intros Hok Hjson. rewrite (loadEmails_after_json r v st Hok Hjson).
  now apply loadEmails_keeps_the_json.
Qed.

Lemma getProp_length_of_text (s : jsstring) :
  getProp (VStr s) (js "length") = Ok (numOfNat (length s)).
Proof. reflexivity. Qed.

Lemma getProp_of_object (props : list (jsstring * value)) (key : jsstring) :
  getProp (VObj props) key = Ok (lookup key props).
Proof. reflexivity. Qed.

(** On anything but an array the rest of the [try] block throws before it
    reaches updateAnalytics. *)
Lemma loadEmails_rest_needs_an_array (v : value) (st : state) :
  isArray v = false ->
  exists st',
    loadEmails_rest v st = (Throw TypeError, st') /\
    analytics st' = analytics st /\
    toastContainer st' = toastContainer st.
Proof.
  intros Harr. unfold loadEmails_rest.
  destruct v as [| |b|q|s|l|props]; try discriminate Harr.
  - eexists. repeat split.
  - eexists. repeat split.
  - eexists. repeat split.
  - eexists. repeat split.
  - unfold bind at 1. unfold lift at 1. rewrite getProp_length_of_text.
    destruct (strictEqZero (numOfNat (length s))); eexists; repeat split.
  - unfold bind at 1. unfold lift at 1. rewrite getProp_of_object.
    destruct (strictEqZero (lookup (js "length") props)); eexists; repeat split.
Qed.

(** A payload that is not an array ends in the [catch] block whatever it
    is: the list view holds the error placeholder, the analytics are not
    touched, and since the payload now is the collection, a click on any
    card finds nothing to open. *)
Theorem payload_that_is_no_array_is_an_error (r : response) (v : value) (st : state) :
  resp_ok r = true ->
  resp_json r = Some v ->
  isArray v = false ->
  let st' := loadEmails_resume (Resolved r) st in
  list_innerHTML (emailListView st') = [ErrorMarkup networkMessage] /\
  analytics st' = analytics st /\
  emailsData st' = v /\
  forall emailId, handle (ClickList (Some emailId)) st' = st'.
Proof.
  intros Hok Hjson Harr st'.
  assert (Hdata : emailsData st' = v).
  { unfold st'. rewrite (loadEmails_after_json r v st Hok Hjson).
    now apply loadEmails_keeps_the_json. }
  assert (Hrest : list_innerHTML (emailListView st') = [ErrorMarkup networkMessage] /\
                  analytics st' = analytics st).
  { unfold st'. rewrite (loadEmails_after_json r v st Hok Hjson).
    destruct (loadEmails_rest_needs_an_array v (set_emailsData v st) Harr)
      as (s1 & Hthrow & Hpanel & _).
    unfold exec, tryCatch. rewrite Hthrow.
    unfold loadEmails_catch, bind, modify, showToast. simpl.
    destruct (toastContainer s1); simpl; split; try reflexivity; exact Hpanel. }
  destruct Hrest as [Hlist Hpanel].
  repeat split; try assumption.
  intros emailId. unfold handle, exec, emailListView_click, bind, gets, lift. simpl.
  rewrite Hdata. destruct v; try discriminate Harr; reflexivity.
Qed.

(** An empty collection: the empty-state placeholder, the three counts at
    0 and the resolved bar at 0; none of the three sentiment bars and
    neither of the two priority bars is written, and nothing is
    reported. *)
Theorem empty_collection_shows_the_empty_state (r : response) (st : state) :
  resp_ok r = true ->
  resp_json r = Some (VArr []) ->
  let st' := loadEmails_resume (Resolved r) st in
  list_innerHTML (emailListView st') = [EmptyStateMarkup] /\
  emailsData st' = VArr [] /\
  total_emails (analytics st') = 0 /\
  resolved_count (analytics st') = 0 /\
  pending_count (analytics st') = 0 /\
  resolved_bar (analytics st') = Finite 0 /\
  sentiment_positive_bar (analytics st') = sentiment_positive_bar (analytics st) /\
  sentiment_neutral_bar (analytics st') = sentiment_neutral_bar (analytics st) /\
  sentiment_negative_bar (analytics st') = sentiment_negative_bar (analytics st) /\
  priority_urgent_bar (analytics st') = priority_urgent_bar (analytics st) /\
  priority_not_urgent_bar (analytics st') = priority_not_urgent_bar (analytics st) /\
  toastContainer st' = toastContainer st /\
  console st' = console st.
Proof.
  intros Hok Hjson st'. unfold st'.
  rewrite (loadEmails_after_json r (VArr []) st Hok Hjson).
  repeat split.
Qed.

End FetchOutcomes.

Lemma failed_fetch_keeps_the_collection_witness :
  fetchFailure Rejected = Some FetchRejected /\
  emailsData (loadEmails_resume Rejected sampleSession) = VArr sampleEmails.
Proof.
  split; [reflexivity|].
  destruct (failed_fetch_keeps_the_collection Rejected FetchRejected sampleSession eq_refl)
    as (_ & H & _).
  rewrite H. reflexivity.
Defined.

Lemma fetched_json_replaces_the_collection_witness :
  (resp_ok errorPayload = true /\
   resp_json errorPayload = Some (VObj [(js "status", VStr (js "error"))])) /\
  emailsData (loadEmails_resume (Resolved errorPayload) sampleSession)
  = VObj [(js "status", VStr (js "error"))].
Proof.
  split; [split; reflexivity|].
  exact (fetched_json_replaces_the_collection errorPayload _ sampleSession eq_refl eq_refl).
Defined.

Lemma payload_that_is_no_array_is_an_error_witness :
  (resp_ok errorPayload = true /\
   isArray (VObj [(js "status", VStr (js "error"))]) = false) /\
  analytics (loadEmails_resume (Resolved errorPayload) sampleSession)
  = analytics sampleSession.
Proof.
  split; [split; reflexivity|].
  exact (proj1 (proj2 (payload_that_is_no_array_is_an_error errorPayload _ sampleSession
                         eq_refl eq_refl eq_refl))).
Defined.

Lemma empty_collection_shows_the_empty_state_witness :
  resp_ok {| resp_status := 200; resp_json := Some (VArr []) |} = true /\
  list_innerHTML
    (emailListView
       (loadEmails_resume (okResponse (VArr [])) sampleSession))
  = [EmptyStateMarkup].
Proof.
  split; [reflexivity|].
  exact (proj1 (empty_collection_shows_the_empty_state
                  {| resp_status := 200; resp_json := Some (VArr []) |} sampleSession
                  eq_refl eq_refl)).
Defined.

(** ** The sentiment counts *)

Lemma filterR_cons (p : value -> result bool) (e : value) (l kept : list value) :
  filterR p (e :: l) = Ok kept ->
  exists b rest,
    p e = Ok b /\ filterR p l = Ok rest /\ kept = (if b then e :: rest else rest).
Proof.
  simpl. destruct (p e) as [b|err]; simpl; [|discriminate].
  destruct (filterR p l) as [rest|err]; simpl; [|discriminate].
  intros [= <-]. now exists b, rest.
Qed.

(** Three filters of which no two accept the same element keep at most as
    many elements as there are. *)
Lemma exclusive_filters_fit (p1 p2 p3 : value -> result bool) (l k1 k2 k3 : list value) :
  (forall e, p1 e = Ok true -> p2 e = Ok true -> False) ->
  (forall e, p1 e = Ok true -> p3 e = Ok true -> False) ->
  (forall e, p2 e = Ok true -> p3 e = Ok true -> False) ->
  filterR p1 l = Ok k1 -> filterR p2 l = Ok k2 -> filterR p3 l = Ok k3 ->
  length k1 + length k2 + length k3 <= length l.
Proof.
  intros H12 H13 H23. revert k1 k2 k3.
  induction l as [|e l IH]; intros k1 k2 k3 F1 F2 F3.
  - simpl in *. injection F1 as <-. injection F2 as <-. injection F3 as <-. simpl. lia.
  - apply filterR_cons in F1 as (b1 & r1 & E1 & R1 & ->).
    apply filterR_cons in F2 as (b2 & r2 & E2 & R2 & ->).
    apply filterR_cons in F3 as (b3 & r3 & E3 & R3 & ->).
    specialize (IH r1 r2 r3 R1 R2 R3).
    destruct b1, b2, b3; simpl; try lia;
      solve [ exfalso; eapply H12; eassumption
            | exfalso; eapply H13; eassumption
            | exfalso; eapply H23; eassumption ].
Qed.

Section SentimentCounts.
Context {host : Host}.

Lemma sentimentIs_one_name (a b : jsstring) (e : value) :
  sentimentIs a e = Ok true -> sentimentIs b e = Ok true -> a = b.
Proof.
  unfold sentimentIs. destruct (lowerInfo (js "sentiment") e) as [v|err]; simpl;
    [|discriminate].
  intros [= Ha] [= Hb]. destruct v; simpl in *; try discriminate.
  apply str_eqb_eq in Ha, Hb. congruence.
Qed.

(** Whenever loadEmails gets to count, the three sentiment counts add up
    to at most the number of records: no record is in two categories, and
    one with another sentiment, or none, is in no category. *)
Theorem sentiment_counts_fit_in_the_total (elems : list value) (a : analyticsArgs) :
  computeAnalytics (VArr elems) = Ok a ->
  sc_positive (arg_sentiment a) + sc_neutral (arg_sentiment a)
  + sc_negative (arg_sentiment a) <= arg_total a /\
  arg_total a = length elems.
Proof.
  unfold computeAnalytics, countWhere, arrayFilter, arrayLength.
  destruct (filterR isResolved elems) as [k0|]; simpl; [|discriminate].
  destruct (filterR isNotResolved elems) as [k0'|]; simpl; [|discriminate].
  destruct (filterR (sentimentIs (js "positive")) elems) as [k1|] eqn:F1; simpl;
    [|discriminate].
  destruct (filterR (sentimentIs (js "neutral")) elems) as [k2|] eqn:F2; simpl;
    [|discriminate].
  destruct (filterR (sentimentIs (js "negative")) elems) as [k3|] eqn:F3; simpl;
    [|discriminate].
  destruct (filterR isUrgent elems) as [k4|]; simpl; [|discriminate].
  destruct (filterR isNotUrgent elems) as [k5|]; simpl; [|discriminate].
  intros [= <-]. simpl. split; [|reflexivity].
  apply (exclusive_filters_fit (sentimentIs (js "positive")) (sentimentIs (js "neutral"))
           (sentimentIs (js "negative")) elems k1 k2 k3); try assumption;
    intros e Ha Hb; pose proof (sentimentIs_one_name _ _ e Ha Hb) as Hab;
    discriminate Hab.
Qed.

End SentimentCounts.

Lemma sentiment_counts_fit_in_the_total_witness :
  computeAnalytics (VArr sampleEmails)
  = Ok {| arg_total := 3; arg_resolved := 1; arg_pending := 2;
          arg_sentiment := {| sc_positive := 1; sc_neutral := 0; sc_negative := 0 |};
          arg_priority := {| pc_urgent := 1; pc_notUrgent := 2 |} |} /\
  1 + 0 + 0 <= 3.
Proof.
  split; [reflexivity|].
  exact (proj1 (sentiment_counts_fit_in_the_total sampleEmails _ eq_refl)).
Defined.

(** ** The cards *)

Section Cards.
Context {host : Host}.

(** What a card shows of its record: the three classes. *)
Lemma renderCard_fields (e : value) (c : card) :
  renderCard e = Ok c ->
  classifiable e = true /\
  card_sentimentClass c
  = (if sentimentRecord (js "positive") e then js "bg-green-500/10 text-green-500"
     else if sentimentRecord (js "negative") e then js "bg-red-500/10 text-red-500"
          else js "bg-yellow-500/10 text-yellow-500") /\
  card_priorityClass c
  = (if urgentRecord e then js "bg-red-500 text-white font-bold"
     else js "bg-gray-400 text-gray-800") /\
  card_statusClass c
  = (if resolvedRecord e then js "bg-green-500/20 text-green-700"
     else js "bg-blue-500/20 text-blue-700").
Proof.
  rewrite renderCard_spec. unfold renderable.
  destruct (classifiable e); [|discriminate].
  destruct (printable e); [|discriminate].
  intros [= <-]. repeat split.
Qed.

(** A card carries the colours of the categories its record is counted
    in: green sentiment exactly for the records counted positive, red for
    those counted negative and yellow for all others; the red priority
    badge exactly for the records counted urgent; the green status badge
    exactly for those counted resolved. And renderCard succeeds only on
    records the counting succeeds on. *)
Theorem cards_show_the_counted_categories (e : value) (c : card) :
  renderCard e = Ok c ->
  sentimentIs (js "positive") e
  = Ok (str_eqb (card_sentimentClass c) (js "bg-green-500/10 text-green-500")) /\
  sentimentIs (js "negative") e
  = Ok (str_eqb (card_sentimentClass c) (js "bg-red-500/10 text-red-500")) /\
  isUrgent e = Ok (str_eqb (card_priorityClass c) (js "bg-red-500 text-white font-bold")) /\
  isResolved e
  = Ok (str_eqb (card_statusClass c) (js "bg-green-500/20 text-green-700")).
Proof.
  intros H. destruct (renderCard_fields e c H) as (Hc & Hs & Hp & Hr).
  destruct (classifiable_parts e Hc) as (He & _ & _).
  rewrite !(sentimentIs_record _ e Hc).
  destruct (isUrgent_record e (classifiable_priorityReadable e Hc)) as [-> _].
  destruct (isResolved_record e He) as [-> _].
  rewrite Hs, Hp, Hr.
  assert (Hex : sentimentRecord (js "positive") e = true ->
                sentimentRecord (js "negative") e = false).
  { unfold sentimentRecord, inCategory.
    destruct (stringOf (infoOf (js "sentiment") e)); [|discriminate].
    intros Hpos. apply str_eqb_eq in Hpos. now rewrite Hpos. }
  destruct (sentimentRecord (js "positive") e) eqn:Epos.
  - rewrite (Hex eq_refl). destruct (urgentRecord e), (resolvedRecord e); repeat split.
  - destruct (sentimentRecord (js "negative") e), (urgentRecord e), (resolvedRecord e);
      repeat split.
Qed.

End Cards.

Lemma cards_show_the_counted_categories_witness :
  (exists c, renderCard (sampleRecord "e1" "resolved" (VStr (js "Positive"))
                           (VStr (js "URGENT"))) = Ok c) /\
  isUrgent (sampleRecord "e1" "resolved" (VStr (js "Positive")) (VStr (js "URGENT")))
  = Ok true.
Proof.
  assert (H : exists c, renderCard (sampleRecord "e1" "resolved" (VStr (js "Positive"))
                                      (VStr (js "URGENT"))) = Ok c)
    by (eexists; reflexivity).
  split; [exact H|].
  destruct H as [c Hc].
  destruct (cards_show_the_counted_categories _ c Hc) as (_ & _ & Hu & _).
  rewrite Hu. vm_compute in Hc. injection Hc as <-. reflexivity.
Defined.

(** ** Opening a record *)

Lemma withDetailText_same (st : state) :
  withDetailText (detail_text (emailDetailView st)) st = st.
Proof. destruct st as [? ? ? ? ? [? ? ?] ? ? ? ? ? ? ? ?]. reflexivity. Qed.

Lemma hasElement_setText (id id' : string) (s : jsstring) (t : list (string * jsstring)) :
  hasElement id (setText id' s t) = hasElement id t.
Proof.
  induction t as [|[k old] rest IH]; simpl; [reflexivity|].
  destruct (String.eqb k id'); simpl; [reflexivity | now rewrite IH].
Qed.

Lemma forallb_same {A} (f g : A -> bool) (l : list A) :
  (forall x, f x = g x) -> forallb f l = forallb g l.
Proof. intros H. induction l as [|x l IH]; simpl; [reflexivity | now rewrite H, IH]. Qed.

Section OpeningARecord.
Context {host : Host}.

(** One field: the element is filled, or left alone when the page lacks
    it; the statement throws when the page has the element and the value
    does not convert. *)
Lemma fillIfPresent_runs (id : string) (v : result value)
    (t : list (string * jsstring)) (st : state) :
  fillIfPresent id v (withDetailText t st)
  = if hasElement id t
    then match v with
         | Ok x =>
             if convertible x
             then (Ok tt, withDetailText (setText id (domString x) t) st)
             else (Throw TypeError, withDetailText t st)
         | Throw err => (Throw err, withDetailText t st)
         end
    else (Ok tt, withDetailText t st).
Proof.
  unfold fillIfPresent. unfold bind at 1. unfold gets at 1.
  change (detail_text (emailDetailView (withDetailText t st))) with t.
  destruct (hasElement id t); [|reflexivity].
  unfold bind at 1. unfold lift at 1. destruct v as [x|err]; [|reflexivity].
  unfold bind at 1. unfold lift at 1. unfold toStr, converted.
  destruct (convertible x); reflexivity.
Qed.

Lemma fillAll_runs (fields : list (string * result value))
    (t : list (string * jsstring)) (st : state) :
  forallb fills fields = true ->
  exists t', fillAll fields (withDetailText t st) = (Ok tt, withDetailText t' st).
Proof.
  revert t. induction fields as [|[id v] rest IH]; intros t Hall.
  - now exists t.
  - simpl in Hall. apply andb_true_iff in Hall as [Hf Hrest].
    unfold fills in Hf. simpl in Hf. destruct v as [x|]; [|discriminate].
    simpl. unfold bind at 1. rewrite fillIfPresent_runs, Hf.
    destruct (hasElement id t); now apply IH.
Qed.

Lemma fillAll_stops (fields : list (string * result value))
    (t : list (string * jsstring)) (st : state) :
  Forall (fun f => forall err, snd f = Throw err -> err = TypeError) fields ->
  forallb (fun f => hasElement (fst f) t) fields = true ->
  forallb fills fields = false ->
  exists t', fillAll fields (withDetailText t st) = (Throw TypeError, withDetailText t' st).
Proof.
  revert t. induction fields as [|[id v] rest IH]; intros t Herr Hpage Hall;
    [discriminate|].
  inversion Herr as [|f l Hv Hl]; subst.
  simpl in Hpage. apply andb_true_iff in Hpage as [Hid Hpage].
  simpl. unfold bind at 1. rewrite fillIfPresent_runs, Hid.
  destruct v as [x|err].
  - destruct (convertible x) eqn:Hx; [|now exists t].
    simpl in Hall. unfold fills at 1 in Hall. simpl in Hall. rewrite Hx in Hall.
    apply (IH _ Hl); [|exact Hall].
    rewrite <- Hpage. apply forallb_same. intros f. apply hasElement_setText.
  - rewrite (Hv err eq_refl). now exists t.
Qed.

(** The expressions of the nine fields on a record that is an object. *)
Lemma detailFields_values (e : value) :
  nullish e = false ->
  detailFields e
  = [ ("email-subject", Ok (orElse (fieldOf (js "subject") e) (VStr (js "No Subject"))));
      ("email-sender", Ok (orElse (fieldOf (js "sender") e) (VStr (js "Unknown"))));
      ("email-date",
       (s <- localeStringOf (fieldOf (js "timestamp") e) ;; Ok (VStr s))%result);
      ("email-body",
       Ok (orElse (fieldOf (js "body") e) (VStr (js "No content available."))));
      ("extracted-customer-name",
       Ok (orElse (infoOf (js "customer_name") e) (VStr (js "N/A"))));
      ("extracted-request-summary",
       Ok (orElse (infoOf (js "request_summary") e) (VStr (js "N/A"))));
      ("extracted-sentiment", Ok (orElse (infoOf (js "sentiment") e) (VStr (js "N/A"))));
      ("extracted-priority", Ok (orElse (infoOf (js "priority") e) (VStr (js "N/A"))));
      ("extracted-contact-details",
       Ok (orElse (infoOf (js "contact_details") e) (VStr (js "N/A")))) ]%string.
Proof.
  intros He. unfold detailFields. cbv zeta beta.
  rewrite !(fun key H => getProp_fieldOf key e H He) by reflexivity.
  cbn [rbind].
  rewrite !(fun key H => getPropOpt_fieldOf key (fieldOf (js "extractedInfo") e) H)
    by reflexivity.
  reflexivity.
Qed.

Lemma detailFields_fill (e : value) :
  nullish e = false -> forallb fills (detailFields e) = showable e.
Proof.
  intros He. rewrite (detailFields_values e He).
  unfold showable, shownValues, fills, localeStringOf, converted.
  cbn [forallb snd]. rewrite !convertible_orElse.
  destruct (convertible (fieldOf (js "timestamp") e)); reflexivity.
Qed.

Lemma detailFields_errors (e : value) :
  nullish e = false ->
  Forall (fun f => forall err, snd f = Throw err -> err = TypeError) (detailFields e).
Proof.
  intros He. rewrite (detailFields_values e He).
  repeat constructor; cbn [snd]; try discriminate.
  unfold localeStringOf, converted.
  destruct (convertible (fieldOf (js "timestamp") e)); simpl; intros err [= <-].
  reflexivity.
Qed.

(** showEmailDetail up to its [await] on a record whose values convert:
    the views are swapped, the fields filled, the editor holds the
    placeholder and the draft is requested. *)
Lemma showEmailDetail_opens (email : value) (st : state) :
  nullish email = false ->
  showable email = true ->
  exists t,
    showEmailDetail_start email st
    = (Ok tt, opened email t (setDetailHidden false (setListHidden true st))).
Proof.
  intros He Hshow. unfold showEmailDetail_start.
  unfold bind at 1. unfold modify at 1. unfold bind at 1. unfold modify at 1.
  cbv beta iota. unfold bind at 1.
  set (s0 := setDetailHidden false (setListHidden true st)).
  rewrite <- (withDetailText_same s0).
  destruct (fillAll_runs (detailFields email) (detail_text (emailDetailView s0)) s0)
    as [t Hfill].
  { now rewrite (detailFields_fill email He). }
  exists t. rewrite Hfill.
  unfold bind, modify, lift. rewrite (getProp_fieldOf (js "body") email eq_refl He).
  reflexivity.
Qed.

(** On a record with a value that does not convert, on a page that has
    the nine elements, showEmailDetail throws while it fills them. *)
Lemma showEmailDetail_stops (email : value) (st : state) :
  nullish email = false ->
  showable email = false ->
  hasDetailElements st = true ->
  exists t,
    showEmailDetail_start email st
    = (Throw TypeError, withDetailText t (setDetailHidden false (setListHidden true st))).
Proof.
  intros He Hshow Hpage. unfold showEmailDetail_start.
  unfold bind at 1. unfold modify at 1. unfold bind at 1. unfold modify at 1.
  cbv beta iota. unfold bind at 1.
  set (s0 := setDetailHidden false (setListHidden true st)).
  rewrite <- (withDetailText_same s0).
  destruct (fillAll_stops (detailFields email) (detail_text (emailDetailView s0)) s0)
    as [t Hfill].
  - now apply detailFields_errors.
  - rewrite (detailFields_values email He). exact Hpage.
  - now rewrite (detailFields_fill email He).
  - exists t. now rewrite Hfill.
Qed.

Lemma findR_hasId (emailId : jsstring) (elems : list value) :
  existsb nullish elems = false ->
  findR (fun e => (id <- getProp e (js "id") ;; Ok (strictEqStr id emailId))%result) elems
  = Ok (match find (hasId emailId) elems with
        | Some e => e
        | None => VUndefined
        end).
Proof.
  induction elems as [|x l IH]; intros Hn; [reflexivity|].
  simpl in Hn. apply orb_false_iff in Hn as [Hx Hl].
  simpl. rewrite (getProp_fieldOf (js "id") x eq_refl Hx). simpl.
  fold (hasId emailId x). destruct (hasId emailId x); [reflexivity | now apply IH].
Qed.

Lemma hasId_is_object (emailId : jsstring) (e : value) :
  hasId emailId e = true ->
  fieldOf (js "id") e = VStr emailId /\ truthy e = true /\ nullish e = false.
Proof.
  unfold hasId. destruct e; simpl; try discriminate.
  destruct (lookup (js "id") props); simpl; try discriminate.
  intros H. apply str_eqb_eq in H. now subst.
Qed.

Lemma click_on_a_card (emailId : jsstring) (elems : list value) (e : value) (st : state) :
  emailsData st = VArr elems ->
  existsb nullish elems = false ->
  find (hasId emailId) elems = Some e ->
  handle (ClickList (Some emailId)) st = exec (showEmailDetail_start e) st /\
  fieldOf (js "id") e = VStr emailId /\
  nullish e = false.
Proof.
  intros Hdata Hn Hfind.
  destruct (find_some _ _ Hfind) as [_ Hid].
  destruct (hasId_is_object emailId e Hid) as (Hstr & Htruthy & He).
  split; [|split; assumption].
  unfold handle, exec, emailListView_click, bind, gets, lift.
  rewrite Hdata. cbn [arrayFind]. rewrite (findR_hasId emailId elems Hn), Hfind.
  now rewrite Htruthy.
Qed.

(** A click on a card opens the first record of the collection whose
    identifier is the card's string. When the values the detail view
    shows of it convert to strings, the list view is hidden and the
    detail view shown, the editor (if the page has one) holds the
    placeholder and is disabled, and one draft is requested for the
    record's body. The identifier on the send button is not touched yet. *)
Theorem click_on_a_card_opens_its_record
    (emailId : jsstring) (elems : list value) (e : value) (st : state) :
  emailsData st = VArr elems ->
  existsb nullish elems = false ->
  find (hasId emailId) elems = Some e ->
  showable e = true ->
  let st' := handle (ClickList (Some emailId)) st in
  fieldOf (js "id") e = VStr emailId /\
  list_hidden (emailListView st') = true /\
  detail_hidden (emailDetailView st') = false /\
  requests st' = requests st ++ [draftRequest e] /\
  pending st' = pending st ++ [KDraft e] /\
  ai_response_editor (emailDetailView st')
  = match ai_response_editor (emailDetailView st) with
    | Some _ => Some {| editor_value := draftingText; editor_disabled := true |}
    | None => None
    end /\
  sendResponseBtn st' = sendResponseBtn st /\
  emailsData st' = emailsData st.
Proof.
  intros Hdata Hn Hfind Hshow st'.
  destruct (click_on_a_card emailId elems e st Hdata Hn Hfind) as (Hclick & Hstr & He).
  split; [exact Hstr|].
  destruct (showEmailDetail_opens e st He Hshow) as [t Hopen].
  assert (E : st' = opened e t (setDetailHidden false (setListHidden true st))).
  { unfold st'. rewrite Hclick. unfold exec. now rewrite Hopen. }
  assert (Hsame : ai_response_editor
                    (emailDetailView
                       (withDetailText t (setDetailHidden false (setListHidden true st))))
                  = ai_response_editor (emailDetailView st)) by reflexivity.
  rewrite E. unfold opened, setEditor. rewrite Hsame.
  destruct (ai_response_editor (emailDetailView st)) eqn:Hed; simpl;
    repeat split; exact Hed.
Qed.

(** A click on a card whose record has, among the values the detail view
    shows, one that does not convert to a string (an object with a key
    [toString]), on a page that has the nine elements: the views are
    swapped, and showEmailDetail throws at the assignment of that value.
    The editor keeps what it held, no draft is requested and nothing is
    left waiting: the detail view stays open with no draft to arrive. *)
Theorem record_that_cannot_be_shown_gets_no_draft
    (emailId : jsstring) (elems : list value) (e : value) (st : state) :
  emailsData st = VArr elems ->
  existsb nullish elems = false ->
  find (hasId emailId) elems = Some e ->
  showable e = false ->
  hasDetailElements st = true ->
  let st' := handle (ClickList (Some emailId)) st in
  list_hidden (emailListView st') = true /\
  detail_hidden (emailDetailView st') = false /\
  ai_response_editor (emailDetailView st') = ai_response_editor (emailDetailView st) /\
  requests st' = requests st /\
  pending st' = pending st /\
  sendResponseBtn st' = sendResponseBtn st.
Proof.
  intros Hdata Hn Hfind Hshow Hpage st'.
  destruct (click_on_a_card emailId elems e st Hdata Hn Hfind) as (Hclick & _ & He).
  destruct (showEmailDetail_stops e st He Hshow Hpage) as [t Hstop].
  unfold st'. rewrite Hclick. unfold exec. rewrite Hstop.
  repeat split.
Qed.

End OpeningARecord.

Lemma click_on_a_card_opens_its_record_witness :
  (emailsData sampleSession = VArr sampleEmails /\
   existsb nullish sampleEmails = false /\
   find (hasId (js "e2")) sampleEmails = Some sampleOpened /\
   showable sampleOpened = true) /\
  requests (handle (ClickList (Some (js "e2"))) sampleSession)
  = requests sampleSession ++ [draftRequest sampleOpened].
Proof.
  assert (H : emailsData sampleSession = VArr sampleEmails /\
              existsb nullish sampleEmails = false /\
              find (hasId (js "e2")) sampleEmails = Some sampleOpened /\
              showable sampleOpened = true)
    by (repeat split).
  split; [exact H|].
  destruct H as (Hd & Hn & Hf & Hs).
  exact (proj1 (proj2 (proj2 (proj2
           (click_on_a_card_opens_its_record (js "e2") sampleEmails _ sampleSession
              Hd Hn Hf Hs))))).
Defined.

Lemma record_that_cannot_be_shown_gets_no_draft_witness :
  (emailsData sampleOddSubject = VArr [oddSubject] /\
   find (hasId (js "e5")) [oddSubject] = Some oddSubject /\
   showable oddSubject = false /\
   hasDetailElements sampleOddSubject = true) /\
  detail_hidden (emailDetailView (handle (ClickList (Some (js "e5"))) sampleOddSubject))
  = false /\
  requests (handle (ClickList (Some (js "e5"))) sampleOddSubject)
  = requests sampleOddSubject.
Proof.
  assert (Hd : emailsData sampleOddSubject = VArr [oddSubject]) by (vm_compute; reflexivity).
  assert (Hp : hasDetailElements sampleOddSubject = true) by (vm_compute; reflexivity).
  split; [split; [exact Hd | split; [reflexivity | split; [reflexivity | exact Hp]]]|].
  destruct (record_that_cannot_be_shown_gets_no_draft (js "e5") [oddSubject] oddSubject
              sampleOddSubject Hd eq_refl eq_refl eq_refl Hp)
    as (_ & Hdetail & _ & Hreq & _).
  split; [exact Hdetail | exact Hreq].
Defined.

(** ** The draft and the reply *)

(** getAIResponse returns the draft text and, on a failure, reports it;
    it writes neither the views, nor the buttons, nor the requests. *)
Lemma getAIResponse_returns (o : outcome) (st : state) :
  exists st1,
    getAIResponse_resume o st = (Ok (draftText o), st1) /\
    emailDetailView st1 = emailDetailView st /\
    emailListView st1 = emailListView st /\
    sendResponseBtn st1 = sendResponseBtn st /\
    requests st1 = requests st /\
    pending st1 = pending st.
Proof.
  assert (Hfail : forall e,
             exists st1,
               getAIResponse_catch e st = (Ok (VStr fallbackResponse), st1) /\
               emailDetailView st1 = emailDetailView st /\
               emailListView st1 = emailListView st /\
               sendResponseBtn st1 = sendResponseBtn st /\
               requests st1 = requests st /\
               pending st1 = pending st).
  { intros e. eexists. split; [reflexivity|].
    unfold showToast. simpl. destruct (toastContainer st); repeat split. }
  unfold draftText, draftOf, getAIResponse_resume, tryCatch, getAIResponse_try.
  unfold bind, awaited, checkOk, jsonOf, lift, ret, throw.
  destruct o as [|r]; [apply Hfail|].
  destruct (resp_ok r); [|apply Hfail].
  destruct (resp_json r) as [data|]; [|apply Hfail].
  destruct data; try apply Hfail;
    try (cbn [getProp fieldOf strictEqStr];
         match goal with
         | |- context [str_eqb ?a ?b] => destruct (str_eqb a b)
         end; apply Hfail).
  cbn [getProp fieldOf].
  destruct (strictEqStr (lookup (js "status") props) (js "success"));
    [|apply Hfail].
  exists st. repeat split.
Qed.

Section DraftAndReply.
Context {host : Host}.

Lemma showEmailDetail_resume_runs (email : value) (o : outcome) (ed : editor) (st : state) :
  nullish email = false ->
  ai_response_editor (emailDetailView st) = Some ed ->
  let st' := exec (showEmailDetail_resume email o) st in
  ai_response_editor (emailDetailView st')
  = Some (if convertible (draftText o)
          then {| editor_value := normalizeNewlines (textAreaString (draftText o));
                  editor_disabled := false |}
          else ed) /\
  btn_emailId (sendResponseBtn st')
  = (if convertible (draftText o) && convertible (fieldOf (js "id") email)
     then Some (domString (fieldOf (js "id") email))
     else btn_emailId (sendResponseBtn st)) /\
  detail_hidden (emailDetailView st') = detail_hidden (emailDetailView st) /\
  emailListView st' = emailListView st /\
  requests st' = requests st /\
  pending st' = pending st.
Proof.
  intros He Hed st'.
  destruct (getAIResponse_returns o st) as (st1 & Hrun & Hdetail & Hlist & Hbtn & Hreq & Hpend).
  assert (Hed1 : ai_response_editor (emailDetailView st1) = Some ed) by now rewrite Hdetail.
  assert (E : st'
              = if convertible (draftText o)
                then
                  if convertible (fieldOf (js "id") email)
                  then setSendEmailId (domString (fieldOf (js "id") email))
                         (setEditor (textAreaString (draftText o)) false st1)
                  else setEditor (textAreaString (draftText o)) false st1
                else st1).
  { unfold st', exec, showEmailDetail_resume.
    unfold bind at 1. rewrite Hrun.
    unfold bind at 1. unfold gets at 1. rewrite Hed1.
    unfold bind at 1. unfold bind at 1. unfold lift at 1. unfold converted.
    destruct (convertible (draftText o)); [|reflexivity].
    unfold modify at 1. unfold bind at 1. unfold lift at 1.
    rewrite (getProp_fieldOf (js "id") email eq_refl He).
    unfold bind at 1. unfold lift at 1. unfold toStr, converted.
    destruct (convertible (fieldOf (js "id") email)); reflexivity. }
  rewrite E. unfold setEditor. rewrite Hed1.
  destruct (convertible (draftText o)).
  2:{ cbn [andb]. rewrite Hdetail, Hbtn. repeat split; assumption. }
  destruct (convertible (fieldOf (js "id") email)); cbn; rewrite Hdetail;
    repeat split; try assumption; now rewrite Hbtn.
Qed.

(** When the draft request settles, the editor holds the draft with its
    line breaks normalised (CR LF and CR become LF), or the fallback
    text if the request failed in any way, and is enabled again; the
    send button then carries the identifier of the opened record. The
    two assignments convert what they are given to a string: when the
    draft in the payload is a value that does not convert (an object with
    a key [toString]), showEmailDetail throws there, and the editor stays
    as it was, disabled if it was, and the button keeps the identifier it
    had; when only the identifier does not convert, the editor has the
    draft and the button keeps the identifier it had. The views stay as
    they were and nothing is requested. *)
Theorem draft_settles_into_the_editor
    (email : value) (o : outcome) (ed : editor) (st : state) :
  nullish email = false ->
  ai_response_editor (emailDetailView st) = Some ed ->
  let st' := exec (showEmailDetail_resume email o) st in
  ai_response_editor (emailDetailView st')
  = Some (if convertible (draftText o)
          then {| editor_value := normalizeNewlines (textAreaString (draftText o));
                  editor_disabled := false |}
          else ed) /\
  btn_emailId (sendResponseBtn st')
  = (if convertible (draftText o) && convertible (fieldOf (js "id") email)
     then Some (domString (fieldOf (js "id") email))
     else btn_emailId (sendResponseBtn st)) /\
  detail_hidden (emailDetailView st') = detail_hidden (emailDetailView st) /\
  emailListView st' = emailListView st /\
  requests st' = requests st.
Proof.
  intros He Hed st'.
  destruct (showEmailDetail_resume_runs email o ed st He Hed) as (H1 & H2 & H3 & H4 & H5 & _).
  repeat split; assumption.
Qed.

(** What a click on the send button posts when the editor's text is not
    blank. *)
Lemma send_posts (ed : editor) (st : state) :
  ai_response_editor (emailDetailView st) = Some ed ->
  trim (editor_value ed) <> [] ->
  requests (handle ClickSend st)
  = requests st
    ++ [replyRequest (datasetValue (btn_emailId (sendResponseBtn st))) (editor_value ed)].
Proof.
  intros Hed Hnonblank.
  assert (Hb : str_eqb (trim (editor_value ed)) [] = false).
  { destruct (str_eqb _ _) eqn:E; [|reflexivity].
    apply str_eqb_eq in E. contradiction. }
  unfold handle, exec, sendResponse_click, bind, gets. simpl.
  rewrite Hed, Hb. reflexivity.
Qed.

(** The reply goes to the record that was opened: once a draft that
    converts to a string has settled, for a record whose identifier does,
    a click on the send button posts the editor's text (the draft, its
    line breaks normalised), if it is not blank, with the identifier of
    that record. *)
Theorem reply_is_posted_for_the_opened_record
    (email : value) (o : outcome) (ed : editor) (st : state) :
  nullish email = false ->
  ai_response_editor (emailDetailView st) = Some ed ->
  convertible (draftText o) = true ->
  convertible (fieldOf (js "id") email) = true ->
  trim (normalizeNewlines (textAreaString (draftText o))) <> [] ->
  let drafted := exec (showEmailDetail_resume email o) st in
  requests (handle ClickSend drafted)
  = requests st
    ++ [replyRequest (VStr (domString (fieldOf (js "id") email)))
          (normalizeNewlines (textAreaString (draftText o)))].
Proof.
  intros He Hed Hdraft Hid Hnonblank drafted.
  destruct (showEmailDetail_resume_runs email o ed st He Hed)
    as (Heditor & Hbtn & _ & _ & Hreq & _).
  fold drafted in Heditor, Hbtn, Hreq.
  rewrite Hdraft in Heditor. rewrite Hdraft, Hid in Hbtn. cbn [andb] in Hbtn.
  rewrite (send_posts _ drafted Heditor Hnonblank), Hbtn, Hreq. reflexivity.
Qed.

(** After a draft request that failed, the editor holds the fallback
    message as if it were a draft: a click on the send button posts
    "Failed to generate AI response. Please try again." as the reply to
    the record (under the identifier the button had before, should the
    record's identifier not convert to a string). *)
Theorem failed_draft_is_sent_as_the_reply
    (email : value) (o : outcome) (ed : editor) (st : state) :
  nullish email = false ->
  ai_response_editor (emailDetailView st) = Some ed ->
  draftOf o = None ->
  let drafted := exec (showEmailDetail_resume email o) st in
  requests (handle ClickSend drafted)
  = requests st
    ++ [replyRequest
          (if convertible (fieldOf (js "id") email)
           then VStr (domString (fieldOf (js "id") email))
           else datasetValue (btn_emailId (sendResponseBtn st)))
          (js "Failed to generate AI response. Please try again.")].
Proof.
  intros He Hed Hfail drafted.
  destruct (showEmailDetail_resume_runs email o ed st He Hed)
    as (Heditor & Hbtn & _ & _ & Hreq & _).
  fold drafted in Heditor, Hbtn, Hreq.
  unfold draftText in Heditor, Hbtn. rewrite Hfail in Heditor, Hbtn.
  change (convertible (VStr fallbackResponse)) with true in Heditor, Hbtn.
  change (normalizeNewlines (textAreaString (VStr fallbackResponse)))
    with fallbackResponse in Heditor.
  cbn [andb] in Hbtn.
  assert (Hnonblank : trim fallbackResponse <> []) by (vm_compute; discriminate).
  rewrite (send_posts _ drafted Heditor Hnonblank), Hbtn, Hreq.
  now destruct (convertible (fieldOf (js "id") email)).
Qed.

(** While the draft is awaited the send button is not disabled and still
    carries the identifier of the record opened before, if any: a click
    on it posts the placeholder "AI is drafting a response..." as the
    reply, with that earlier identifier. *)
Theorem send_while_drafting_posts_the_placeholder
    (emailId : jsstring) (elems : list value) (e : value) (ed : editor) (st : state) :
  emailsData st = VArr elems ->
  existsb nullish elems = false ->
  find (hasId emailId) elems = Some e ->
  showable e = true ->
  ai_response_editor (emailDetailView st) = Some ed ->
  let opening := handle (ClickList (Some emailId)) st in
  btn_disabled (sendResponseBtn opening) = btn_disabled (sendResponseBtn st) /\
  requests (handle ClickSend opening)
  = requests st
    ++ [draftRequest e;
        replyRequest (datasetValue (btn_emailId (sendResponseBtn st)))
          (js "AI is drafting a response...")].
Proof.
  intros Hdata Hn Hfind Hshow Hed opening.
  destruct (click_on_a_card emailId elems e st Hdata Hn Hfind) as (Hclick & _ & He).
  destruct (showEmailDetail_opens e st He Hshow) as [t Hopen].
  assert (E : opening = opened e t (setDetailHidden false (setListHidden true st))).
  { unfold opening. rewrite Hclick. unfold exec. now rewrite Hopen. }
  assert (Heditor : ai_response_editor (emailDetailView opening)
                    = Some {| editor_value := draftingText; editor_disabled := true |}).
  { rewrite E. unfold opened, setEditor.
    change (ai_response_editor
              (emailDetailView
                 (withDetailText t (setDetailHidden false (setListHidden true st)))))
      with (ai_response_editor (emailDetailView st)).
    rewrite Hed. reflexivity. }
  assert (Hbtn : sendResponseBtn opening = sendResponseBtn st).
  { rewrite E. unfold opened, setEditor.
    change (ai_response_editor
              (emailDetailView
                 (withDetailText t (setDetailHidden false (setListHidden true st)))))
      with (ai_response_editor (emailDetailView st)).
    rewrite Hed. reflexivity. }
  assert (Hreq : requests opening = requests st ++ [draftRequest e]).
  { rewrite E. unfold opened, setEditor.
    change (ai_response_editor
              (emailDetailView
                 (withDetailText t (setDetailHidden false (setListHidden true st)))))
      with (ai_response_editor (emailDetailView st)).
    rewrite Hed. reflexivity. }
  split; [now rewrite Hbtn|].
  assert (Hnonblank : trim draftingText <> []) by (vm_compute; discriminate).
  rewrite (send_posts _ opening Heditor Hnonblank), Hbtn, Hreq.
  rewrite <- app_assoc. reflexivity.
Qed.

End DraftAndReply.

Lemma draft_settles_into_the_editor_witness :
  (nullish sampleOpened = false /\
   ai_response_editor (emailDetailView sampleDetail)
   = Some {| editor_value := draftingText; editor_disabled := true |}) /\
  ai_response_editor
    (emailDetailView (exec (showEmailDetail_resume sampleOpened brokenLines) sampleDetail))
  = Some {| editor_value := [72; 105; 10; 116; 104; 101; 114; 101; 10]%N;
            editor_disabled := false |}.
Proof.
  assert (Hed : ai_response_editor (emailDetailView sampleDetail)
                = Some {| editor_value := draftingText; editor_disabled := true |})
    by (vm_compute; reflexivity).
  split; [split; [reflexivity | exact Hed]|].
  exact (proj1 (draft_settles_into_the_editor sampleOpened brokenLines _ sampleDetail
                  eq_refl Hed)).
Defined.

Lemma reply_is_posted_for_the_opened_record_witness :
  (nullish sampleOpened = false /\
   ai_response_editor (emailDetailView sampleDetail)
   = Some {| editor_value := draftingText; editor_disabled := true |} /\
   convertible (draftText draftResponse) = true /\
   convertible (fieldOf (js "id") sampleOpened) = true /\
   trim (normalizeNewlines (textAreaString (draftText draftResponse))) <> []) /\
  requests
    (handle ClickSend (exec (showEmailDetail_resume sampleOpened draftResponse) sampleDetail))
  = requests sampleDetail
    ++ [replyRequest (VStr (domString (fieldOf (js "id") sampleOpened)))
          (normalizeNewlines (textAreaString (draftText draftResponse)))].
Proof.
  assert (Hed : ai_response_editor (emailDetailView sampleDetail)
                = Some {| editor_value := draftingText; editor_disabled := true |})
    by (vm_compute; reflexivity).
  assert (Hnonblank : trim (normalizeNewlines (textAreaString (draftText draftResponse)))
                      <> [])
    by (vm_compute; discriminate).
  split; [split; [reflexivity | split; [exact Hed | split; [reflexivity |
           split; [reflexivity | exact Hnonblank]]]]|].
  exact (reply_is_posted_for_the_opened_record sampleOpened draftResponse _ sampleDetail
           eq_refl Hed eq_refl eq_refl Hnonblank).
Defined.

Lemma failed_draft_is_sent_as_the_reply_witness :
  (nullish sampleOpened = false /\
   ai_response_editor (emailDetailView sampleDetail)
   = Some {| editor_value := draftingText; editor_disabled := true |} /\
   draftOf Rejected = None) /\
  requests (handle ClickSend (exec (showEmailDetail_resume sampleOpened Rejected) sampleDetail))
  = requests sampleDetail
    ++ [replyRequest (VStr (js "e2"))
          (js "Failed to generate AI response. Please try again.")].
Proof.
  assert (Hed : ai_response_editor (emailDetailView sampleDetail)
                = Some {| editor_value := draftingText; editor_disabled := true |})
    by (vm_compute; reflexivity).
  split; [split; [reflexivity | split; [exact Hed | reflexivity]]|].
  exact (failed_draft_is_sent_as_the_reply sampleOpened Rejected _ sampleDetail
           eq_refl Hed eq_refl).
Defined.

Lemma send_while_drafting_posts_the_placeholder_witness :
  (emailsData sampleSession = VArr sampleEmails /\
   existsb nullish sampleEmails = false /\
   find (hasId (js "e2")) sampleEmails = Some sampleOpened /\
   showable sampleOpened = true /\
   ai_response_editor (emailDetailView sampleSession)
   = Some {| editor_value := []; editor_disabled := false |}) /\
  requests (handle ClickSend (handle (ClickList (Some (js "e2"))) sampleSession))
  = requests sampleSession
    ++ [draftRequest sampleOpened;
        replyRequest (datasetValue (btn_emailId (sendResponseBtn sampleSession)))
          (js "AI is drafting a response...")].
Proof.
  assert (Hd : emailsData sampleSession = VArr sampleEmails) by (vm_compute; reflexivity).
  assert (Hed : ai_response_editor (emailDetailView sampleSession)
                = Some {| editor_value := []; editor_disabled := false |})
    by (vm_compute; reflexivity).
  split; [split; [exact Hd | split; [reflexivity | split; [reflexivity |
           split; [reflexivity | exact Hed]]]]|].
  exact (proj2 (send_while_drafting_posts_the_placeholder (js "e2") sampleEmails
                  sampleOpened _ sampleSession Hd eq_refl eq_refl eq_refl Hed)).
Defined.

(** ** How a send and a seed end *)

Lemma payload_status (data : value) (k : M unit) (st : state) :
  nullish data = false ->
  (status <- lift (getProp data (js "status")) ;;
   if strictEqStr status (js "success") then k
   else (message <- lift (getProp data (js "message")) ;; throw (newError message)))%script
    st
  = if strictEqStr (fieldOf (js "status") data) (js "success") then k st
    else (Throw (newError (fieldOf (js "message") data)), st).
Proof.
  intros Hd. unfold bind at 1. unfold lift at 1.
  rewrite (getProp_fieldOf (js "status") data eq_refl Hd).
  destruct (strictEqStr (fieldOf (js "status") data) (js "success")); [reflexivity|].
  unfold bind, lift, throw. now rewrite (getProp_fieldOf (js "message") data eq_refl Hd).
Qed.

Lemma sendResponse_try_runs (o : outcome) (st : state) :
  sendResponse_try o st
  = match payloadFailure o with
    | None =>
        (Ok tt,
         goBack_click (showToast (js "Response sent successfully! " ++ checkMark) Success st))
    | Some e => (Throw e, st)
    end.
Proof.
  unfold sendResponse_try, payloadFailure.
  destruct o as [|r]; [reflexivity|].
  unfold bind at 1. unfold awaited, ret.
  unfold bind at 1. unfold jsonOf.
  destruct (resp_json r) as [data|]; [|reflexivity].
  unfold ret. destruct (nullish data) eqn:Hd.
  - unfold bind, lift. now rewrite (getProp_nullish _ data Hd).
  - rewrite (payload_status data _ st Hd).
    now destruct (strictEqStr (fieldOf (js "status") data) (js "success")).
Qed.

Lemma seed_try_runs (o : outcome) (st : state) :
  seed_try o st
  = match payloadFailure o with
    | None =>
        (Ok tt,
         loadEmails_start
           (showToast (js "Database seeded successfully! " ++ checkMark) Success st))
    | Some e => (Throw e, st)
    end.
Proof.
  unfold seed_try, payloadFailure.
  destruct o as [|r]; [reflexivity|].
  unfold bind at 1. unfold awaited, ret.
  unfold bind at 1. unfold jsonOf.
  destruct (resp_json r) as [data|]; [|reflexivity].
  unfold ret. destruct (nullish data) eqn:Hd.
  - unfold bind, lift. now rewrite (getProp_nullish _ data Hd).
  - rewrite (payload_status data _ st Hd).
    now destruct (strictEqStr (fieldOf (js "status") data) (js "success")).
Qed.

Lemma loadEmails_start_requests (st : state) :
  requests (loadEmails_start st) = requests st ++ reloadOf st.
Proof.
  unfold loadEmails_start, reloadOf. destruct (noUser (currentUserId st)); simpl.
  - now rewrite app_nil_r.
  - reflexivity.
Qed.

(** A send that failed, for whatever reason, leaves the user where they
    were: the detail view stays shown with the text in the editor, the
    collection is not reloaded, and the failure is logged and reported. *)
Theorem failed_send_keeps_the_draft (o : outcome) (e : error) (st : state) :
  payloadFailure o = Some e ->
  let st' := sendResponse_resume o st in
  st' = sendResponse_finally
          (consoleError (js "Error sending response:") (Some e)
             (showToast (js "Failed to send response. Please try again. " ++ noEntry)
                Error st)) /\
  emailDetailView st' = emailDetailView st /\
  emailListView st' = emailListView st /\
  requests st' = requests st /\
  emailsData st' = emailsData st.
Proof.
  intros Hfail st'.
  assert (E : st' = sendResponse_finally
                      (consoleError (js "Error sending response:") (Some e)
                         (showToast
                            (js "Failed to send response. Please try again. " ++ noEntry)
                            Error st))).
  { unfold st', sendResponse_resume, exec, tryFinally, tryCatch.
    rewrite sendResponse_try_runs, Hfail. reflexivity. }
  split; [exact E|]. rewrite E. unfold showToast.
  destruct (toastContainer st); repeat split.
Qed.

(** A send the payload reports as successful, whatever the HTTP status,
    brings the list view back, hides the detail view, and reloads the
    collection once (if there is a user). *)
Theorem successful_send_returns_to_the_list (o : outcome) (st : state) :
  payloadFailure o = None ->
  let st' := sendResponse_resume o st in
  list_hidden (emailListView st') = false /\
  detail_hidden (emailDetailView st') = true /\
  requests st' = requests st ++ reloadOf st /\
  btn_disabled (sendResponseBtn st') = false.
Proof.
  intros Hok st'.
  assert (E : st' = sendResponse_finally
                      (goBack_click
                         (showToast (js "Response sent successfully! " ++ checkMark)
                            Success st))).
  { unfold st', sendResponse_resume, exec, tryFinally, tryCatch.
    rewrite sendResponse_try_runs, Hok. reflexivity. }
  rewrite E. unfold sendResponse_finally, goBack_click.
  split; [|split; [|split; [|reflexivity]]].
  - unfold loadEmails_start. now destruct (noUser _).
  - unfold loadEmails_start. now destruct (noUser _).
  - change (requests (setSendButton false (js "Send Response") ?s)) with (requests s).
    rewrite loadEmails_start_requests. unfold reloadOf, showToast.
    destruct (toastContainer st); reflexivity.
Qed.

(** The seed button: a click disables it and posts the seed request; when
    the request settles the button is enabled and labelled "Seed
    Database" again in every case; the collection is reloaded exactly
    once when the payload reports success (and there is a user) and not
    at all when it does not; the collection in memory is never touched
    by the seeding itself. *)
Theorem seed_reloads_once_on_success (o : outcome) (st : state) :
  let seeding := seed_click st in
  let st' := seed_resume o st in
  btn_disabled (seedDbBtn seeding) = true /\
  requests seeding = requests st ++ [seedRequest] /\
  pending seeding = pending st ++ [KSeed] /\
  btn_disabled (seedDbBtn st') = false /\
  btn_textContent (seedDbBtn st') = js "Seed Database" /\
  requests st'
  = requests st ++ match payloadFailure o with
                   | None => reloadOf st
                   | Some _ => []
                   end /\
  emailsData st' = emailsData st.
Proof.
  intros seeding st'.
  assert (Hclick : btn_disabled (seedDbBtn seeding) = true /\
                   requests seeding = requests st ++ [seedRequest] /\
                   pending seeding = pending st ++ [KSeed]).
  { unfold seeding, seed_click, showToast. simpl.
    destruct (toastContainer st); repeat split. }
  destruct Hclick as (Hc1 & Hc2 & Hc3).
  split; [exact Hc1|]. split; [exact Hc2|]. split; [exact Hc3|].
  unfold st', seed_resume, exec, tryFinally, tryCatch.
  rewrite seed_try_runs.
  destruct (payloadFailure o) as [e|].
  - unfold seed_catch, bind, modify, showToast. simpl.
    destruct (toastContainer st); simpl; rewrite app_nil_r; repeat split.
  - cbn [fst snd].
    split; [reflexivity|]. split; [reflexivity|]. split.
    + change (requests (setSeedButton false (js "Seed Database") ?s)) with (requests s).
      rewrite loadEmails_start_requests. unfold reloadOf, showToast.
      destruct (toastContainer st); reflexivity.
    + unfold loadEmails_start, showToast.
      destruct (toastContainer st); destruct (noUser _); reflexivity.
Qed.

Lemma failed_send_keeps_the_draft_witness :
  payloadFailure Rejected = Some FetchRejected /\
  emailDetailView (sendResponse_resume Rejected sampleDrafted) = emailDetailView sampleDrafted.
Proof.
  split; [reflexivity|].
  exact (proj1 (proj2 (failed_send_keeps_the_draft Rejected FetchRejected sampleDrafted
                         eq_refl))).
Defined.

Lemma successful_send_returns_to_the_list_witness :
  payloadFailure successUnder500 = None /\
  list_hidden (emailListView (sendResponse_resume successUnder500 sampleDrafted)) = false.
Proof.
  split; [reflexivity|].
  exact (proj1 (successful_send_returns_to_the_list successUnder500 sampleDrafted eq_refl)).
Defined.

(** ** What a reload leaves alone *)

Section ReloadFrame.
Context {host : Host}.

Lemma loadEmails_resume_keeps_the_session (o : outcome) (st : state) :
  currentUserId (loadEmails_resume o st) = currentUserId st /\
  isAuthReady (loadEmails_resume o st) = isAuthReady st /\
  requests (loadEmails_resume o st) = requests st /\
  pending (loadEmails_resume o st) = pending st /\
  intervals (loadEmails_resume o st) = intervals st.
Proof.
  apply (stable_exec
           (fun s =>
              currentUserId s = currentUserId st /\
              isAuthReady s = isAuthReady st /\
              requests s = requests st /\
              pending s = pending st /\
              intervals s = intervals st)); [|repeat split].
  unfold loadEmails_try, loadEmails_catch, awaited, checkOk, jsonOf, renderEmailList,
    showEmptyState, showErrorMessage.
  walk untouched.
Qed.

(** When the response of a reload arrives, whatever it is, loadEmails
    writes the collection, the markup of the list view, the analytics,
    the toasts and the console, and nothing else: the detail view with
    its editor, the two buttons, the session, the [hidden] class of the
    list view, the requests, the suspended functions and the timers are
    as before. A reload that arrives while a record is open does not
    disturb the reply being written. *)
Theorem reload_leaves_the_detail_view_alone (o : outcome) (st : state) :
  let st' := loadEmails_resume o st in
  emailDetailView st' = emailDetailView st /\
  sendResponseBtn st' = sendResponseBtn st /\
  seedDbBtn st' = seedDbBtn st /\
  list_hidden (emailListView st') = list_hidden (emailListView st) /\
  currentUserId st' = currentUserId st /\
  isAuthReady st' = isAuthReady st /\
  requests st' = requests st /\
  pending st' = pending st /\
  intervals st' = intervals st.
Proof.
  cbv zeta.
  apply (stable_exec
           (fun s =>
              emailDetailView s = emailDetailView st /\
              sendResponseBtn s = sendResponseBtn st /\
              seedDbBtn s = seedDbBtn st /\
              list_hidden (emailListView s) = list_hidden (emailListView st) /\
              currentUserId s = currentUserId st /\
              isAuthReady s = isAuthReady st /\
              requests s = requests st /\
              pending s = pending st /\
              intervals s = intervals st)); [|repeat split].
  unfold loadEmails_try, loadEmails_catch, awaited, checkOk, jsonOf, renderEmailList,
    showEmptyState, showErrorMessage.
  walk untouched.
Qed.

End ReloadFrame.

(** ** The session and the timers *)

Section SessionAndTimers.
Context {host : Host}.

Lemma observed_intervals (l : list interval) (s s' : state) :
  observed s = observed s' -> intervals s = l -> intervals s' = l.
Proof. intros H. observed_eq H. congruence. Qed.

Lemma observed_user (u : option jsstring) (s s' : state) :
  observed s = observed s' -> currentUserId s = u -> currentUserId s' = u.
Proof. intros H. observed_eq H. congruence. Qed.

(** Any task but the sign-in callback keeps what depends only on the
    session, the timers and the views, if swapping the views and marking
    the session ready keep it. *)
Lemma other_tasks_preserve (P : state -> Prop) (ev : event) (st : state) :
  (forall s s', observed s = observed s' -> P s -> P s') ->
  (forall s, P s -> P (setDetailHidden false (setListHidden true s))) ->
  (forall s, P s -> P (setListHidden false (setDetailHidden true s))) ->
  (forall s, P s -> P (set_isAuthReady true s)) ->
  (forall uid, ev <> AuthStateChanged (Some uid)) ->
  P st -> P (handle ev st).
Proof.
  intros Hobs Hshow Hback Hready Hev HP.
  destruct ev as [[uid|]|n o|n|card| | |]; simpl.
  - now contradiction (Hev uid).
  - now apply (stable_set_pending P Hobs), (stable_consoleLog P Hobs).
  - destruct (nth_error (pending st) n); [|exact HP].
    now apply (stable_resume P Hobs Hback Hready), (stable_set_pending P Hobs).
  - destruct (nth_error (intervals st) n) as [t|]; [|exact HP].
    destruct t as [p []]. now apply (stable_pollingCallback P Hobs).
  - exact (stable_exec P _ (preserves_emailListView_click P Hobs Hshow card) st HP).
  - now apply (stable_goBack_click P Hobs Hback).
  - exact (stable_exec P _ (preserves_sendResponse_click P Hobs) st HP).
  - now apply (stable_seed_click P Hobs).
Qed.

Lemma handle_intervals (ev : event) (st : state) :
  intervals (handle ev st)
  = intervals st ++ match ev with
                    | AuthStateChanged (Some _) => [pollingInterval]
                    | _ => []
                    end.
Proof.
  assert (Hother : (forall uid, ev <> AuthStateChanged (Some uid)) ->
                   intervals (handle ev st) = intervals st).
  { intros Hev.
    apply (other_tasks_preserve (fun s => intervals s = intervals st) ev st);
      try (intros s H; exact H); try assumption; try reflexivity.
    intros s s'. apply observed_intervals. }
  destruct ev as [[uid|]|n o|n|card| | |];
    try (rewrite Hother by discriminate; now rewrite app_nil_r).
  simpl. unfold loadEmails_start. now destruct (noUser _).
Qed.

(** Every call of the auth callback with a user registers one more
    polling timer, and no other task registers or clears one: after a
    run there are as many more timers as the run had such calls, each
    reloading the list every 30 seconds. *)
Theorem one_polling_timer_per_sign_in (evs : list event) (st : state) :
  intervals (run evs st) = intervals st ++ repeat pollingInterval (signIns evs).
Proof.
  unfold run. revert st. induction evs as [|ev evs IH]; intros st; simpl.
  - now rewrite app_nil_r.
  - rewrite IH, handle_intervals, <- app_assoc. f_equal.
    destruct ev as [[uid|]|n o|n|card| | |]; reflexivity.
Qed.

(** The user identifier is written by the auth callback when it is called
    with a user and by nothing else, and a session once marked ready is
    never marked otherwise. *)
Theorem session_is_written_by_the_auth_callback (ev : event) (st : state) :
  currentUserId (handle ev st)
  = match ev with
    | AuthStateChanged (Some uid) => Some uid
    | _ => currentUserId st
    end /\
  (isAuthReady st = true -> isAuthReady (handle ev st) = true).
Proof.
  split.
  - assert (Hother : (forall uid, ev <> AuthStateChanged (Some uid)) ->
                     currentUserId (handle ev st) = currentUserId st).
    { intros Hev.
      apply (other_tasks_preserve (fun s => currentUserId s = currentUserId st) ev st);
        try (intros s H; exact H); try assumption; try reflexivity.
      intros s s'. apply observed_user. }
    destruct ev as [[uid|]|n o|n|card| | |]; try (apply Hother; discriminate).
    simpl. unfold loadEmails_start. now destruct (noUser _).
  - apply (handle_preserves (fun s => isAuthReady s = true)).
    + intros s s' H. observed_eq H. congruence.
    + intros s H. exact H.
    + intros s H. exact H.
    + reflexivity.
    + reflexivity.
Qed.

(** In every state the script can reach, exactly one of the two views
    carries the [hidden] class. *)
Theorem exactly_one_view_is_shown (st : state) :
  reachable st ->
  list_hidden (emailListView st) = negb (detail_hidden (emailDetailView st)).
Proof. intros H. exact (reachable_viewInv st H). Qed.

(** A sign-in that is rejected marks the session ready and leaves it
    without a user, so every later reload (the back button, a tick of the
    polling timer) only logs that it is waiting: the ready mark is not
    what loadEmails tests. *)
Theorem rejected_sign_in_leaves_reloads_waiting (st : state) :
  noUser (currentUserId st) = true ->
  let st' := signIn_resume Rejected st in
  isAuthReady st' = true /\
  currentUserId st' = currentUserId st /\
  requests (goBack_click st') = requests st /\
  requests (pollingCallback st') = requests st /\
  loadEmails_start st'
  = consoleLog (js "Waiting for user authentication...") None st'.
Proof.
  intros Hno st'.
  assert (Huser : currentUserId st' = currentUserId st).
  { unfold st', signIn_resume, showToast. simpl. now destruct (toastContainer st). }
  assert (Hreq : requests st' = requests st).
  { unfold st', signIn_resume, showToast. simpl. now destruct (toastContainer st). }
  assert (Hready : isAuthReady st' = true).
  { unfold st', signIn_resume, showToast. simpl. now destruct (toastContainer st). }
  repeat split; try assumption.
  - unfold goBack_click, loadEmails_start. simpl. rewrite Huser, Hno. simpl. exact Hreq.
  - unfold pollingCallback, loadEmails_start. rewrite Huser, Hno.
    destruct (Bool.eqb _ _); simpl; exact Hreq.
  - unfold loadEmails_start. now rewrite Huser, Hno.
Qed.

(** From the loaded page, the sign-in and the answer to the first fetch:
    whatever JSON arrives is the collection, one request has gone out and
    none is awaited any more, one polling timer runs, and the session is
    ready with this user. *)
Theorem first_load_after_sign_in (uid : jsstring) (r : response) (v : value) (st0 : state) :
  initial st0 ->
  uid <> [] ->
  resp_ok r = true ->
  resp_json r = Some v ->
  let st := run [AuthStateChanged (Some uid); Settle 0 (Resolved r)] st0 in
  emailsData st = v /\
  currentUserId st = Some uid /\
  isAuthReady st = true /\
  requests st = [fetchEmailsRequest] /\
  pending st = [] /\
  intervals st = [pollingInterval].
Proof.
  intros (Hu & _ & _ & _ & Hreq & Hpend & Hint) Huid Hok Hjson st.
  assert (Hno : str_eqb uid [] = false).
  { destruct (str_eqb uid []) eqn:E; [|reflexivity].
    apply str_eqb_eq in E. contradiction. }
  set (s1 := handle (AuthStateChanged (Some uid)) st0).
  assert (H1 : currentUserId s1 = Some uid /\ isAuthReady s1 = true /\
               requests s1 = [fetchEmailsRequest] /\ pending s1 = [KLoadEmails] /\
               intervals s1 = [pollingInterval]).
  { unfold s1. simpl. unfold loadEmails_start. simpl. rewrite Hno. simpl.
    rewrite Hreq, Hpend, Hint. repeat split. }
  destruct H1 as (U1 & R1 & Q1 & P1 & I1).
  assert (E : st = loadEmails_resume (Resolved r) (set_pending [] s1)).
  { assert (E0 : st = handle (Settle 0 (Resolved r)) s1) by reflexivity.
    rewrite E0. unfold handle. rewrite P1. reflexivity. }
  rewrite E.
  destruct (loadEmails_resume_keeps_the_session (Resolved r) (set_pending [] s1))
    as (Hu' & Hr' & Hq' & Hp' & Hi').
  rewrite Hu', Hr', Hq', Hp', Hi'.
  split.
  { rewrite (loadEmails_after_json r v _ Hok Hjson).
    now apply loadEmails_keeps_the_json. }
  repeat split; assumption.
Qed.

End SessionAndTimers.

Lemma exactly_one_view_is_shown_witness :
  reachable sampleDetail /\
  list_hidden (emailListView sampleDetail)
  = negb (detail_hidden (emailDetailView sampleDetail)).
Proof.
  assert (H : reachable sampleDetail)
    by (apply reachable_run, sampleSession_is_reachable).
  split; [exact H|].
  exact (exactly_one_view_is_shown sampleDetail H).
Defined.

Lemma rejected_sign_in_leaves_reloads_waiting_witness :
  noUser (currentUserId samplePage) = true /\
  requests (goBack_click (signIn_resume Rejected samplePage)) = requests samplePage.
Proof.
  split; [reflexivity|].
  exact (proj1 (proj2 (proj2 (rejected_sign_in_leaves_reloads_waiting samplePage eq_refl)))).
Defined.

Lemma first_load_after_sign_in_witness :
  (initial samplePage /\ js "uid-1" <> [] /\
   resp_ok {| resp_status := 200; resp_json := Some (VArr sampleEmails) |} = true) /\
  emailsData
    (run [AuthStateChanged (Some (js "uid-1"));
          Settle 0 (Resolved {| resp_status := 200; resp_json := Some (VArr sampleEmails) |})]
       samplePage)
  = VArr sampleEmails.
Proof.
  assert (Huid : js "uid-1" <> []) by discriminate.
  split; [split; [exact samplePage_is_initial | split; [exact Huid | reflexivity]]|].
  exact (proj1 (first_load_after_sign_in (js "uid-1")
                  {| resp_status := 200; resp_json := Some (VArr sampleEmails) |}
                  (VArr sampleEmails) samplePage samplePage_is_initial Huid
                  eq_refl eq_refl)).
Defined.

(** ** One record the script cannot read *)

Section UnreadableRecord.
Context {host : Host}.

Lemma unclassifiable_unrenderable (elems : list value) :
  forallb classifiable elems = false -> forallb renderable elems = false.
Proof.
  intros H. destruct (forallb renderable elems) eqn:E; [|reflexivity].
  now rewrite (renderable_classifiable elems E) in H.
Qed.

(** One record the script cannot read ([null], or a sentiment or priority
    that is neither a string nor unset) takes the whole list with it:
    the fetch succeeded, yet the list view shows the error placeholder
    and not a single card, the analytics are not updated, and the
    collection in memory is the new one all the same. *)
Theorem one_unreadable_record_hides_the_list (r : response) (elems : list value) (st : state) :
  resp_ok r = true ->
  resp_json r = Some (VArr elems) ->
  forallb classifiable elems = false ->
  let st' := loadEmails_resume (Resolved r) st in
  list_innerHTML (emailListView st') = [ErrorMarkup networkMessage] /\
  analytics st' = analytics st /\
  emailsData st' = VArr elems.
Proof.
  intros Hok Hjson Hall st'.
  destruct (loadEmails_stops r elems st Hok Hjson (unclassifiable_unrenderable elems Hall))
    as (s1 & E & Hpanel & Hdata & _).
  unfold st'. rewrite E. unfold showToast.
  destruct (toastContainer _); repeat split; assumption.
Qed.

(** So does one record with a value the card template cannot convert to
    a string (an identifier, status, customer name, summary, sender or
    timestamp that is an object with a key [toString]): renderEmailList
    throws at that record, loadEmails logs the TypeError and shows the
    error toast and the error placeholder, and never gets to count. *)
Theorem record_that_cannot_be_printed_hides_the_list
    (r : response) (elems : list value) (st : state) :
  resp_ok r = true ->
  resp_json r = Some (VArr elems) ->
  forallb renderable elems = false ->
  let st' := loadEmails_resume (Resolved r) st in
  list_innerHTML (emailListView st') = [ErrorMarkup networkMessage] /\
  analytics st' = analytics st /\
  emailsData st' = VArr elems /\
  forall toasts,
    toastContainer st = Some toasts ->
    toastContainer st' = Some (toasts ++ [mkToast loadFailure Error]) /\
    console st' = console st ++ [ConsoleError (js "Error fetching emails:") (Some TypeError)].
Proof.
  intros Hok Hjson Hall st'.
  destruct (loadEmails_stops r elems st Hok Hjson Hall)
    as (s1 & E & Hpanel & Hdata & Htoasts & Hconsole).
  unfold st'. rewrite E. unfold showToast.
  cbn [toastContainer consoleError set_console]. rewrite Htoasts.
  split; [now destruct (toastContainer st)|].
  split; [now destruct (toastContainer st)|].
  split; [now destruct (toastContainer st)|].
  intros toasts Hts. rewrite Hts. cbn. now rewrite Hconsole.
Qed.

End UnreadableRecord.

Lemma one_unreadable_record_hides_the_list_witness :
  (resp_ok {| resp_status := 200; resp_json := Some (VArr sampleUnreadable) |} = true /\
   forallb classifiable sampleUnreadable = false) /\
  list_innerHTML
    (emailListView
       (loadEmails_resume
          (Resolved {| resp_status := 200; resp_json := Some (VArr sampleUnreadable) |})
          sampleSession))
  = [ErrorMarkup networkMessage].
Proof.
  split; [split; reflexivity|].
  exact (proj1 (one_unreadable_record_hides_the_list
                  {| resp_status := 200; resp_json := Some (VArr sampleUnreadable) |}
                  sampleUnreadable sampleSession eq_refl eq_refl eq_refl)).
Defined.

Lemma record_that_cannot_be_printed_hides_the_list_witness :
  (resp_ok {| resp_status := 200; resp_json := Some (VArr sampleUnprintable) |} = true /\
   forallb classifiable sampleUnprintable = true /\
   forallb renderable sampleUnprintable = false) /\
  list_innerHTML
    (emailListView
       (loadEmails_resume
          (Resolved {| resp_status := 200; resp_json := Some (VArr sampleUnprintable) |})
          sampleSession))
  = [ErrorMarkup networkMessage].
Proof.
  split; [repeat split|].
  exact (proj1 (record_that_cannot_be_printed_hides_the_list
                  {| resp_status := 200; resp_json := Some (VArr sampleUnprintable) |}
                  sampleUnprintable sampleSession eq_refl eq_refl eq_refl)).
Defined.
